(** * FUTURA budget tracker: the request handlers of [backend/server.py]

    A shallow embedding of the handlers of the FastAPI application and of the
    document collections they read and write, followed by the properties of
    the handlers.

    Conventions of the embedding.
    - Amounts and budgets are Python [float]s in the source.  They are
      embedded as exact rationals [Q]: rounding, infinities and NaN are
      outside this development.
    - A MongoDB collection is the list of its documents in insertion order.
      Datetimes are UTC; a stored date is kept as the datetime whose
      [isoformat] string the collection holds, and the collection compares
      dates through that string, as MongoDB does.  A date a client sends
      with another offset, or with none, is outside this development.
    - The counts sent to the driver ([limit], [offset]) are followed for the
      values it encodes, within 64 bits.
    - The documents of [db.users] are those [register] writes;
      [PUT /user/settings], which writes arbitrary fields, is outside this
      development.
    - The clock ([datetime.now]) and the identifier source ([uuid.uuid4]) are
      inputs of the handler that reads them.  The clock is taken inside the
      range of [datetime], far enough from its ends that subtracting a
      [timedelta] stays inside it.
    - A handler returns a [response]: its value, an [HTTPException] it
      raised, or the exception that escaped it.  *)

From Stdlib Require Import ZArith QArith List String Ascii Bool Lia Lqa.
From Stdlib Require Import DecimalString Permutation Sorted.
Import ListNotations.

Local Open Scope string_scope.
Local Open Scope Z_scope.

(** ** Responses *)

Inductive exn : Type :=
| ValueError (msg : string)
| TypeError (msg : string)
| ZeroDivisionError
| ValidationError (field : string) (msg : string).

Inductive response (A : Type) : Type :=
| Ok (a : A)
| HTTPException (status_code : Z) (detail : string)
| RequestValidationError (errors : list string)
| Unhandled (e : exn).

Arguments Ok {A} a.
Arguments HTTPException {A} status_code detail.
Arguments RequestValidationError {A} errors.
Arguments Unhandled {A} e.

(** The status line FastAPI sends: 200 for a returned value, the status of a
    raised [HTTPException], 422 for a body that fails its pydantic model, 500
    for any other exception. *)
Definition status_of {A : Type} (r : response A) : Z :=
  match r with
  | Ok _ => 200
  | HTTPException s _ => s
  | RequestValidationError _ => 422
  | Unhandled _ => 500
  end.

Definition bind {A B : Type} (r : response A) (k : A -> response B) : response B :=
  match r with
  | Ok a => k a
  | HTTPException s d => HTTPException s d
  | RequestValidationError es => RequestValidationError es
  | Unhandled e => Unhandled e
  end.

Notation "x <- r ;; k" := (bind r (fun x => k))
  (at level 100, r at next level, right associativity).

Fixpoint mapM {A B : Type} (f : A -> response B) (l : list A) : response (list B) :=
  match l with
  | [] => Ok []
  | a :: r => b <- f a ;; bs <- mapM f r ;; Ok (b :: bs)
  end.

(** ** Python built-ins on numbers *)

Module Py.

Definition ltb (a b : Q) : bool := negb (Qle_bool b a).
Definition gtb (a b : Q) : bool := ltb b a.

(** [sum(xs)]: starts from 0 and adds from the left. *)
Definition sum (xs : list Q) : Q := fold_left Qplus xs 0%Q.

(** [min(a, b)]: the first argument unless the second is smaller. *)
Definition min (a b : Q) : Q := if ltb b a then b else a.

(** [a / b]. *)
Definition div (a b : Q) : response Q :=
  if Qeq_bool b 0 then Unhandled ZeroDivisionError else Ok (a / b)%Q.

(** Truth value of a string. *)
Definition truthy (s : string) : bool := negb (s =? "")%string.

(** [format(x, '.0f')]: the nearest integer, ties to even, with the sign
    kept in front. *)
Definition round_half_even (x : Q) : Z :=
  let n := Z.abs (Qnum x) in
  let d := Z.pos (Qden x) in
  let q := n / d in
  let r := n mod d in
  match (2 * r ?= d) with
  | Lt => q
  | Gt => q + 1
  | Eq => if Z.even q then q else q + 1
  end.

Definition format_0f (x : Q) : string :=
  (if Qnum x <? 0 then "-" else "")
    ++ NilZero.string_of_uint (N.to_uint (Z.to_N (round_half_even x))).

Definition str_of_nat (n : nat) : string :=
  NilZero.string_of_uint (Nat.to_uint n).

End Py.

(** ** [datetime] *)

Module DateTime.

Record t : Type := make
  { year : Z; month : Z; day : Z;
    hour : Z; minute : Z; second : Z; microsecond : Z }.

Definition is_leap (y : Z) : bool :=
  ((y mod 4 =? 0) && negb (y mod 100 =? 0)) || (y mod 400 =? 0).

Definition days_in_month (y m : Z) : Z :=
  if m =? 2 then (if is_leap y then 29 else 28)
  else if (m =? 4) || (m =? 6) || (m =? 9) || (m =? 11) then 30
  else 31.

(** [d - timedelta(days=1)]. *)
Definition pred_day (d : t) : t :=
  if 1 <? day d then
    make (year d) (month d) (day d - 1) (hour d) (minute d) (second d) (microsecond d)
  else if 1 <? month d then
    make (year d) (month d - 1) (days_in_month (year d) (month d - 1))
         (hour d) (minute d) (second d) (microsecond d)
  else
    make (year d - 1) 12 31 (hour d) (minute d) (second d) (microsecond d).

(** [d - timedelta(days=n)]. *)
Definition minus_days (d : t) (n : nat) : t := Nat.iter n pred_day d.

(** [d.replace(month=m, day=dd)]: [ValueError] outside the calendar. *)
Definition replace_month_day (d : t) (m dd : Z) : response t :=
  if (1 <=? m) && (m <=? 12) then
    if (1 <=? dd) && (dd <=? days_in_month (year d) m) then
      Ok (make (year d) m dd (hour d) (minute d) (second d) (microsecond d))
    else Unhandled (ValueError "day is out of range for month")
  else Unhandled (ValueError "month must be in 1..12").

(** [d.replace(day=1, hour=0, minute=0, second=0, microsecond=0)]: day 1
    exists in every month. *)
Definition start_of_month (d : t) : t := make (year d) (month d) 1 0 0 0 0.

(** [d.date()]. *)
Definition date (d : t) : Z * Z * Z := (year d, month d, day d).

Definition date_eqb (a b : Z * Z * Z) : bool :=
  let '(y1, m1, d1) := a in
  let '(y2, m2, d2) := b in
  (y1 =? y2) && (m1 =? m2) && (d1 =? d2).

Definition digit (n : Z) : ascii := ascii_of_nat (48 + Z.to_nat (n mod 10)).

Definition pad2 (n : Z) : string :=
  String (digit (n / 10)) (String (digit n) "").
Definition pad4 (n : Z) : string := pad2 (n / 100) ++ pad2 n.
Definition pad6 (n : Z) : string := pad2 (n / 10000) ++ pad4 n.

(** [d.strftime("%Y-%m-%d")]. *)
Definition strftime_ymd (d : t) : string :=
  pad4 (year d) ++ "-" ++ pad2 (month d) ++ "-" ++ pad2 (day d).

(** [d.isoformat()] of a UTC datetime: the fraction is printed only when
    it is not zero. *)
Definition isoformat (d : t) : string :=
  strftime_ymd d ++ "T" ++ pad2 (hour d) ++ ":" ++ pad2 (minute d) ++ ":"
    ++ pad2 (second d)
    ++ (if microsecond d =? 0 then "" else "." ++ pad6 (microsecond d))
    ++ "+00:00".

End DateTime.

(** ** Pydantic models and stored documents *)

Module User.
Record t : Type := make
  { id : string; name : string; email : string; currency : string;
    monthly_budget : Q; created_at : DateTime.t }.
End User.

Module UserCreate.
Record t : Type := make { name : string; email : string; password : string }.
End UserCreate.

(** A document of [db.users]: the fields of [User] and [password_hash]. *)
Module UserDoc.
Record t : Type := make { user : User.t; password_hash : string }.
Definition email (d : t) : string := User.email (user d).
End UserDoc.

Module TransactionCreate.
Record t : Type := make
  { type : string; amount : Q; category : string; description : string;
    payment_type : string; tags : list string; date : option DateTime.t }.

Definition validate_type (v : string) : list string :=
  if ((v =? "income") || (v =? "expense"))%string then []
  else ["Type must be income or expense"].

Definition validate_amount (v : Q) : list string :=
  if Qle_bool v 0 then ["Amount must be positive"] else [].

(** The messages of the validators that reject the body; none when the
    model accepts it. *)
Definition errors (b : t) : list string :=
  (validate_type (type b) ++ validate_amount (amount b))%list.
End TransactionCreate.

Module Transaction.
Record t : Type := make
  { id : string; user_id : string; type : string; amount : Q;
    category : string; description : string; payment_type : string;
    tags : list string; date : DateTime.t; created_at : DateTime.t;
    deleted : bool }.
End Transaction.

(** A document of [db.transactions].  Its [date] is null after a [$set] of a
    body without date. *)
Module TransactionDoc.
Record t : Type := make
  { id : string; user_id : string; type : string; amount : Q;
    category : string; description : string; payment_type : string;
    tags : list string; date : option DateTime.t; created_at : DateTime.t;
    deleted : bool }.

(** [prepare_for_mongo(transaction.dict())]. *)
Definition of_model (m : Transaction.t) : t :=
  make (Transaction.id m) (Transaction.user_id m) (Transaction.type m)
       (Transaction.amount m) (Transaction.category m)
       (Transaction.description m) (Transaction.payment_type m)
       (Transaction.tags m) (Some (Transaction.date m))
       (Transaction.created_at m) (Transaction.deleted m).

(** The [Transaction] built from [parse_from_mongo(doc)]: [date] is a
    required [datetime], null is refused. *)
Definition to_model (d : t) : response Transaction.t :=
  match date d with
  | None => Unhandled (ValidationError "date" "none is not an allowed value")
  | Some dt =>
      Ok (Transaction.make (id d) (user_id d) (type d) (amount d)
            (category d) (description d) (payment_type d) (tags d) dt
            (created_at d) (deleted d))
  end.

(** [{"$set": prepare_for_mongo(transaction_data.dict())}]. *)
Definition set_fields (b : TransactionCreate.t) (d : t) : t :=
  make (id d) (user_id d) (TransactionCreate.type b)
       (TransactionCreate.amount b) (TransactionCreate.category b)
       (TransactionCreate.description b) (TransactionCreate.payment_type b)
       (TransactionCreate.tags b) (TransactionCreate.date b)
       (created_at d) (deleted d).

(** [{"$set": {"deleted": True}}]. *)
Definition set_deleted (d : t) : t :=
  make (id d) (user_id d) (type d) (amount d) (category d) (description d)
       (payment_type d) (tags d) (date d) (created_at d) true.
End TransactionDoc.

(** ** Document collections *)

Module Mongo.

Section Collection.
Context {D : Type}.

(** [find(query)], in insertion order. *)
Definition find (q : D -> bool) (c : list D) : list D := filter q c.

(** [find_one(query)]: the first match, [None] without one. *)
Definition find_one (q : D -> bool) (c : list D) : option D := List.find q c.

(** [insert_one(doc)]. *)
Definition insert_one (d : D) (c : list D) : list D := (c ++ [d])%list.

(** [update_one(query, {"$set": ...})]: the first match is rewritten; the
    result carries [matched_count]. *)
Fixpoint update_one (q : D -> bool) (set : D -> D) (c : list D) : Z * list D :=
  match c with
  | [] => (0, [])
  | d :: r =>
      if q d then (1, set d :: r)
      else let '(n, r') := update_one q set r in (n, d :: r')
  end.

(** [sort(key, -1)]: descending, documents with equal keys in insertion
    order. *)
Section Sort.
Variable key_ltb : D -> D -> bool.

Fixpoint insert_desc (d : D) (l : list D) : list D :=
  match l with
  | [] => [d]
  | x :: r => if key_ltb d x then x :: insert_desc d r else d :: x :: r
  end.

Definition sort_desc (l : list D) : list D := fold_right insert_desc [] l.
End Sort.

(** [skip(n)]: a negative count is refused by the driver.  Counts beyond
    64 bits, which the driver does not encode, are not followed. *)
Definition skip (n : Z) (l : list D) : response (list D) :=
  if n <? 0 then Unhandled (ValueError "skip must be >= 0")
  else Ok (skipn (Z.to_nat n) l).

(** [limit(n)]: 0 is no limit, a negative count limits to its absolute
    value, which the server answers in a single batch.  Counts beyond 64
    bits are not followed. *)
Definition limit (n : Z) (l : list D) : list D :=
  if n =? 0 then l else firstn (Z.to_nat (Z.abs n)) l.
End Collection.

(** Order of the values of a date field: null sorts before every string,
    strings by their bytes. *)
Definition value_ltb (a b : option string) : bool :=
  match a, b with
  | None, None => false
  | None, Some _ => true
  | Some _, None => false
  | Some x, Some y => String.ltb x y
  end.

(** [{"$gte": s}] on a field: only a string at least [s] matches. *)
Definition gte (s : string) (v : option string) : bool :=
  match v with
  | None => false
  | Some x => String.leb s x
  end.

End Mongo.

Definition date_value (d : TransactionDoc.t) : option string :=
  option_map DateTime.isoformat (TransactionDoc.date d).

Definition date_ltb (a b : TransactionDoc.t) : bool :=
  Mongo.value_ltb (date_value a) (date_value b).

Definition is_income (t : Transaction.t) : bool :=
  (Transaction.type t =? "income")%string.

Definition is_expense (t : Transaction.t) : bool :=
  (Transaction.type t =? "expense")%string.

(** [sum(t.amount for t in ts if p(t))]. *)
Definition sum_amounts (p : Transaction.t -> bool) (ts : list Transaction.t) : Q :=
  Py.sum (map Transaction.amount (filter p ts)).

(** [d[k] = d.get(k, 0) + v] on a dict, kept in insertion order. *)
Fixpoint dict_add (k : string) (v : Q) (d : list (string * Q)) : list (string * Q) :=
  match d with
  | [] => [(k, (0 + v)%Q)]
  | (k', v') :: r =>
      if (k' =? k)%string then (k', (v' + v)%Q) :: r
      else (k', v') :: dict_add k v r
  end.

(** The loop of the dashboard: the totals per category of the expenses among
    [transactions]. *)
Definition category_breakdown_of (transactions : list Transaction.t)
    : list (string * Q) :=
  fold_left
    (fun d t =>
       if is_expense t then dict_add (Transaction.category t) (Transaction.amount t) d
       else d)
    transactions [].

(** The loop of the insights: the totals per category of [expenses]. *)
Definition category_totals_of (expenses : list Transaction.t) : list (string * Q) :=
  fold_left
    (fun d t => dict_add (Transaction.category t) (Transaction.amount t) d)
    expenses [].

(** ** Authentication endpoints *)

Record TokenResponse : Type := mkTokenResponse
  { access_token : string; token_type : string; token_user : User.t }.

Section Auth.

(** [passlib] and [jose] are used as given.  [create_access_token] stands
    for the call one request makes: the expiry it writes into the token is
    read from the clock at that call, so two requests issue their tokens
    with two such functions. *)
Variable get_password_hash : string -> string.
Variable create_access_token : string -> string.

Definition register (user_data : UserCreate.t) (uuid : string) (now : DateTime.t)
    (users : list UserDoc.t) : response TokenResponse * list UserDoc.t :=
  match Mongo.find_one
          (fun d => (UserDoc.email d =? UserCreate.email user_data)%string) users with
  | Some _ => (HTTPException 400 "Email already registered", users)
  | None =>
      let hashed_password := get_password_hash (UserCreate.password user_data) in
      let user :=
        User.make uuid (UserCreate.name user_data) (UserCreate.email user_data)
                  "₹" 10000%Q now in
      let users' := Mongo.insert_one (UserDoc.make user hashed_password) users in
      (Ok (mkTokenResponse (create_access_token (User.id user)) "bearer" user),
       users')
  end.

End Auth.

(** ** Transaction endpoints *)

Definition create_transaction (transaction_data : TransactionCreate.t)
    (current_user : User.t) (uuid : string) (now created : DateTime.t)
    (transactions : list TransactionDoc.t)
    : response Transaction.t * list TransactionDoc.t :=
  let date :=
    match TransactionCreate.date transaction_data with
    | None => now
    | Some d => d
    end in
  let transaction :=
    Transaction.make uuid (User.id current_user)
      (TransactionCreate.type transaction_data)
      (TransactionCreate.amount transaction_data)
      (TransactionCreate.category transaction_data)
      (TransactionCreate.description transaction_data)
      (TransactionCreate.payment_type transaction_data)
      (TransactionCreate.tags transaction_data)
      date created false in
  (Ok transaction, Mongo.insert_one (TransactionDoc.of_model transaction) transactions).

(** [POST /transactions]: the body is bound to [TransactionCreate] before the
    handler runs; a body the model refuses never reaches it. *)
Definition post_transactions (body : TransactionCreate.t)
    (current_user : User.t) (uuid : string) (now created : DateTime.t)
    (transactions : list TransactionDoc.t)
    : response Transaction.t * list TransactionDoc.t :=
  match TransactionCreate.errors body with
  | [] => create_transaction body current_user uuid now created transactions
  | es => (RequestValidationError es, transactions)
  end.

Definition list_query (current_user : User.t) (category type : option string)
    (d : TransactionDoc.t) : bool :=
  (TransactionDoc.user_id d =? User.id current_user)%string
  && negb (TransactionDoc.deleted d)
  && match category with
     | Some c => if Py.truthy c then (TransactionDoc.category d =? c)%string else true
     | None => true
     end
  && match type with
     | Some ty => if Py.truthy ty then (TransactionDoc.type d =? ty)%string else true
     | None => true
     end.

Definition get_transactions (limit offset : Z) (category type : option string)
    (current_user : User.t) (transactions : list TransactionDoc.t)
    : response (list Transaction.t) :=
  let found := Mongo.find (list_query current_user category type) transactions in
  skipped <- Mongo.skip offset (Mongo.sort_desc date_ltb found) ;;
  mapM TransactionDoc.to_model (Mongo.limit limit skipped).

Definition owner_query (transaction_id : string) (current_user : User.t)
    (d : TransactionDoc.t) : bool :=
  (TransactionDoc.id d =? transaction_id)%string
  && (TransactionDoc.user_id d =? User.id current_user)%string.

Definition update_transaction (transaction_id : string)
    (transaction_data : TransactionCreate.t) (current_user : User.t)
    (transactions : list TransactionDoc.t)
    : response Transaction.t * list TransactionDoc.t :=
  let '(matched_count, transactions') :=
    Mongo.update_one (owner_query transaction_id current_user)
      (TransactionDoc.set_fields transaction_data) transactions in
  if matched_count =? 0 then
    (HTTPException 404 "Transaction not found", transactions')
  else
    match Mongo.find_one
            (fun d => (TransactionDoc.id d =? transaction_id)%string) transactions' with
    | Some updated_transaction =>
        (TransactionDoc.to_model updated_transaction, transactions')
    | None => (Unhandled (TypeError "argument after ** must be a mapping"), transactions')
    end.

(** [PUT /transactions/{transaction_id}], with the binding of the body. *)
Definition put_transaction (transaction_id : string) (body : TransactionCreate.t)
    (current_user : User.t) (transactions : list TransactionDoc.t)
    : response Transaction.t * list TransactionDoc.t :=
  match TransactionCreate.errors body with
  | [] => update_transaction transaction_id body current_user transactions
  | es => (RequestValidationError es, transactions)
  end.

Definition delete_transaction (transaction_id : string) (current_user : User.t)
    (transactions : list TransactionDoc.t)
    : response string * list TransactionDoc.t :=
  let '(matched_count, transactions') :=
    Mongo.update_one (owner_query transaction_id current_user)
      TransactionDoc.set_deleted transactions in
  if matched_count =? 0 then
    (HTTPException 404 "Transaction not found", transactions')
  else (Ok "Transaction deleted successfully", transactions').

(** ** Dashboard endpoint *)

Record DashboardData : Type := mkDashboardData
  { total_income : Q;
    total_expenses : Q;
    balance : Q;
    budget_used_percent : Q;
    recent_transactions : list Transaction.t;
    category_breakdown : list (string * Q);
    monthly_trend : list (string * Q) }.

(** The query of the dashboard and of the insights: the user's documents
    that are not deleted and dated from [start_date] on. *)
Definition period_query (current_user : User.t) (start_date : DateTime.t)
    (d : TransactionDoc.t) : bool :=
  (TransactionDoc.user_id d =? User.id current_user)%string
  && negb (TransactionDoc.deleted d)
  && Mongo.gte (DateTime.isoformat start_date) (date_value d).

Definition start_date_of (period : string) (now : DateTime.t) : DateTime.t :=
  if (period =? "monthly")%string then DateTime.start_of_month now
  else if (period =? "weekly")%string then DateTime.minus_days now 7
  else DateTime.minus_days now 30.

(** The entry of the trend for the day [i] days before [now]. *)
Definition trend_entry (now : DateTime.t) (transactions : list Transaction.t)
    (i : nat) : string * Q :=
  let day := DateTime.minus_days now i in
  let day_transactions :=
    filter (fun t => DateTime.date_eqb (DateTime.date (Transaction.date t))
                                       (DateTime.date day)) transactions in
  (DateTime.strftime_ymd day, sum_amounts is_expense day_transactions).

Definition budget_percent (total_expenses monthly_budget : Q) : response Q :=
  if Py.gtb monthly_budget 0 then
    ratio <- Py.div total_expenses monthly_budget ;;
    Ok (Py.min (ratio * 100) 100)%Q
  else Ok 0%Q.

Definition get_dashboard_data (period : string) (current_user : User.t)
    (now : DateTime.t) (db_transactions : list TransactionDoc.t)
    : response DashboardData :=
  let start_date := start_date_of period now in
  let found :=
    Mongo.sort_desc date_ltb
      (Mongo.find (period_query current_user start_date) db_transactions) in
  transactions <- mapM TransactionDoc.to_model found ;;
  let total_income := sum_amounts is_income transactions in
  let total_expenses := sum_amounts is_expense transactions in
  let balance := (total_income - total_expenses)%Q in
  budget_used_percent <- budget_percent total_expenses (User.monthly_budget current_user) ;;
  let category_breakdown := category_breakdown_of transactions in
  let monthly_trend := map (trend_entry now transactions) (seq 0 7) in
  Ok (mkDashboardData total_income total_expenses balance budget_used_percent
        (firstn 10 transactions) category_breakdown (rev monthly_trend)).

(** ** Insights endpoint *)

Inductive projection : Type :=
| NoData (balance : Z) (message : string)
| MonthEnd (projected_spend projected_balance : Q) (message : string).

Record Insights : Type := mkInsights
  { tips : list string; insights_projection : projection }.

(** [max(d, key=d.get)]: the first key whose value no later one exceeds. *)
Definition max_key (d : list (string * Q)) : option (string * Q) :=
  fold_left
    (fun best kv =>
       match best with
       | None => Some kv
       | Some b => if Py.ltb (snd b) (snd kv) then Some kv else best
       end)
    d None.

Definition starter_tip : string :=
  "Start tracking your expenses to get personalized insights!".

Definition top_category_tip (total_expenses : Q) (category_totals : list (string * Q))
    : response (list string) :=
  match max_key category_totals with
  | None => Ok []
  | Some (top_category, top_amount) =>
      ratio <- Py.div top_amount total_expenses ;;
      let percentage := (ratio * 100)%Q in
      if Py.gtb percentage 30 then
        Ok ["You spent " ++ Py.format_0f percentage ++ "% on " ++ top_category
              ++ ". Consider setting a monthly limit to track this category better."]%string
      else Ok []
  end.

Definition small_expenses_tip (expenses : list Transaction.t) : list string :=
  let small_expenses := filter (fun t => Py.ltb (Transaction.amount t) 100) expenses in
  if (10 <? List.length small_expenses)%nat then
    let small_total := Py.sum (map Transaction.amount small_expenses) in
    ["You made " ++ Py.str_of_nat (List.length small_expenses)
       ++ " small purchases totaling ₹" ++ Py.format_0f small_total
       ++ ". These add up quickly!"]%string
  else [].

Definition budget_tip (total_expenses monthly_budget : Q) : list string :=
  if Py.gtb total_expenses monthly_budget then
    let overspend := (total_expenses - monthly_budget)%Q in
    ["You're ₹" ++ Py.format_0f overspend
       ++ " over budget this month. Try to reduce discretionary spending."]%string
  else
    let savings := (monthly_budget - total_expenses)%Q in
    ["Great job! You're ₹" ++ Py.format_0f savings
       ++ " under budget. Consider saving this amount."]%string.

(** [(now.replace(month=now.month+1, day=1) - timedelta(days=1)).day]. *)
Definition days_in_current_month (now : DateTime.t) : response Z :=
  first_of_next <- DateTime.replace_month_day now (DateTime.month now + 1) 1 ;;
  Ok (DateTime.day (DateTime.pred_day first_of_next)).

Definition get_insights (current_user : User.t) (now : DateTime.t)
    (db_transactions : list TransactionDoc.t) : response Insights :=
  let start_date := DateTime.minus_days now 30 in
  let found := Mongo.find (period_query current_user start_date) db_transactions in
  transactions <- mapM TransactionDoc.to_model found ;;
  let expenses := filter is_expense transactions in
  match expenses with
  | [] => Ok (mkInsights [starter_tip] (NoData 0 "No data available"))
  | _ :: _ =>
      let total_expenses := Py.sum (map Transaction.amount expenses) in
      let category_totals := category_totals_of expenses in
      tip1 <- top_category_tip total_expenses category_totals ;;
      let tip2 := small_expenses_tip expenses in
      let tip3 := budget_tip total_expenses (User.monthly_budget current_user) in
      let tips := (tip1 ++ tip2 ++ tip3)%list in
      days_in_month <- days_in_current_month now ;;
      let days_passed := DateTime.day now in
      avg_daily_spend <-
        (if 0 <? days_passed then Py.div total_expenses (inject_Z days_passed)
         else Ok 0%Q) ;;
      let projected_monthly_spend := (avg_daily_spend * inject_Z days_in_month)%Q in
      let projected_balance :=
        (User.monthly_budget current_user - projected_monthly_spend)%Q in
      Ok (mkInsights (firstn 3 tips)
            (MonthEnd projected_monthly_spend projected_balance
               ("At your current rate, you'll spend ₹"
                  ++ Py.format_0f projected_monthly_spend ++ " this month.")%string))
  end.

(** ** Login and the bearer token *)

Module UserLogin.
Record t : Type := make { email : string; password : string }.
End UserLogin.

Definition credentials_exception {A : Type} : response A :=
  HTTPException 401 "Could not validate credentials".

Section Session.

(** [passlib] and [jose] are used as given.  [verify_password] is
    [pwd_context.verify]: [None] when it raises on a hash it cannot identify,
    as on the empty default.  [jwt_decode] is [jwt.decode] followed by
    [payload.get("sub")]: [None] for a [JWTError] (bad signature, expired
    token), [Some None] for a payload without subject.  The documents of
    [db.users] are those [register] writes, from which [User] builds. *)
Variable verify_password : string -> string -> option bool.
Variable create_access_token : string -> string.
Variable jwt_decode : string -> option (option string).

Definition login (user_data : UserLogin.t) (users : list UserDoc.t)
    : response TokenResponse :=
  match Mongo.find_one
          (fun d => (UserDoc.email d =? UserLogin.email user_data)%string) users with
  | None => HTTPException 400 "Invalid email or password"
  | Some user =>
      match verify_password (UserLogin.password user_data)
              (UserDoc.password_hash user) with
      | None => Unhandled (ValueError "hash could not be identified")
      | Some false => HTTPException 400 "Invalid email or password"
      | Some true =>
          Ok (mkTokenResponse (create_access_token (User.id (UserDoc.user user)))
                "bearer" (UserDoc.user user))
      end
  end.

Definition get_current_user (credentials : string) (users : list UserDoc.t)
    : response User.t :=
  match jwt_decode credentials with
  | None => credentials_exception
  | Some None => credentials_exception
  | Some (Some user_id) =>
      match Mongo.find_one
              (fun d => (User.id (UserDoc.user d) =? user_id)%string) users with
      | None => credentials_exception
      | Some user => Ok (UserDoc.user user)
      end
  end.

(** [GET /user/me]. *)
Definition get_current_user_info (credentials : string) (users : list UserDoc.t)
    : response User.t :=
  current_user <- get_current_user credentials users ;; Ok current_user.

End Session.

(** ** Budget endpoints *)

Module BudgetCreate.
Record t : Type := make { category : string; limit : Q; period : string }.
End BudgetCreate.

(** The [Budget] model; a document of [db.budgets] holds the same fields. *)
Module Budget.
Record t : Type := make
  { id : string; user_id : string; category : string; limit : Q;
    period : string; created_at : DateTime.t }.
End Budget.

Definition create_budget (budget_data : BudgetCreate.t) (current_user : User.t)
    (uuid : string) (now : DateTime.t) (budgets : list Budget.t)
    : response Budget.t * list Budget.t :=
  let budget :=
    Budget.make uuid (User.id current_user) (BudgetCreate.category budget_data)
      (BudgetCreate.limit budget_data) (BudgetCreate.period budget_data) now in
  (Ok budget, Mongo.insert_one budget budgets).

Definition get_budgets (current_user : User.t) (budgets : list Budget.t)
    : response (list Budget.t) :=
  Ok (Mongo.find (fun b => (Budget.user_id b =? User.id current_user)%string) budgets).

(** ** Dictionaries sent to and read from the store *)

(** The values a model's [dict()] holds. *)
Inductive value : Type :=
| VNone
| VBool (b : bool)
| VStr (s : string)
| VFloat (x : Q)
| VList (l : list string)
| VDatetime (d : DateTime.t).

Definition dict : Type := list (string * value).

(** [str.replace('Z', '+00:00')]. *)
Fixpoint replace_Z (s : string) : string :=
  match s with
  | EmptyString => EmptyString
  | String c r =>
      if (c =? "Z")%char then "+00:00" ++ replace_Z r
      else String c (replace_Z r)
  end.

(** [prepare_for_mongo(data)] on a dict: every datetime value becomes its
    ISO string. *)
Definition prepare_for_mongo (data : dict) : dict :=
  map (fun kv =>
         match snd kv with
         | VDatetime d => (fst kv, VStr (DateTime.isoformat d))
         | _ => kv
         end) data.

Section Parse.

(** [datetime.fromisoformat]; [None] stands for its [ValueError]. *)
Variable fromisoformat : string -> option DateTime.t.

(** [parse_from_mongo(item)] on a dict: the strings under [date] and
    [created_at] are parsed; a string that does not parse stays. *)
Definition parse_from_mongo (item : dict) : dict :=
  map (fun kv =>
         if ((fst kv =? "date") || (fst kv =? "created_at"))%string then
           match snd kv with
           | VStr s =>
               match fromisoformat (replace_Z s) with
               | Some d => (fst kv, VDatetime d)
               | None => kv
               end
           | _ => kv
           end
         else kv) item.

End Parse.

(** [transaction.dict()]. *)
Definition Transaction_dict (t : Transaction.t) : dict :=
  [ ("id", VStr (Transaction.id t));
    ("user_id", VStr (Transaction.user_id t));
    ("type", VStr (Transaction.type t));
    ("amount", VFloat (Transaction.amount t));
    ("category", VStr (Transaction.category t));
    ("description", VStr (Transaction.description t));
    ("payment_type", VStr (Transaction.payment_type t));
    ("tags", VList (Transaction.tags t));
    ("date", VDatetime (Transaction.date t));
    ("created_at", VDatetime (Transaction.created_at t));
    ("deleted", VBool (Transaction.deleted t)) ].

(** ** Reading ISO strings *)

Module Iso.

Definition digit_value (c : ascii) : option Z :=
  let n := Z.of_nat (nat_of_ascii c) in
  if (48 <=? n) && (n <=? 57) then Some (n - 48) else None.

(** [k] decimal digits at the head of [s]. *)
Fixpoint digits (k : nat) (acc : Z) (s : string) : option (Z * string) :=
  match k with
  | O => Some (acc, s)
  | S k' =>
      match s with
      | EmptyString => None
      | String c r =>
          match digit_value c with
          | Some v => digits k' (10 * acc + v) r
          | None => None
          end
      end
  end.

Definition expect (c : ascii) (s : string) : option string :=
  match s with
  | String c' r => if (c' =? c)%char then Some r else None
  | EmptyString => None
  end.

Definition obind {A B : Type} (o : option A) (k : A -> option B) : option B :=
  match o with
  | Some a => k a
  | None => None
  end.

(** The fraction and the offset that end a UTC string. *)
Definition fraction (s : string) : option Z :=
  if (s =? "+00:00")%string then Some 0
  else
    obind (expect "." s) (fun s =>
    obind (digits 6 0 s) (fun '(us, s) =>
    if (s =? "+00:00")%string then Some us else None)).

(** A reader of the strings [isoformat] writes for UTC datetimes. *)
Definition read (s : string) : option DateTime.t :=
  obind (digits 4 0 s) (fun '(y, s) =>
  obind (expect "-" s) (fun s =>
  obind (digits 2 0 s) (fun '(m, s) =>
  obind (expect "-" s) (fun s =>
  obind (digits 2 0 s) (fun '(d, s) =>
  obind (expect "T" s) (fun s =>
  obind (digits 2 0 s) (fun '(h, s) =>
  obind (expect ":" s) (fun s =>
  obind (digits 2 0 s) (fun '(mi, s) =>
  obind (expect ":" s) (fun s =>
  obind (digits 2 0 s) (fun '(sec, s) =>
  obind (fraction s) (fun us =>
  Some (DateTime.make y m d h mi sec us))))))))))))).

End Iso.

(** ** Calendar order *)

Definition lex (c1 c2 : comparison) : comparison :=
  match c1 with
  | Eq => c2
  | _ => c1
  end.

(** Chronological comparison of two datetimes. *)
Definition datetime_compare (a b : DateTime.t) : comparison :=
  lex (DateTime.year a ?= DateTime.year b)
  (lex (DateTime.month a ?= DateTime.month b)
  (lex (DateTime.day a ?= DateTime.day b)
  (lex (DateTime.hour a ?= DateTime.hour b)
  (lex (DateTime.minute a ?= DateTime.minute b)
  (lex (DateTime.second a ?= DateTime.second b)
       (DateTime.microsecond a ?= DateTime.microsecond b)))))).

(** The fields of a [datetime] lie in these ranges. *)
Definition datetime_valid (d : DateTime.t) : Prop :=
  1 <= DateTime.year d <= 9999
  /\ 1 <= DateTime.month d <= 12
  /\ 1 <= DateTime.day d <= DateTime.days_in_month (DateTime.year d) (DateTime.month d)
  /\ 0 <= DateTime.hour d < 24
  /\ 0 <= DateTime.minute d < 60
  /\ 0 <= DateTime.second d < 60
  /\ 0 <= DateTime.microsecond d < 1000000.

(** A document owned by [u]. *)
Definition owned_by (u : User.t) (d : TransactionDoc.t) : bool :=
  (TransactionDoc.user_id d =? User.id u)%string.

(** No two users share an email. *)
Definition unique_emails (users : list UserDoc.t) : Prop :=
  NoDup (map UserDoc.email users).

(** ** Vocabulary of the properties *)

(** A stored document with a date. *)
Definition dated (d : TransactionDoc.t) : Prop := TransactionDoc.date d <> None.

(** A stored document that is not deleted. *)
Definition live (d : TransactionDoc.t) : bool := negb (TransactionDoc.deleted d).

(** The documents the dashboard of [u] covers for a period starting at
    [start]. *)
Definition period_transactions (u : User.t) (start : DateTime.t)
    (db : list TransactionDoc.t) : list TransactionDoc.t :=
  filter (period_query u start) db.

(** The sum of the amounts of the documents of type [ty]. *)
Definition doc_sum (ty : string) (docs : list TransactionDoc.t) : Q :=
  Py.sum (map TransactionDoc.amount
            (filter (fun d => (TransactionDoc.type d =? ty)%string) docs)).

(** What a read path may return: the model of a stored document that is not
    deleted. *)
Definition readable (db : list TransactionDoc.t) (t : Transaction.t) : Prop :=
  In (TransactionDoc.of_model t) db /\ Transaction.deleted t = false.

(** Identifiers come from [uuid4]: no two stored transactions share one. *)
Definition unique_ids (db : list TransactionDoc.t) : Prop :=
  NoDup (map TransactionDoc.id db).

(** Amounts pass [validate_amount] before they are stored. *)
Definition positive_amounts (db : list TransactionDoc.t) : Prop :=
  Forall (fun d => (0 < TransactionDoc.amount d)%Q) db.

(** The window of the insights: the thirty days before [now]. *)
Definition insights_window (u : User.t) (now : DateTime.t)
    (db : list TransactionDoc.t) : list TransactionDoc.t :=
  period_transactions u (DateTime.minus_days now 30) db.

(** The query on the type of a stored document. *)
Definition is_expense_doc (d : TransactionDoc.t) : bool :=
  (TransactionDoc.type d =? "expense")%string.

(** ** A sample store *)

Module Sample.

Definition at_day (y m d : Z) : DateTime.t := DateTime.make y m d 9 0 0 0.

Definition ann : User.t :=
  User.make "u-ann" "Ann" "ann@example.com" "₹" 10000%Q (at_day 2026 1 5).

Definition bob : User.t :=
  User.make "u-bob" "Bob" "bob@example.com" "₹" 0%Q (at_day 2026 2 7).

Definition lunch : TransactionDoc.t :=
  TransactionDoc.make "t1" "u-ann" "expense" 150%Q "Food" "Lunch at restaurant"
    "Card" ["lunch"; "restaurant"] (Some (at_day 2026 12 10)) (at_day 2026 12 10)
    false.

Definition salary : TransactionDoc.t :=
  TransactionDoc.make "t2" "u-ann" "income" 1000%Q "Salary" "Stipend" "UPI" []
    (Some (at_day 2026 12 11)) (at_day 2026 12 11) false.

Definition snack : TransactionDoc.t :=
  TransactionDoc.make "t3" "u-ann" "expense" 50%Q "Food" "Snack" "Cash" []
    (Some (at_day 2026 12 12)) (at_day 2026 12 12) true.

Definition rent : TransactionDoc.t :=
  TransactionDoc.make "t4" "u-bob" "expense" 4000%Q "Rent" "Room" "UPI" []
    (Some (at_day 2026 12 1)) (at_day 2026 12 1) false.

Definition store : list TransactionDoc.t := [lunch; salary; snack; rent].

(** Ann's window of this store holds her salary alone. *)
Definition income_only : list TransactionDoc.t := [salary; snack; rent].

Definition mid_december : DateTime.t := DateTime.make 2026 12 15 10 30 0 0.

(** A body the model accepts, sent without a date. *)
Definition undated_body : TransactionCreate.t :=
  TransactionCreate.make "expense" 60%Q "Food" "Snack" "Cash" [] None.

(** A body with amount 0. *)
Definition free_body : TransactionCreate.t :=
  TransactionCreate.make "expense" 0%Q "Food" "Nothing" "Cash" []
    (Some (at_day 2026 12 14)).

Definition ann_signup : UserCreate.t :=
  UserCreate.make "Ann" "ann@example.com" "TestPass123!".

Definition ann_doc : UserDoc.t := UserDoc.make ann "hash".

End Sample.

(** More sample data. *)
Module Fixture.

Definition mid_november : DateTime.t := DateTime.make 2026 11 15 10 30 0 0.

Definition lunch_model : Transaction.t :=
  Transaction.make "t1" "u-ann" "expense" 150%Q "Food" "Lunch at restaurant"
    "Card" ["lunch"; "restaurant"] (Sample.at_day 2026 12 10)
    (Sample.at_day 2026 12 10) false.

Definition salary_model : Transaction.t :=
  Transaction.make "t2" "u-ann" "income" 1000%Q "Salary" "Stipend" "UPI" []
    (Sample.at_day 2026 12 11) (Sample.at_day 2026 12 11) false.

(** A body the model accepts, with a date. *)
Definition dated_body : TransactionCreate.t :=
  TransactionCreate.make "expense" 75%Q "Food" "Dinner" "Card" ["dinner"]
    (Some (Sample.at_day 2026 12 13)).

(** A document as an update without date leaves it. *)
Definition undated_doc : TransactionDoc.t :=
  TransactionDoc.make "t9" "u-ann" "expense" 60%Q "Food" "Snack" "Cash" []
    None (Sample.at_day 2026 12 12) false.

Definition undated_store : list TransactionDoc.t := [Sample.lunch; undated_doc].

Definition coffee : TransactionDoc.t :=
  TransactionDoc.make "t6" "u-ann" "expense" 40%Q "Food" "Coffee" "Cash" []
    (Some (Sample.at_day 2026 12 13)) (Sample.at_day 2026 12 13) false.

(** Ann has three transactions to list here: coffee, salary, lunch. *)
Definition busy_store : list TransactionDoc.t :=
  [Sample.lunch; Sample.salary; coffee; Sample.rent].

Definition food_budget : BudgetCreate.t := BudgetCreate.make "Food" 5000%Q "monthly".

Definition rent_budget : Budget.t :=
  Budget.make "b1" "u-bob" "Rent" 4000%Q "monthly" (Sample.at_day 2026 12 1).

(** Stand-ins for the hashing and the token library. *)
Definition hash (password : string) : string := ("hashed:" ++ password)%string.
Definition verify (plain hashed : string) : option bool :=
  if String.prefix "hashed:" hashed then Some (hashed =? hash plain)%string
  else None.
Definition encode (user_id : string) : string := ("token:" ++ user_id)%string.
Definition decode (token : string) : option (option string) :=
  match token with
  | String "t" (String "o" (String "k" (String "e" (String "n" (String ":" i))))) =>
      Some (Some i)
  | _ => None
  end.

End Fixture.

(** A count the driver sends as it is: not negative and within 64 bits. *)
Definition int64_count (n : Z) : Prop := 0 <= n < 2 ^ 63.

(** An expense of category [k]. *)
Definition category_expense (k : string) (t : Transaction.t) : bool :=
  is_expense t && (Transaction.category t =? k)%string.

(** The amounts of the expenses of category [k], in the order of the list. *)
Definition category_amounts (k : string) (ts : list Transaction.t) : list Q :=
  map Transaction.amount (filter (category_expense k) ts).

(** The documents behind an answer of the list. *)
Definition listed_docs (limit offset : Z) (c ty : option string) (u : User.t)
    (db : list TransactionDoc.t) : list TransactionDoc.t :=
  Mongo.limit limit
    (skipn (Z.to_nat offset)
       (Mongo.sort_desc date_ltb (Mongo.find (list_query u c ty) db))).

(** [a] does not sort before [b] under [key_ltb]. *)
Definition not_before {D : Type} (key_ltb : D -> D -> bool) (a b : D) : Prop :=
  key_ltb a b = false.

(** The end of an ISO string: the fraction, when there is one, and the
    offset. *)
Definition iso_tail (us : Z) : string :=
  ((if (us =? 0)%Z then "" else "." ++ DateTime.pad6 us) ++ "+00:00")%string.

(** Every stored date is a UTC datetime: written by the server's clock, or
    sent with the offset +00:00.  A date sent with another offset, or with
    none, is stored with its own offset and is not covered. *)
Definition utc_dates (db : list TransactionDoc.t) : Prop :=
  Forall (fun d => forall dt, TransactionDoc.date d = Some dt -> datetime_valid dt) db.

(** A string without the letter Z. *)
Fixpoint no_Z (s : string) : bool :=
  match s with
  | EmptyString => true
  | String c r => negb (c =? "Z")%char && no_Z r
  end.

(** * Properties *)

Local Open Scope list_scope.

(** ** Sums *)

Lemma fold_left_Qplus_acc (l : list Q) (a : Q) :
  (fold_left Qplus l a == a + fold_left Qplus l 0)%Q.
Proof.
  revert a; induction l as [|x l IH]; intros a; simpl.
  - ring.
  - rewrite (IH (a + x)%Q), (IH (0 + x)%Q). ring.
Qed.

Lemma sum_cons (x : Q) (l : list Q) : (Py.sum (x :: l) == x + Py.sum l)%Q.
Proof.
  unfold Py.sum; simpl. rewrite fold_left_Qplus_acc. ring.
Qed.

Lemma sum_Permutation (l l' : list Q) :
  Permutation l l' -> (Py.sum l == Py.sum l')%Q.
Proof.
  induction 1 as [|x l l' _ IH|x y l|l l' l'' _ IH1 _ IH2].
  - reflexivity.
  - rewrite !sum_cons, IH. reflexivity.
  - rewrite !sum_cons. ring.
  - rewrite IH1. exact IH2.
Qed.

Lemma sum_nonneg (l : list Q) :
  Forall (fun x => 0 <= x)%Q l -> (0 <= Py.sum l)%Q.
Proof.
  induction 1 as [|x l Hx _ IH].
  - unfold Py.sum; simpl. lra.
  - rewrite sum_cons. lra.
Qed.

Lemma sum_pos (x : Q) (l : list Q) :
  Forall (fun y => 0 < y)%Q (x :: l) -> (0 < Py.sum (x :: l))%Q.
Proof.
  intros H. inversion H as [|? ? Hx Hl]; subst.
  rewrite sum_cons.
  assert (0 <= Py.sum l)%Q.
  { apply sum_nonneg. eapply Forall_impl; [|exact Hl]. intros; simpl in *; lra. }
  lra.
Qed.

(** ** Comparisons *)

Lemma ltb_lt (a b : Q) : Py.ltb a b = true <-> (a < b)%Q.
Proof.
  unfold Py.ltb. rewrite negb_true_iff.
  split.
  - intros H. apply Qnot_le_lt. intros Hle.
    apply Qle_bool_iff in Hle. congruence.
  - intros H. destruct (Qle_bool b a) eqn:E; [|reflexivity].
    apply Qle_bool_iff in E. lra.
Qed.

Lemma ltb_ge (a b : Q) : Py.ltb a b = false <-> (b <= a)%Q.
Proof.
  unfold Py.ltb. rewrite negb_false_iff. apply Qle_bool_iff.
Qed.

Lemma min_le_r (a b : Q) : (Py.min a b <= b)%Q.
Proof.
  unfold Py.min. destruct (Py.ltb b a) eqn:E.
  - lra.
  - apply ltb_ge in E. exact E.
Qed.

Lemma div_nonzero (a b : Q) : ~ (b == 0)%Q -> Py.div a b = Ok (a / b)%Q.
Proof.
  intros H. unfold Py.div.
  destruct (Qeq_bool b 0) eqn:E; [|reflexivity].
  apply Qeq_bool_iff in E. contradiction.
Qed.

(** ** Collections *)

Section SortFacts.
Context {D : Type} (key_ltb : D -> D -> bool).

Lemma insert_desc_Permutation (d : D) (l : list D) :
  Permutation (Mongo.insert_desc key_ltb d l) (d :: l).
Proof.
  induction l as [|x l IH]; simpl.
  - reflexivity.
  - destruct (key_ltb d x).
    + rewrite IH. apply perm_swap.
    + reflexivity.
Qed.

Lemma sort_desc_Permutation (l : list D) :
  Permutation (Mongo.sort_desc key_ltb l) l.
Proof.
  induction l as [|x l IH]; simpl.
  - reflexivity.
  - rewrite insert_desc_Permutation. now constructor.
Qed.
End SortFacts.

Lemma filter_filter_implied {A : Type} (p q : A -> bool) (l : list A) :
  (forall x, q x = true -> p x = true) ->
  filter q (filter p l) = filter q l.
Proof.
  intros H. induction l as [|x l IH]; simpl; [reflexivity|].
  destruct (p x) eqn:Ep; simpl.
  - now rewrite IH.
  - destruct (q x) eqn:Eq; [|exact IH].
    apply H in Eq. congruence.
Qed.

Lemma filter_Permutation {A : Type} (p : A -> bool) (l l' : list A) :
  Permutation l l' -> Permutation (filter p l) (filter p l').
Proof.
  induction 1 as [|x l l' _ IH|x y l|l l' l'' _ IH1 _ IH2]; simpl.
  - reflexivity.
  - destruct (p x); [now constructor|exact IH].
  - destruct (p x), (p y); try reflexivity. apply perm_swap.
  - now rewrite IH1.
Qed.

(** ** Stored documents and models *)

Lemma to_model_dated (d : TransactionDoc.t) :
  dated d ->
  exists t, TransactionDoc.to_model d = Ok t /\ TransactionDoc.of_model t = d.
Proof.
  unfold dated, TransactionDoc.to_model. destruct d as [i u ty a c de p tg [dt|] cr dl]; simpl.
  - intros _. eexists; split; reflexivity.
  - intros H; now contradiction H.
Qed.

Lemma mapM_to_model (l : list TransactionDoc.t) :
  Forall dated l ->
  exists ts, mapM TransactionDoc.to_model l = Ok ts
             /\ map TransactionDoc.of_model ts = l.
Proof.
  induction 1 as [|d l Hd _ (ts & IH1 & IH2)]; simpl.
  - exists []; split; reflexivity.
  - destruct (to_model_dated d Hd) as (t & Ht1 & Ht2).
    exists (t :: ts). rewrite Ht1; simpl. rewrite IH1; simpl.
    split; [reflexivity|]. now rewrite Ht2, IH2.
Qed.

Lemma period_query_dated (u : User.t) (start : DateTime.t) (d : TransactionDoc.t) :
  period_query u start d = true -> dated d.
Proof.
  unfold period_query, Mongo.gte, date_value, dated.
  rewrite !andb_true_iff. intros [_ H].
  destruct (TransactionDoc.date d); simpl in H; congruence.
Qed.

Lemma period_query_live (u : User.t) (start : DateTime.t) (d : TransactionDoc.t) :
  period_query u start d = true -> live d = true.
Proof.
  unfold period_query, live. rewrite !andb_true_iff. tauto.
Qed.

Lemma found_dated (u : User.t) (start : DateTime.t) (db : list TransactionDoc.t) :
  Forall dated (Mongo.find (period_query u start) db).
Proof.
  apply Forall_forall. intros d Hd. apply filter_In in Hd.
  eapply period_query_dated. apply Hd.
Qed.

Lemma sorted_found_dated (u : User.t) (start : DateTime.t) (db : list TransactionDoc.t) :
  Forall dated (Mongo.sort_desc date_ltb (Mongo.find (period_query u start) db)).
Proof.
  apply Forall_forall. intros d Hd.
  eapply Permutation_in in Hd; [|apply sort_desc_Permutation].
  revert d Hd. apply Forall_forall, found_dated.
Qed.

(** ** Dashboard *)

Lemma amounts_of_models (ty : string) (ts : list Transaction.t) :
  map Transaction.amount (filter (fun t => (Transaction.type t =? ty)%string) ts)
  = map TransactionDoc.amount
      (filter (fun d => (TransactionDoc.type d =? ty)%string)
         (map TransactionDoc.of_model ts)).
Proof.
  induction ts as [|t ts IH]; simpl; [reflexivity|].
  destruct (Transaction.type t =? ty)%string; simpl; now rewrite IH.
Qed.

Lemma sum_amounts_docs (ty : string) (ts : list Transaction.t)
    (docs : list TransactionDoc.t) :
  Permutation (map TransactionDoc.of_model ts) docs ->
  (sum_amounts (fun t => (Transaction.type t =? ty)%string) ts == doc_sum ty docs)%Q.
Proof.
  intros HP. unfold sum_amounts, doc_sum. rewrite amounts_of_models.
  apply sum_Permutation, Permutation_map, filter_Permutation, HP.
Qed.

Lemma budget_percent_ok (te mb : Q) :
  exists b, budget_percent te mb = Ok b
            /\ (b <= 100)%Q
            /\ ((mb <= 0)%Q -> b = 0%Q).
Proof.
  unfold budget_percent, Py.gtb.
  destruct (Py.ltb 0 mb) eqn:E.
  - apply ltb_lt in E.
    rewrite div_nonzero by lra. simpl.
    eexists; split; [reflexivity|]. split.
    + apply min_le_r.
    + intros H. lra.
  - exists 0%Q. split; [reflexivity|]. split; [lra|reflexivity].
Qed.

(** The dashboard always answers, with the aggregates of the period's
    transactions, most recent first. *)
Lemma get_dashboard_data_ok (period : string) (u : User.t) (now : DateTime.t)
    (db : list TransactionDoc.t) :
  exists ts b,
    map TransactionDoc.of_model ts
    = Mongo.sort_desc date_ltb (period_transactions u (start_date_of period now) db)
    /\ budget_percent (sum_amounts is_expense ts) (User.monthly_budget u) = Ok b
    /\ get_dashboard_data period u now db
       = Ok (mkDashboardData
               (sum_amounts is_income ts) (sum_amounts is_expense ts)
               (sum_amounts is_income ts - sum_amounts is_expense ts)%Q b
               (firstn 10 ts) (category_breakdown_of ts)
               (rev (map (trend_entry now ts) (seq 0 7)))).
Proof.
  destruct (mapM_to_model _ (sorted_found_dated u (start_date_of period now) db))
    as (ts & Hts & Hdocs).
  destruct (budget_percent_ok (sum_amounts is_expense ts) (User.monthly_budget u))
    as (b & Hb & _).
  exists ts, b. split; [exact Hdocs|]. split; [exact Hb|].
  unfold get_dashboard_data. rewrite Hts; simpl. rewrite Hb; simpl. reflexivity.
Qed.

(** C1. For every store, user, period and clock the dashboard answers, its
    balance is its total income minus its total expenses, and these totals
    are the sums of the amounts of the period's transactions of type income
    and of type expense. *)
Theorem dashboard_balance (period : string) (u : User.t) (now : DateTime.t)
    (db : list TransactionDoc.t) :
  exists d,
    get_dashboard_data period u now db = Ok d
    /\ balance d = (total_income d - total_expenses d)%Q
    /\ (total_income d
        == doc_sum "income" (period_transactions u (start_date_of period now) db))%Q
    /\ (total_expenses d
        == doc_sum "expense" (period_transactions u (start_date_of period now) db))%Q.
Proof.
  destruct (get_dashboard_data_ok period u now db) as (ts & b & Hdocs & _ & Hd).
  eexists; split; [exact Hd|]. simpl.
  assert (HP : Permutation (map TransactionDoc.of_model ts)
                 (period_transactions u (start_date_of period now) db)).
  { rewrite Hdocs. apply sort_desc_Permutation. }
  split; [reflexivity|].
  split; apply sum_amounts_docs; exact HP.
Qed.

(** C2. The budget_used_percent of every dashboard answer is at most 100,
    whatever the expenses and the monthly budget; it is 0 when the monthly
    budget is zero or negative. *)
Theorem budget_used_percent_capped (period : string) (u : User.t)
    (now : DateTime.t) (db : list TransactionDoc.t) :
  exists d,
    get_dashboard_data period u now db = Ok d
    /\ (budget_used_percent d <= 100)%Q
    /\ ((User.monthly_budget u <= 0)%Q -> budget_used_percent d = 0%Q).
Proof.
  destruct (get_dashboard_data_ok period u now db) as (ts & b & _ & Hb & Hd).
  destruct (budget_percent_ok (sum_amounts is_expense ts) (User.monthly_budget u))
    as (b' & Hb' & Hle & Hzero).
  assert (b' = b) by congruence. subst b'.
  eexists; split; [exact Hd|]. simpl. split; assumption.
Qed.

(** ** Read paths and deleted documents *)

Lemma mapM_Ok_inv {A B : Type} (f : A -> response B) (l : list A) (bs : list B) :
  mapM f l = Ok bs -> Forall2 (fun a b => f a = Ok b) l bs.
Proof.
  revert bs; induction l as [|a l IH]; simpl; intros bs H.
  - inversion H. constructor.
  - destruct (f a) as [b| | |] eqn:Ea; simpl in H; try discriminate.
    destruct (mapM f l) as [bs'| | |]; simpl in H; try discriminate.
    inversion H; subst. constructor; [exact Ea|]. now apply IH.
Qed.

Lemma Forall2_In_r {A B : Type} (R : A -> B -> Prop) (l : list A) (l' : list B)
    (b : B) :
  Forall2 R l l' -> In b l' -> exists a, In a l /\ R a b.
Proof.
  induction 1 as [|x y l l' Hxy _ IH]; simpl; intros Hin; [contradiction|].
  destruct Hin as [->|Hin].
  - exists x. auto.
  - destruct (IH Hin) as (a & Ha & HR). exists a. auto.
Qed.

Lemma to_model_Ok (d : TransactionDoc.t) (t : Transaction.t) :
  TransactionDoc.to_model d = Ok t -> TransactionDoc.of_model t = d.
Proof.
  unfold TransactionDoc.to_model.
  destruct d as [i u ty a c de p tg [dt|] cr dl]; simpl; intros H; inversion H.
  reflexivity.
Qed.

Lemma In_firstn {A : Type} (n : nat) (l : list A) (x : A) :
  In x (firstn n l) -> In x l.
Proof.
  intros H. rewrite <- (firstn_skipn n l). apply in_or_app. now left.
Qed.

Lemma In_skipn {A : Type} (n : nat) (l : list A) (x : A) :
  In x (skipn n l) -> In x l.
Proof.
  intros H. rewrite <- (firstn_skipn n l). apply in_or_app. now right.
Qed.

Lemma In_limit {A : Type} (n : Z) (l : list A) (x : A) :
  In x (Mongo.limit n l) -> In x l.
Proof.
  unfold Mongo.limit. destruct (n =? 0); [trivial|apply In_firstn].
Qed.

Lemma list_query_live (u : User.t) (c ty : option string) (d : TransactionDoc.t) :
  list_query u c ty d = true -> live d = true.
Proof.
  unfold list_query, live. rewrite !andb_true_iff. tauto.
Qed.

Lemma find_live {q : TransactionDoc.t -> bool} (db : list TransactionDoc.t) :
  (forall d, q d = true -> live d = true) ->
  Mongo.find q (filter live db) = Mongo.find q db.
Proof.
  intros H. unfold Mongo.find. now apply filter_filter_implied.
Qed.

Lemma get_transactions_ignores_deleted (limit offset : Z) (c ty : option string)
    (u : User.t) (db : list TransactionDoc.t) :
  get_transactions limit offset c ty u (filter live db)
  = get_transactions limit offset c ty u db.
Proof.
  unfold get_transactions. rewrite find_live; [reflexivity|].
  apply list_query_live.
Qed.

Lemma get_dashboard_data_ignores_deleted (period : string) (u : User.t)
    (now : DateTime.t) (db : list TransactionDoc.t) :
  get_dashboard_data period u now (filter live db)
  = get_dashboard_data period u now db.
Proof.
  unfold get_dashboard_data. rewrite find_live; [reflexivity|].
  apply period_query_live.
Qed.

Lemma get_insights_ignores_deleted (u : User.t) (now : DateTime.t)
    (db : list TransactionDoc.t) :
  get_insights u now (filter live db) = get_insights u now db.
Proof.
  unfold get_insights. rewrite find_live; [reflexivity|].
  apply period_query_live.
Qed.

Lemma readable_of_live (db : list TransactionDoc.t) (t : Transaction.t) :
  In (TransactionDoc.of_model t) db ->
  live (TransactionDoc.of_model t) = true ->
  readable db t.
Proof.
  intros Hin Hl. split; [exact Hin|].
  unfold live in Hl. simpl in Hl. now apply negb_true_iff in Hl.
Qed.

Lemma get_transactions_readable (limit offset : Z) (c ty : option string)
    (u : User.t) (db : list TransactionDoc.t) (ts : list Transaction.t) :
  get_transactions limit offset c ty u db = Ok ts -> Forall (readable db) ts.
Proof.
  unfold get_transactions, Mongo.skip.
  destruct (offset <? 0); simpl; [discriminate|].
  intros H. apply mapM_Ok_inv in H.
  apply Forall_forall. intros t Ht.
  destruct (Forall2_In_r _ _ _ t H Ht) as (d & Hd & Hdt).
  apply to_model_Ok in Hdt. subst d.
  apply In_limit, In_skipn in Hd.
  eapply Permutation_in in Hd; [|apply sort_desc_Permutation].
  apply filter_In in Hd. destruct Hd as [Hin Hq].
  apply readable_of_live; [exact Hin|]. eapply list_query_live, Hq.
Qed.

(** The list answers when the offset is not negative and the documents it
    selects carry a date. *)
Lemma get_transactions_ok (limit offset : Z) (c ty : option string)
    (u : User.t) (db : list TransactionDoc.t) :
  0 <= offset -> Forall dated db ->
  exists ts, get_transactions limit offset c ty u db = Ok ts.
Proof.
  intros Hoff Hdated. unfold get_transactions, Mongo.skip.
  destruct (offset <? 0) eqn:E; [apply Z.ltb_lt in E; lia|]. cbn [bind].
  destruct (mapM_to_model
              (Mongo.limit limit
                 (skipn (Z.to_nat offset)
                    (Mongo.sort_desc date_ltb (Mongo.find (list_query u c ty) db)))))
    as (ts & Hts & _).
  - apply Forall_forall. intros d Hd.
    apply In_limit, In_skipn in Hd.
    eapply Permutation_in in Hd; [|apply sort_desc_Permutation].
    apply filter_In in Hd. destruct Hd as [Hin _].
    rewrite Forall_forall in Hdated. now apply Hdated.
  - now exists ts.
Qed.

Lemma dashboard_recent_readable (period : string) (u : User.t) (now : DateTime.t)
    (db : list TransactionDoc.t) (d : DashboardData) :
  get_dashboard_data period u now db = Ok d ->
  Forall (readable db) (recent_transactions d).
Proof.
  destruct (get_dashboard_data_ok period u now db) as (ts & b & Hdocs & _ & Hd).
  rewrite Hd. intros H.
  assert (Hrec : recent_transactions d = firstn 10 ts).
  { injection H as <-. reflexivity. }
  rewrite Hrec.
  apply Forall_forall. intros t Ht. apply In_firstn in Ht.
  assert (Hin : In (TransactionDoc.of_model t) (map TransactionDoc.of_model ts))
    by now apply in_map.
  rewrite Hdocs in Hin.
  eapply Permutation_in in Hin; [|apply sort_desc_Permutation].
  apply filter_In in Hin. destruct Hin as [Hin Hq].
  apply readable_of_live; [exact Hin|]. eapply period_query_live, Hq.
Qed.

(** C3. Deleted transactions are outside every read path: the list, the
    dashboard (all its aggregates and its recent transactions) and the
    insights answer as they do on the store without its deleted documents,
    and every transaction the list or the dashboard returns is a stored one
    whose deleted flag is false. *)
Theorem deleted_never_read (limit offset : Z) (c ty : option string)
    (period : string) (u : User.t) (now : DateTime.t)
    (db : list TransactionDoc.t) :
  get_transactions limit offset c ty u db
  = get_transactions limit offset c ty u (filter live db)
  /\ get_dashboard_data period u now db
     = get_dashboard_data period u now (filter live db)
  /\ get_insights u now db = get_insights u now (filter live db)
  /\ (forall ts, get_transactions limit offset c ty u db = Ok ts ->
                 Forall (readable db) ts)
  /\ (exists d, get_dashboard_data period u now db = Ok d
                /\ Forall (readable db) (recent_transactions d)).
Proof.
  split; [symmetry; apply get_transactions_ignores_deleted|].
  split; [symmetry; apply get_dashboard_data_ignores_deleted|].
  split; [symmetry; apply get_insights_ignores_deleted|].
  split; [intros ts; apply get_transactions_readable|].
  destruct (get_dashboard_data_ok period u now db) as (ts & b & _ & _ & Hd).
  eexists; split; [exact Hd|].
  eapply dashboard_recent_readable, Hd.
Qed.

(** ** Validation of created transactions *)

Lemma errors_of_invalid (body : TransactionCreate.t) :
  (TransactionCreate.amount body <= 0)%Q
  \/ (TransactionCreate.type body <> "income"
      /\ TransactionCreate.type body <> "expense") ->
  TransactionCreate.errors body <> [].
Proof.
  unfold TransactionCreate.errors, TransactionCreate.validate_type,
    TransactionCreate.validate_amount.
  intros [Ha|[Hi He]].
  - apply Qle_bool_iff in Ha. rewrite Ha.
    destruct (_ || _)%bool; simpl; discriminate.
  - apply String.eqb_neq in Hi, He. rewrite Hi, He. simpl. discriminate.
Qed.

(** C4, as the code has it. A create request whose amount is at most 0 or
    whose type is neither income nor expense is refused when its body is
    bound, before the handler runs: the answer carries the validators'
    messages and has status 422, and the store is left as it was. *)
Theorem invalid_transaction_rejected (body : TransactionCreate.t) (u : User.t)
    (uuid : string) (now created : DateTime.t) (db : list TransactionDoc.t) :
  (TransactionCreate.amount body <= 0)%Q
  \/ (TransactionCreate.type body <> "income"
      /\ TransactionCreate.type body <> "expense") ->
  exists es,
    es <> []
    /\ post_transactions body u uuid now created db = (RequestValidationError es, db)
    /\ status_of (fst (post_transactions body u uuid now created db)) = 422.
Proof.
  intros H. apply errors_of_invalid in H.
  unfold post_transactions.
  destruct (TransactionCreate.errors body) as [|e es] eqn:E; [now contradiction H|].
  exists (e :: es). repeat split. discriminate.
Qed.

(** ** Ownership *)

Lemma update_one_no_match {D : Type} (q : D -> bool) (set : D -> D) (c : list D) :
  (forall d, In d c -> q d = false) -> Mongo.update_one q set c = (0, c).
Proof.
  induction c as [|d c IH]; simpl; intros H; [reflexivity|].
  rewrite (H d) by now left.
  rewrite IH; [reflexivity|]. intros d' Hd'. apply H. now right.
Qed.

Lemma update_one_first_match {D : Type} (q : D -> bool) (set : D -> D)
    (l1 l2 : list D) (t : D) :
  (forall d, In d l1 -> q d = false) -> q t = true ->
  Mongo.update_one q set (l1 ++ t :: l2) = (1, l1 ++ set t :: l2).
Proof.
  intros H Ht. induction l1 as [|d l1 IH]; simpl.
  - now rewrite Ht.
  - rewrite (H d) by now left.
    rewrite IH; [reflexivity|]. intros d' Hd'. apply H. now right.
Qed.

Lemma unique_ids_split (db : list TransactionDoc.t) (t : TransactionDoc.t) :
  unique_ids db -> In t db ->
  exists l1 l2,
    db = (l1 ++ t :: l2)%list
    /\ forall d, In d (l1 ++ l2) -> TransactionDoc.id d <> TransactionDoc.id t.
Proof.
  unfold unique_ids. intros Hnd Hin.
  destruct (in_split _ _ Hin) as (l1 & l2 & ->).
  exists l1, l2. split; [reflexivity|].
  rewrite map_app in Hnd. simpl in Hnd. apply NoDup_remove_2 in Hnd.
  intros d Hd Heq. apply Hnd. rewrite <- Heq, <- map_app. now apply in_map.
Qed.

Lemma foreign_no_match (A : User.t) (db : list TransactionDoc.t)
    (t : TransactionDoc.t) :
  unique_ids db -> In t db ->
  TransactionDoc.user_id t <> User.id A ->
  forall d, In d db -> owner_query (TransactionDoc.id t) A d = false.
Proof.
  intros Hnd Hin Hown d Hd.
  destruct (unique_ids_split db t Hnd Hin) as (l1 & l2 & -> & Hids).
  unfold owner_query. apply andb_false_iff.
  apply in_app_or in Hd. simpl in Hd.
  assert (Hcases : d = t \/ In d (l1 ++ l2)).
  { destruct Hd as [Hd|[Hd|Hd]]; [right|left|right]; auto using in_or_app. }
  destruct Hcases as [->|Hd'].
  - right. now apply String.eqb_neq.
  - left. apply String.eqb_neq. now apply Hids.
Qed.

(** On the handlers, which receive a bound body: when user A asks to update
    or to delete the transaction of another user B by its identifier, the
    handler answers 404 and the store is left as it was. *)
Lemma foreign_transaction_not_found (A : User.t) (body : TransactionCreate.t)
    (db : list TransactionDoc.t) (t : TransactionDoc.t) :
  unique_ids db -> In t db ->
  TransactionDoc.user_id t <> User.id A ->
  update_transaction (TransactionDoc.id t) body A db
  = (HTTPException 404 "Transaction not found", db)
  /\ delete_transaction (TransactionDoc.id t) A db
     = (HTTPException 404 "Transaction not found", db).
Proof.
  intros Hnd Hin Hown.
  pose proof (foreign_no_match A db t Hnd Hin Hown) as Hq.
  unfold update_transaction, delete_transaction.
  rewrite !update_one_no_match by exact Hq.
  split; reflexivity.
Qed.

(** At the route, a body the model refuses is answered 422 before the
    handler runs; either way the store is left as it was. *)
Lemma put_foreign_transaction (A : User.t) (body : TransactionCreate.t)
    (db : list TransactionDoc.t) (t : TransactionDoc.t) :
  unique_ids db -> In t db ->
  TransactionDoc.user_id t <> User.id A ->
  snd (put_transaction (TransactionDoc.id t) body A db) = db
  /\ (TransactionCreate.errors body = [] ->
      fst (put_transaction (TransactionDoc.id t) body A db)
      = HTTPException 404 "Transaction not found").
Proof.
  intros Hnd Hin Hown.
  pose proof (foreign_no_match A db t Hnd Hin Hown) as Hq.
  unfold put_transaction, update_transaction.
  destruct (TransactionCreate.errors body) as [|e es].
  - rewrite update_one_no_match by exact Hq.
    split; [reflexivity|]. intros _. reflexivity.
  - split; [reflexivity|]. discriminate.
Qed.

(** C5, as the code has it. When user A asks to delete the transaction of
    another user B by its identifier, or to update it with a body the model
    accepts, the request is answered 404; an update whose body the model
    refuses is answered 422 with the validators' messages before the handler
    runs. In every case the store, hence the transaction, is left as it
    was. *)
Theorem foreign_request_not_found (A : User.t) (body : TransactionCreate.t)
    (db : list TransactionDoc.t) (t : TransactionDoc.t) :
  unique_ids db -> In t db ->
  TransactionDoc.user_id t <> User.id A ->
  delete_transaction (TransactionDoc.id t) A db
  = (HTTPException 404 "Transaction not found", db)
  /\ (TransactionCreate.errors body = [] ->
      put_transaction (TransactionDoc.id t) body A db
      = (HTTPException 404 "Transaction not found", db))
  /\ (TransactionCreate.errors body <> [] ->
      put_transaction (TransactionDoc.id t) body A db
      = (RequestValidationError (TransactionCreate.errors body), db)
      /\ status_of (fst (put_transaction (TransactionDoc.id t) body A db)) = 422).
Proof.
  intros Hnd Hin Hown.
  pose proof (foreign_no_match A db t Hnd Hin Hown) as Hq.
  split; [|split].
  - unfold delete_transaction. now rewrite update_one_no_match by exact Hq.
  - intros Hok. unfold put_transaction, update_transaction. rewrite Hok.
    now rewrite update_one_no_match by exact Hq.
  - intros Hbad. unfold put_transaction.
    destruct (TransactionCreate.errors body) as [|e es]; [now contradiction Hbad|].
    split; reflexivity.
Qed.

(** ** Registration *)

Section Registration.
Variable get_password_hash : string -> string.
Variable create_access_token : string -> string.

Lemma find_one_email_some (e : string) (users : list UserDoc.t) :
  (exists d, In d users /\ UserDoc.email d = e) ->
  exists d, Mongo.find_one (fun d => (UserDoc.email d =? e)%string) users = Some d.
Proof.
  intros (d & Hin & He). unfold Mongo.find_one.
  destruct (find _ users) as [d'|] eqn:E; [now exists d'|].
  eapply find_none in E; [|exact Hin]. simpl in E.
  apply String.eqb_neq in E. contradiction.
Qed.

Lemma find_one_email_none (e : string) (users : list UserDoc.t) :
  (forall d, In d users -> UserDoc.email d <> e) ->
  Mongo.find_one (fun d => (UserDoc.email d =? e)%string) users = None.
Proof.
  intros H. unfold Mongo.find_one.
  destruct (find _ users) as [d'|] eqn:E; [|reflexivity].
  apply find_some in E. destruct E as [Hin He].
  apply String.eqb_eq in He. now apply H in Hin.
Qed.

Lemma register_existing (user_data : UserCreate.t) (uuid : string)
    (now : DateTime.t) (users : list UserDoc.t) :
  (exists d, In d users /\ UserDoc.email d = UserCreate.email user_data) ->
  register get_password_hash create_access_token user_data uuid now users
  = (HTTPException 400 "Email already registered", users).
Proof.
  intros H. apply find_one_email_some in H. destruct H as (d & Hd).
  unfold register. now rewrite Hd.
Qed.

(** C6. A registration whose email is already in the store fails with 400
    and leaves the store as it was; a registration with a fresh email
    succeeds and stores one user, after which any registration with that
    email fails with 400 without storing a second one. *)
Theorem register_duplicate_email (user_data again : UserCreate.t)
    (uuid uuid' : string) (now now' : DateTime.t) (users : list UserDoc.t) :
  UserCreate.email again = UserCreate.email user_data ->
  ((exists d, In d users /\ UserDoc.email d = UserCreate.email user_data) ->
   register get_password_hash create_access_token user_data uuid now users
   = (HTTPException 400 "Email already registered", users))
  /\ ((forall d, In d users -> UserDoc.email d <> UserCreate.email user_data) ->
      exists token doc,
        register get_password_hash create_access_token user_data uuid now users
        = (Ok token, users ++ [doc])
        /\ UserDoc.email doc = UserCreate.email user_data
        /\ register get_password_hash create_access_token again uuid' now'
             (users ++ [doc])
           = (HTTPException 400 "Email already registered", users ++ [doc])).
Proof.
  intros Hsame. split; [apply register_existing|].
  intros Hfresh.
  unfold register at 1.
  rewrite find_one_email_none by exact Hfresh.
  eexists; eexists. split; [reflexivity|]. split; [reflexivity|].
  apply register_existing. eexists. split.
  - apply in_or_app. right. now left.
  - now rewrite Hsame.
Qed.
End Registration.

(** ** Deletion and update of one's own transaction *)

Lemma find_one_first_match {D : Type} (q : D -> bool) (l1 l2 : list D) (t : D) :
  (forall d, In d l1 -> q d = false) -> q t = true ->
  Mongo.find_one q (l1 ++ t :: l2) = Some t.
Proof.
  intros H Ht. unfold Mongo.find_one. induction l1 as [|d l1 IH]; simpl.
  - now rewrite Ht.
  - rewrite (H d) by now left. apply IH. intros d' Hd'. apply H. now right.
Qed.

Lemma owner_query_own (A : User.t) (t : TransactionDoc.t) :
  TransactionDoc.user_id t = User.id A ->
  owner_query (TransactionDoc.id t) A t = true.
Proof.
  intros H. unfold owner_query. rewrite H, !String.eqb_refl. reflexivity.
Qed.

Lemma owner_query_other_id (A : User.t) (t d : TransactionDoc.t) :
  TransactionDoc.id d <> TransactionDoc.id t ->
  owner_query (TransactionDoc.id t) A d = false.
Proof.
  intros H. unfold owner_query. apply String.eqb_neq in H. now rewrite H.
Qed.

(** The first match of the owner's query is the owner's transaction. *)
Lemma own_transaction_split (A : User.t) (db : list TransactionDoc.t)
    (t : TransactionDoc.t) :
  unique_ids db -> In t db ->
  exists l1 l2,
    db = l1 ++ t :: l2
    /\ forall d, In d l1 -> TransactionDoc.id d <> TransactionDoc.id t.
Proof.
  intros Hnd Hin.
  destruct (unique_ids_split db t Hnd Hin) as (l1 & l2 & -> & Hids).
  exists l1, l2. split; [reflexivity|].
  intros d Hd. apply Hids, in_or_app. now left.
Qed.

Lemma delete_own (A : User.t) (db : list TransactionDoc.t) (t : TransactionDoc.t) :
  unique_ids db -> In t db ->
  TransactionDoc.user_id t = User.id A ->
  exists l1 l2,
    db = l1 ++ t :: l2
    /\ delete_transaction (TransactionDoc.id t) A db
       = (Ok "Transaction deleted successfully",
          l1 ++ TransactionDoc.set_deleted t :: l2).
Proof.
  intros Hnd Hin Hown.
  destruct (own_transaction_split A db t Hnd Hin) as (l1 & l2 & -> & Hids).
  exists l1, l2. split; [reflexivity|].
  unfold delete_transaction.
  rewrite update_one_first_match.
  - reflexivity.
  - intros d Hd. now apply owner_query_other_id, Hids.
  - now apply owner_query_own.
Qed.

(** C7. Deleting one's own transaction succeeds and rewrites only that
    document, in place: the store keeps its length and every other document,
    and the document keeps its id, user_id, type, amount, category,
    description, payment_type, tags, date and created_at, while its deleted
    flag is true. *)
Theorem delete_is_soft (A : User.t) (db : list TransactionDoc.t)
    (t : TransactionDoc.t) :
  unique_ids db -> In t db ->
  TransactionDoc.user_id t = User.id A ->
  exists l1 l2 t',
    db = l1 ++ t :: l2
    /\ delete_transaction (TransactionDoc.id t) A db
       = (Ok "Transaction deleted successfully", l1 ++ t' :: l2)
    /\ List.length (snd (delete_transaction (TransactionDoc.id t) A db)) = List.length db
    /\ TransactionDoc.deleted t' = true
    /\ TransactionDoc.id t' = TransactionDoc.id t
    /\ TransactionDoc.user_id t' = TransactionDoc.user_id t
    /\ TransactionDoc.type t' = TransactionDoc.type t
    /\ TransactionDoc.amount t' = TransactionDoc.amount t
    /\ TransactionDoc.category t' = TransactionDoc.category t
    /\ TransactionDoc.description t' = TransactionDoc.description t
    /\ TransactionDoc.payment_type t' = TransactionDoc.payment_type t
    /\ TransactionDoc.tags t' = TransactionDoc.tags t
    /\ TransactionDoc.date t' = TransactionDoc.date t
    /\ TransactionDoc.created_at t' = TransactionDoc.created_at t.
Proof.
  intros Hnd Hin Hown.
  destruct (delete_own A db t Hnd Hin Hown) as (l1 & l2 & Hdb & Hdel).
  exists l1, l2, (TransactionDoc.set_deleted t).
  split; [exact Hdb|]. split; [exact Hdel|].
  split.
  { rewrite Hdel, Hdb. simpl. rewrite !List.length_app. reflexivity. }
  repeat split.
Qed.

(** No handler removes a document: the store never shrinks. *)
Lemma update_one_length {D : Type} (q : D -> bool) (set : D -> D) (c : list D) :
  List.length (snd (Mongo.update_one q set c)) = List.length c.
Proof.
  induction c as [|d c IH]; simpl; [reflexivity|].
  destruct (q d); simpl; [reflexivity|].
  destruct (Mongo.update_one q set c) as [n c']. simpl in *. now rewrite IH.
Qed.

Lemma delete_transaction_length (tid : string) (A : User.t)
    (db : list TransactionDoc.t) :
  List.length (snd (delete_transaction tid A db)) = List.length db.
Proof.
  unfold delete_transaction.
  pose proof (update_one_length (owner_query tid A) TransactionDoc.set_deleted db) as H.
  destruct (Mongo.update_one _ _ db) as [n c']. simpl in H.
  destruct (n =? 0); exact H.
Qed.

Lemma update_transaction_length (tid : string) (body : TransactionCreate.t)
    (A : User.t) (db : list TransactionDoc.t) :
  List.length (snd (update_transaction tid body A db)) = List.length db.
Proof.
  unfold update_transaction.
  pose proof (update_one_length (owner_query tid A) (TransactionDoc.set_fields body) db) as H.
  destruct (Mongo.update_one _ _ db) as [n c']. simpl in H.
  destruct (n =? 0); [exact H|].
  destruct (Mongo.find_one _ c'); exact H.
Qed.

(** Only [delete_transaction] writes the deleted flag: an update keeps the
    flag of every document, a creation keeps the stored documents and adds
    one that is not deleted. *)
Lemma update_one_keeps {D B : Type} (f : D -> B) (q : D -> bool) (set : D -> D)
    (c : list D) :
  (forall d, f (set d) = f d) ->
  map f (snd (Mongo.update_one q set c)) = map f c.
Proof.
  intros H. induction c as [|d c IH]; simpl; [reflexivity|].
  destruct (q d); simpl; [now rewrite H|].
  destruct (Mongo.update_one q set c) as [n c']. simpl in *. now rewrite IH.
Qed.

Lemma update_transaction_keeps_deleted (tid : string) (body : TransactionCreate.t)
    (A : User.t) (db : list TransactionDoc.t) :
  map TransactionDoc.deleted (snd (update_transaction tid body A db))
  = map TransactionDoc.deleted db.
Proof.
  unfold update_transaction.
  pose proof (update_one_keeps TransactionDoc.deleted (owner_query tid A)
                (TransactionDoc.set_fields body) db (fun d => eq_refl)) as H.
  destruct (Mongo.update_one _ _ db) as [n c']. simpl in H.
  destruct (n =? 0); [exact H|].
  destruct (Mongo.find_one _ c'); exact H.
Qed.

Lemma create_transaction_keeps (body : TransactionCreate.t) (A : User.t)
    (uuid : string) (now created : DateTime.t) (db : list TransactionDoc.t) :
  exists doc,
    snd (create_transaction body A uuid now created db) = db ++ [doc]
    /\ TransactionDoc.deleted doc = false.
Proof.
  eexists. split; reflexivity.
Qed.

(** An update of one's own transaction, deleted or not, is matched and
    written; it answers with the updated transaction when its body carries a
    date. *)
Lemma update_own (A : User.t) (body : TransactionCreate.t)
    (db : list TransactionDoc.t) (t : TransactionDoc.t) :
  unique_ids db -> In t db ->
  TransactionDoc.user_id t = User.id A ->
  exists l1 l2,
    db = l1 ++ t :: l2
    /\ update_transaction (TransactionDoc.id t) body A db
       = (TransactionDoc.to_model (TransactionDoc.set_fields body t),
          l1 ++ TransactionDoc.set_fields body t :: l2).
Proof.
  intros Hnd Hin Hown.
  destruct (own_transaction_split A db t Hnd Hin) as (l1 & l2 & -> & Hids).
  exists l1, l2. split; [reflexivity|].
  unfold update_transaction.
  rewrite update_one_first_match.
  - simpl. rewrite find_one_first_match; [reflexivity| |].
    + intros d Hd. apply String.eqb_neq. now apply Hids.
    + simpl. apply String.eqb_refl.
  - intros d Hd. now apply owner_query_other_id, Hids.
  - now apply owner_query_own.
Qed.

Lemma update_own_dated (A : User.t) (body : TransactionCreate.t)
    (db : list TransactionDoc.t) (t : TransactionDoc.t) :
  unique_ids db -> In t db ->
  TransactionDoc.user_id t = User.id A ->
  TransactionCreate.date body <> None ->
  exists updated,
    fst (update_transaction (TransactionDoc.id t) body A db) = Ok updated
    /\ Transaction.deleted updated = TransactionDoc.deleted t.
Proof.
  intros Hnd Hin Hown Hdate.
  destruct (update_own A body db t Hnd Hin Hown) as (l1 & l2 & _ & ->).
  simpl. unfold TransactionDoc.to_model. simpl.
  destruct (TransactionCreate.date body) as [dt|]; [|now contradiction Hdate].
  eexists. split; reflexivity.
Qed.

Lemma update_own_undated (A : User.t) (body : TransactionCreate.t)
    (db : list TransactionDoc.t) (t : TransactionDoc.t) :
  unique_ids db -> In t db ->
  TransactionDoc.user_id t = User.id A ->
  TransactionCreate.date body = None ->
  status_of (fst (update_transaction (TransactionDoc.id t) body A db)) = 500.
Proof.
  intros Hnd Hin Hown Hdate.
  destruct (update_own A body db t Hnd Hin Hown) as (l1 & l2 & _ & ->).
  simpl. unfold TransactionDoc.to_model. simpl. now rewrite Hdate.
Qed.

(** ** Insights *)

Lemma insights_models (u : User.t) (now : DateTime.t) (db : list TransactionDoc.t) :
  exists ts,
    mapM TransactionDoc.to_model
      (Mongo.find (period_query u (DateTime.minus_days now 30)) db) = Ok ts
    /\ map TransactionDoc.of_model ts = insights_window u now db.
Proof.
  apply mapM_to_model, found_dated.
Qed.

Lemma filter_of_models (ts : list Transaction.t) :
  map TransactionDoc.of_model (filter is_expense ts)
  = filter is_expense_doc (map TransactionDoc.of_model ts).
Proof.
  induction ts as [|t ts IH]; [reflexivity|].
  cbn [filter map].
  replace (is_expense_doc (TransactionDoc.of_model t)) with (is_expense t)
    by reflexivity.
  destruct (is_expense t); cbn [map]; now rewrite IH.
Qed.

(** C9. When the window of the insights holds no expense, the endpoint
    answers, whatever the clock and the stored amounts, with the starter tip
    alone and the projection of balance 0: no division is evaluated. *)
Theorem insights_without_expenses (u : User.t) (now : DateTime.t)
    (db : list TransactionDoc.t) :
  (forall d, In d (insights_window u now db) -> TransactionDoc.type d <> "expense") ->
  get_insights u now db
  = Ok (mkInsights ["Start tracking your expenses to get personalized insights!"]
          (NoData 0 "No data available")).
Proof.
  intros Hnone.
  destruct (insights_models u now db) as (ts & Hts & Hdocs).
  unfold get_insights. rewrite Hts. cbn [bind].
  assert (E : filter is_expense ts = []).
  { apply (f_equal (filter is_expense_doc)) in Hdocs.
    rewrite <- filter_of_models in Hdocs.
    destruct (filter is_expense ts) as [|e es]; [reflexivity|].
    exfalso. simpl in Hdocs.
    assert (Hin : In (TransactionDoc.of_model e)
                    (filter is_expense_doc (insights_window u now db))).
    { rewrite <- Hdocs. now left. }
    apply filter_In in Hin. destruct Hin as [Hin He].
    apply (Hnone _ Hin). now apply String.eqb_eq. }
  rewrite E. reflexivity.
Qed.

Lemma top_category_tip_ok (total : Q) (cats : list (string * Q)) :
  ~ (total == 0)%Q ->
  exists tip, top_category_tip total cats = Ok tip /\ (List.length tip <= 1)%nat.
Proof.
  intros H. unfold top_category_tip.
  destruct (max_key cats) as [[k v]|].
  - rewrite div_nonzero by exact H. cbn [bind].
    destruct (Py.gtb _ _); eexists; split; try reflexivity; simpl; lia.
  - exists []. split; [reflexivity|]. simpl; lia.
Qed.

Lemma days_in_month_pos (y m : Z) : 1 <= DateTime.days_in_month y m.
Proof.
  unfold DateTime.days_in_month.
  destruct (m =? 2); [destruct (DateTime.is_leap y); lia|].
  destruct (_ || _)%bool; lia.
Qed.

Lemma replace_day_one (d : DateTime.t) (m : Z) :
  1 <= m <= 12 ->
  DateTime.replace_month_day d m 1
  = Ok (DateTime.make (DateTime.year d) m 1 (DateTime.hour d) (DateTime.minute d)
          (DateTime.second d) (DateTime.microsecond d)).
Proof.
  intros Hm. unfold DateTime.replace_month_day.
  destruct (1 <=? m) eqn:E1; [|apply Z.leb_gt in E1; lia].
  destruct (m <=? 12) eqn:E2; [|apply Z.leb_gt in E2; lia].
  pose proof (days_in_month_pos (DateTime.year d) m) as Hd.
  apply Z.leb_le in Hd. rewrite Hd. reflexivity.
Qed.

Lemma pred_day_first (y m h mi s us : Z) :
  1 < m ->
  DateTime.pred_day (DateTime.make y m 1 h mi s us)
  = DateTime.make y (m - 1) (DateTime.days_in_month y (m - 1)) h mi s us.
Proof.
  intros Hm. unfold DateTime.pred_day.
  cbn [DateTime.day DateTime.month DateTime.year DateTime.hour DateTime.minute
       DateTime.second DateTime.microsecond].
  change (1 <? 1) with false. cbv iota.
  apply Z.ltb_lt in Hm. now rewrite Hm.
Qed.

Lemma days_in_current_month_ok (now : DateTime.t) :
  1 <= DateTime.month now <= 11 ->
  days_in_current_month now
  = Ok (DateTime.days_in_month (DateTime.year now) (DateTime.month now)).
Proof.
  intros Hm. unfold days_in_current_month.
  rewrite replace_day_one by lia. cbn [bind].
  rewrite pred_day_first by lia. cbn [DateTime.day].
  now replace (DateTime.month now + 1 - 1) with (DateTime.month now) by lia.
Qed.

Lemma days_in_current_month_december (now : DateTime.t) :
  DateTime.month now = 12 ->
  days_in_current_month now = Unhandled (ValueError "month must be in 1..12").
Proof.
  intros Hm. unfold days_in_current_month, DateTime.replace_month_day.
  rewrite Hm. reflexivity.
Qed.

Lemma expenses_positive (u : User.t) (now : DateTime.t) (db : list TransactionDoc.t)
    (ts : list Transaction.t) :
  positive_amounts db ->
  map TransactionDoc.of_model ts = insights_window u now db ->
  Forall (fun x => 0 < x)%Q (map Transaction.amount (filter is_expense ts)).
Proof.
  intros Hpos Hdocs. apply Forall_forall. intros x Hx.
  apply in_map_iff in Hx. destruct Hx as (t & <- & Ht).
  apply filter_In in Ht. destruct Ht as [Ht _].
  assert (Hin : In (TransactionDoc.of_model t) (insights_window u now db)).
  { rewrite <- Hdocs. now apply in_map. }
  apply filter_In in Hin. destruct Hin as [Hin _].
  unfold positive_amounts in Hpos. rewrite Forall_forall in Hpos.
  exact (Hpos _ Hin).
Qed.

Lemma window_expense_model (u : User.t) (now : DateTime.t)
    (db : list TransactionDoc.t) (ts : list Transaction.t) (d : TransactionDoc.t) :
  map TransactionDoc.of_model ts = insights_window u now db ->
  In d (insights_window u now db) -> TransactionDoc.type d = "expense" ->
  filter is_expense ts <> [].
Proof.
  intros Hdocs Hin Hty E.
  rewrite <- Hdocs in Hin. apply in_map_iff in Hin. destruct Hin as (t & <- & Ht).
  assert (Hf : In t (filter is_expense ts)).
  { apply filter_In. split; [exact Ht|]. unfold is_expense. simpl in Hty.
    rewrite Hty. reflexivity. }
  rewrite E in Hf. contradiction.
Qed.

(** Outside December, with at least one expense in the window, the insights
    answer with at most three tips and the linear projection. *)
Lemma insights_projection_ok (u : User.t) (now : DateTime.t)
    (db : list TransactionDoc.t) (d : TransactionDoc.t) :
  positive_amounts db ->
  1 <= DateTime.month now <= 11 -> 1 <= DateTime.day now ->
  In d (insights_window u now db) -> TransactionDoc.type d = "expense" ->
  exists tips spend message,
    get_insights u now db
    = Ok (mkInsights tips
            (MonthEnd spend (User.monthly_budget u - spend)%Q message))
    /\ (List.length tips <= 3)%nat
    /\ spend
       = (doc_sum "expense" (insights_window u now db) / inject_Z (DateTime.day now)
          * inject_Z (DateTime.days_in_month (DateTime.year now) (DateTime.month now)))%Q.
Proof.
  intros Hpos Hm Hday Hin Hty.
  destruct (insights_models u now db) as (ts & Hts & Hdocs).
  pose proof (window_expense_model u now db ts d Hdocs Hin Hty) as Hne.
  pose proof (expenses_positive u now db ts Hpos Hdocs) as Hamt.
  assert (Htotal : Py.sum (map Transaction.amount (filter is_expense ts))
                   = doc_sum "expense" (insights_window u now db)).
  { unfold doc_sum. rewrite <- Hdocs. unfold is_expense.
    now rewrite amounts_of_models. }
  unfold get_insights. rewrite Hts. cbn [bind].
  destruct (filter is_expense ts) as [|e es] eqn:E; [now contradiction Hne|].
  assert (Hnz : ~ (Py.sum (map Transaction.amount (e :: es)) == 0)%Q).
  { pose proof (sum_pos _ _ Hamt) as Hp. apply Qlt_not_eq in Hp.
    intros Hz. apply Hp. symmetry. exact Hz. }
  destruct (top_category_tip_ok _ (category_totals_of (e :: es)) Hnz)
    as (tip1 & Htip1 & _).
  rewrite Htip1. cbn [bind].
  rewrite days_in_current_month_ok by exact Hm. cbn [bind].
  replace (0 <? DateTime.day now) with true by (symmetry; apply Z.ltb_lt; lia).
  rewrite div_nonzero.
  2:{ unfold Qeq. simpl. lia. }
  cbn [bind]. rewrite Htotal.
  do 3 eexists. split; [reflexivity|]. split; [|reflexivity].
  rewrite length_firstn. apply Nat.le_min_l.
Qed.

(** In December the same request fails: the month after December does not
    exist for [replace]. *)
Lemma insights_december_fails (u : User.t) (now : DateTime.t)
    (db : list TransactionDoc.t) (d : TransactionDoc.t) :
  positive_amounts db ->
  DateTime.month now = 12 ->
  In d (insights_window u now db) -> TransactionDoc.type d = "expense" ->
  get_insights u now db = Unhandled (ValueError "month must be in 1..12").
Proof.
  intros Hpos Hm Hin Hty.
  destruct (insights_models u now db) as (ts & Hts & Hdocs).
  pose proof (window_expense_model u now db ts d Hdocs Hin Hty) as Hne.
  pose proof (expenses_positive u now db ts Hpos Hdocs) as Hamt.
  unfold get_insights. rewrite Hts. cbn [bind].
  destruct (filter is_expense ts) as [|e es] eqn:E; [now contradiction Hne|].
  assert (Hnz : ~ (Py.sum (map Transaction.amount (e :: es)) == 0)%Q).
  { pose proof (sum_pos _ _ Hamt) as Hp. apply Qlt_not_eq in Hp.
    intros Hz. apply Hp. symmetry. exact Hz. }
  destruct (top_category_tip_ok _ (category_totals_of (e :: es)) Hnz)
    as (tip1 & Htip1 & _).
  rewrite Htip1. cbn [bind].
  rewrite days_in_current_month_december by exact Hm. reflexivity.
Qed.

(** ** Invariants of the transaction store *)

Lemma update_one_Forall {D : Type} (P : D -> Prop) (q : D -> bool) (set : D -> D)
    (c : list D) :
  (forall d, P d -> P (set d)) -> Forall P c ->
  Forall P (snd (Mongo.update_one q set c)).
Proof.
  intros Hset. induction 1 as [|d c Hd Hc IH]; simpl; [constructor|].
  destruct (q d); simpl; [constructor; auto|].
  destruct (Mongo.update_one q set c) as [n c']. simpl in *. now constructor.
Qed.

Lemma accepted_amount_positive (body : TransactionCreate.t) :
  TransactionCreate.errors body = [] -> (0 < TransactionCreate.amount body)%Q.
Proof.
  unfold TransactionCreate.errors, TransactionCreate.validate_amount.
  intros H. apply app_eq_nil in H. destruct H as [_ H].
  destruct (Qle_bool (TransactionCreate.amount body) 0) eqn:E; [discriminate|].
  apply Qnot_le_lt. intros Hle. apply Qle_bool_iff in Hle. congruence.
Qed.

Lemma post_transactions_positive (body : TransactionCreate.t) (u : User.t)
    (uuid : string) (now created : DateTime.t) (db : list TransactionDoc.t) :
  positive_amounts db ->
  positive_amounts (snd (post_transactions body u uuid now created db)).
Proof.
  intros Hpos. unfold post_transactions.
  destruct (TransactionCreate.errors body) eqn:E; [|exact Hpos].
  simpl. unfold Mongo.insert_one, positive_amounts.
  apply Forall_app. split; [exact Hpos|].
  constructor; [|constructor]. simpl. now apply accepted_amount_positive.
Qed.

Lemma put_transaction_positive (tid : string) (body : TransactionCreate.t)
    (u : User.t) (db : list TransactionDoc.t) :
  positive_amounts db ->
  positive_amounts (snd (put_transaction tid body u db)).
Proof.
  intros Hpos. unfold put_transaction.
  destruct (TransactionCreate.errors body) eqn:E; [|exact Hpos].
  apply accepted_amount_positive in E.
  unfold update_transaction.
  pose proof (update_one_Forall (fun d => (0 < TransactionDoc.amount d)%Q)
                (owner_query tid u) (TransactionDoc.set_fields body) db
                (fun _ _ => E) Hpos) as H.
  destruct (Mongo.update_one _ _ db) as [n c']. simpl in H.
  destruct (n =? 0); [exact H|].
  destruct (Mongo.find_one _ c'); exact H.
Qed.

Lemma delete_transaction_positive (tid : string) (u : User.t)
    (db : list TransactionDoc.t) :
  positive_amounts db ->
  positive_amounts (snd (delete_transaction tid u db)).
Proof.
  intros Hpos. unfold delete_transaction.
  pose proof (update_one_Forall (fun d => (0 < TransactionDoc.amount d)%Q)
                (owner_query tid u) TransactionDoc.set_deleted db
                (fun _ H => H) Hpos) as H.
  destruct (Mongo.update_one _ _ db) as [n c']. simpl in H.
  destruct (n =? 0); exact H.
Qed.

Lemma create_transaction_unique (body : TransactionCreate.t) (u : User.t)
    (uuid : string) (now created : DateTime.t) (db : list TransactionDoc.t) :
  unique_ids db -> ~ In uuid (map TransactionDoc.id db) ->
  unique_ids (snd (create_transaction body u uuid now created db)).
Proof.
  unfold unique_ids. intros Hnd Hfresh. simpl. unfold Mongo.insert_one.
  rewrite map_app. simpl.
  apply NoDup_rev in Hnd.
  rewrite <- (rev_involutive (map TransactionDoc.id db ++ [uuid])).
  apply NoDup_rev. rewrite rev_app_distr. simpl.
  constructor; [|exact Hnd]. now rewrite <- in_rev.
Qed.

Lemma update_transaction_unique (tid : string) (body : TransactionCreate.t)
    (u : User.t) (db : list TransactionDoc.t) :
  unique_ids db -> unique_ids (snd (update_transaction tid body u db)).
Proof.
  unfold unique_ids, update_transaction.
  pose proof (update_one_keeps TransactionDoc.id (owner_query tid u)
                (TransactionDoc.set_fields body) db (fun d => eq_refl)) as H.
  destruct (Mongo.update_one _ _ db) as [n c']. simpl in H.
  destruct (n =? 0); [|destruct (Mongo.find_one _ c')]; simpl; now rewrite H.
Qed.

Lemma delete_transaction_unique (tid : string) (u : User.t)
    (db : list TransactionDoc.t) :
  unique_ids db -> unique_ids (snd (delete_transaction tid u db)).
Proof.
  unfold unique_ids, delete_transaction.
  pose proof (update_one_keeps TransactionDoc.id (owner_query tid u)
                TransactionDoc.set_deleted db (fun d => eq_refl)) as H.
  destruct (Mongo.update_one _ _ db) as [n c']. simpl in H.
  destruct (n =? 0); simpl; now rewrite H.
Qed.

(** ** The handlers on the sample store *)

Lemma sample_store_unique : unique_ids Sample.store.
Proof.
  unfold unique_ids. simpl.
  repeat (constructor; [simpl; intuition discriminate|]). constructor.
Qed.

Lemma sample_income_window :
  insights_window Sample.ann Sample.mid_december Sample.income_only
  = [Sample.salary].
Proof.
  vm_compute. reflexivity.
Qed.

(** C8, in December. Ann has an expense in the window of the insights; in
    mid December the endpoint does not answer with tips and a projection: the
    computation of the days of the month raises and the request ends with
    status 500. *)
Theorem insights_december_example :
  In Sample.lunch (insights_window Sample.ann Sample.mid_december Sample.store)
  /\ TransactionDoc.type Sample.lunch = "expense"
  /\ get_insights Sample.ann Sample.mid_december Sample.store
     = Unhandled (ValueError "month must be in 1..12")
  /\ status_of (get_insights Sample.ann Sample.mid_december Sample.store) = 500.
Proof.
  split; [vm_compute; auto|]. split; [reflexivity|].
  split; vm_compute; reflexivity.
Qed.

(** C10, for a body without date. Ann updates her soft-deleted transaction
    with a body the model accepts: the document is matched and rewritten,
    its date becomes null and its deleted flag stays true, but the answer
    cannot be built and the request ends with status 500. *)
Theorem update_deleted_undated_example :
  TransactionCreate.errors Sample.undated_body = []
  /\ TransactionDoc.deleted Sample.snack = true
  /\ put_transaction "t3" Sample.undated_body Sample.ann Sample.store
     = (Unhandled (ValidationError "date" "none is not an allowed value"),
        [Sample.lunch; Sample.salary;
         TransactionDoc.make "t3" "u-ann" "expense" 60%Q "Food" "Snack" "Cash" []
           None (Sample.at_day 2026 12 12) true;
         Sample.rent])
  /\ status_of (fst (put_transaction "t3" Sample.undated_body Sample.ann Sample.store))
     = 500.
Proof.
  repeat split.
Qed.

Lemma invalid_transaction_not_400 :
  (TransactionCreate.amount Sample.free_body <= 0)%Q
  /\ status_of (fst (post_transactions Sample.free_body Sample.ann "t5"
                       Sample.mid_december Sample.mid_december Sample.store))
     <> 400.
Proof.
  split; [unfold Qle; simpl; lia|]. vm_compute. discriminate.
Qed.

Lemma budget_used_percent_capped_witness :
  (User.monthly_budget Sample.bob <= 0)%Q
  /\ exists d,
       get_dashboard_data "monthly" Sample.bob Sample.mid_december Sample.store = Ok d
       /\ (budget_used_percent d <= 100)%Q
       /\ budget_used_percent d = 0%Q.
Proof.
  assert (H : (User.monthly_budget Sample.bob <= 0)%Q) by (unfold Qle; simpl; lia).
  split; [exact H|].
  destruct (budget_used_percent_capped "monthly" Sample.bob Sample.mid_december
              Sample.store) as (d & Hd & Hle & Hz).
  exists d. split; [exact Hd|]. split; [exact Hle|]. exact (Hz H).
Defined.

Lemma deleted_never_read_witness :
  exists ts,
    get_transactions 100 0 None None Sample.ann Sample.store = Ok ts
    /\ Forall (readable Sample.store) ts.
Proof.
  eexists. split; [vm_compute; reflexivity|].
  apply (deleted_never_read 100 0 None None "monthly" Sample.ann
           Sample.mid_december Sample.store).
  vm_compute; reflexivity.
Defined.

Lemma invalid_transaction_rejected_witness :
  (TransactionCreate.amount Sample.free_body <= 0)%Q
  /\ exists es,
       es <> []
       /\ post_transactions Sample.free_body Sample.ann "t5" Sample.mid_december
            Sample.mid_december Sample.store
          = (RequestValidationError es, Sample.store)
       /\ status_of (fst (post_transactions Sample.free_body Sample.ann "t5"
                            Sample.mid_december Sample.mid_december Sample.store))
          = 422.
Proof.
  assert (H : (TransactionCreate.amount Sample.free_body <= 0)%Q)
    by (unfold Qle; simpl; lia).
  split; [exact H|].
  apply invalid_transaction_rejected. left. exact H.
Defined.

Lemma sample_rent_stored : In Sample.rent Sample.store.
Proof.
  simpl. auto.
Qed.

Lemma sample_rent_foreign : TransactionDoc.user_id Sample.rent <> User.id Sample.ann.
Proof.
  simpl. discriminate.
Qed.

Lemma foreign_update_not_404 :
  In Sample.rent Sample.store
  /\ TransactionDoc.user_id Sample.rent <> User.id Sample.ann
  /\ status_of (fst (put_transaction (TransactionDoc.id Sample.rent) Sample.free_body
                       Sample.ann Sample.store))
     <> 404.
Proof.
  split; [exact sample_rent_stored|]. split; [exact sample_rent_foreign|].
  vm_compute. discriminate.
Qed.

Lemma foreign_request_not_found_witness :
  unique_ids Sample.store
  /\ In Sample.rent Sample.store
  /\ TransactionDoc.user_id Sample.rent <> User.id Sample.ann
  /\ TransactionCreate.errors Sample.undated_body = []
  /\ TransactionCreate.errors Sample.free_body <> []
  /\ delete_transaction (TransactionDoc.id Sample.rent) Sample.ann Sample.store
     = (HTTPException 404 "Transaction not found", Sample.store)
  /\ put_transaction (TransactionDoc.id Sample.rent) Sample.undated_body Sample.ann
       Sample.store
     = (HTTPException 404 "Transaction not found", Sample.store)
  /\ status_of (fst (put_transaction (TransactionDoc.id Sample.rent) Sample.free_body
                       Sample.ann Sample.store))
     = 422.
Proof.
  assert (Hok : TransactionCreate.errors Sample.undated_body = []) by reflexivity.
  assert (Hbad : TransactionCreate.errors Sample.free_body <> [])
    by (vm_compute; discriminate).
  split; [exact sample_store_unique|]. split; [exact sample_rent_stored|].
  split; [exact sample_rent_foreign|]. split; [exact Hok|]. split; [exact Hbad|].
  destruct (foreign_request_not_found Sample.ann Sample.undated_body Sample.store
              Sample.rent sample_store_unique sample_rent_stored sample_rent_foreign)
    as (Hdel & Hput & _).
  destruct (foreign_request_not_found Sample.ann Sample.free_body Sample.store
              Sample.rent sample_store_unique sample_rent_stored sample_rent_foreign)
    as (_ & _ & Hrefused).
  split; [exact Hdel|]. split; [exact (Hput Hok)|]. exact (proj2 (Hrefused Hbad)).
Defined.

Lemma register_duplicate_email_witness :
  (exists d, In d [Sample.ann_doc]
             /\ UserDoc.email d = UserCreate.email Sample.ann_signup)
  /\ register (fun p => p) (fun i => i) Sample.ann_signup "u-2"
       Sample.mid_december [Sample.ann_doc]
     = (HTTPException 400 "Email already registered", [Sample.ann_doc])
  /\ (forall d, In d [] -> UserDoc.email d <> UserCreate.email Sample.ann_signup)
  /\ exists token doc,
       register (fun p => p) (fun i => i) Sample.ann_signup "u-1"
         Sample.mid_december []
       = (Ok token, [] ++ [doc])
       /\ UserDoc.email doc = UserCreate.email Sample.ann_signup
       /\ register (fun p => p) (fun i => i) Sample.ann_signup "u-2"
            Sample.mid_december ([] ++ [doc])
          = (HTTPException 400 "Email already registered", [] ++ [doc]).
Proof.
  assert (Hold : exists d, In d [Sample.ann_doc]
                           /\ UserDoc.email d = UserCreate.email Sample.ann_signup).
  { exists Sample.ann_doc. split; [now left|reflexivity]. }
  assert (Hnew : forall d : UserDoc.t,
             In d [] -> UserDoc.email d <> UserCreate.email Sample.ann_signup).
  { intros d []. }
  split; [exact Hold|].
  split.
  { exact (proj1 (register_duplicate_email (fun p => p) (fun i => i)
                    Sample.ann_signup Sample.ann_signup "u-2" "u-2"
                    Sample.mid_december Sample.mid_december [Sample.ann_doc]
                    eq_refl) Hold). }
  split; [exact Hnew|].
  exact (proj2 (register_duplicate_email (fun p => p) (fun i => i)
                  Sample.ann_signup Sample.ann_signup "u-1" "u-2"
                  Sample.mid_december Sample.mid_december [] eq_refl) Hnew).
Defined.

Lemma delete_is_soft_witness :
  unique_ids Sample.store
  /\ In Sample.lunch Sample.store
  /\ TransactionDoc.user_id Sample.lunch = User.id Sample.ann
  /\ exists l1 l2 t',
       Sample.store = l1 ++ Sample.lunch :: l2
       /\ delete_transaction "t1" Sample.ann Sample.store
          = (Ok "Transaction deleted successfully", l1 ++ t' :: l2)
       /\ TransactionDoc.deleted t' = true
       /\ TransactionDoc.amount t' = 150%Q.
Proof.
  assert (Hin : In Sample.lunch Sample.store) by (simpl; auto).
  split; [exact sample_store_unique|]. split; [exact Hin|]. split; [reflexivity|].
  destruct (delete_is_soft Sample.ann Sample.store Sample.lunch
              sample_store_unique Hin eq_refl)
    as (l1 & l2 & t' & H1 & H2 & _ & H3 & _ & _ & _ & H4 & _).
  exists l1, l2, t'. repeat split; assumption.
Defined.

Lemma insights_without_expenses_witness :
  (forall d, In d (insights_window Sample.ann Sample.mid_december Sample.income_only) ->
             TransactionDoc.type d <> "expense")
  /\ get_insights Sample.ann Sample.mid_december Sample.income_only
     = Ok (mkInsights ["Start tracking your expenses to get personalized insights!"]
             (NoData 0 "No data available")).
Proof.
  assert (H : forall d,
             In d (insights_window Sample.ann Sample.mid_december Sample.income_only) ->
             TransactionDoc.type d <> "expense").
  { intros d Hd. rewrite sample_income_window in Hd.
    destruct Hd as [<-|[]]. simpl. discriminate. }
  split; [exact H|].
  exact (insights_without_expenses Sample.ann Sample.mid_december
           Sample.income_only H).
Defined.

(** * Further properties of the handlers *)

(** ** The list of transactions *)

Lemma of_model_inj (a b : Transaction.t) :
  TransactionDoc.of_model a = TransactionDoc.of_model b -> a = b.
Proof.
  destruct a, b. unfold TransactionDoc.of_model. simpl.
  intros H. injection H. intros. subst. reflexivity.
Qed.

Lemma mapM_Ok_docs (l : list TransactionDoc.t) (ts : list Transaction.t) :
  mapM TransactionDoc.to_model l = Ok ts -> map TransactionDoc.of_model ts = l.
Proof.
  intros H. apply mapM_Ok_inv in H.
  induction H as [|d t l ts Hdt _ IH]; simpl; [reflexivity|].
  apply to_model_Ok in Hdt. now rewrite Hdt, IH.
Qed.

Lemma get_transactions_Ok_docs (limit offset : Z) (c ty : option string)
    (u : User.t) (db : list TransactionDoc.t) (ts : list Transaction.t) :
  get_transactions limit offset c ty u db = Ok ts ->
  0 <= offset
  /\ map TransactionDoc.of_model ts = listed_docs limit offset c ty u db.
Proof.
  unfold get_transactions, Mongo.skip, listed_docs.
  destruct (offset <? 0) eqn:E; [discriminate|]. cbn [bind].
  intros H. split; [now apply Z.ltb_ge|]. now apply mapM_Ok_docs.
Qed.

Lemma In_listed_docs (limit offset : Z) (c ty : option string) (u : User.t)
    (db : list TransactionDoc.t) (d : TransactionDoc.t) :
  In d (listed_docs limit offset c ty u db) ->
  In d db /\ list_query u c ty d = true.
Proof.
  unfold listed_docs. intros Hd.
  apply In_limit, In_skipn in Hd.
  eapply Permutation_in in Hd; [|apply sort_desc_Permutation].
  now apply filter_In in Hd.
Qed.

(** X1. A negative offset is refused by the driver and the request ends
    with status 500; with an offset and a limit that are not negative and
    fit 64 bits, the list answers whenever the stored documents carry a
    date. *)
Theorem get_transactions_offset (limit offset : Z) (c ty : option string)
    (u : User.t) (db : list TransactionDoc.t) :
  (offset < 0 ->
   get_transactions limit offset c ty u db
   = Unhandled (ValueError "skip must be >= 0"))
  /\ (int64_count offset -> int64_count limit -> Forall dated db ->
      exists ts, get_transactions limit offset c ty u db = Ok ts).
Proof.
  split.
  - intros H. unfold get_transactions, Mongo.skip.
    apply Z.ltb_lt in H. now rewrite H.
  - intros [Hoff _] _. now apply get_transactions_ok.
Qed.

(** X2. Paging, for an offset and a limit that are not negative and fit
    64 bits: an answer of the list holds the documents that match the query,
    without the first [offset] of them, and at most [limit] of the rest when
    limit is not 0. *)
Theorem get_transactions_page (limit offset : Z) (c ty : option string)
    (u : User.t) (db : list TransactionDoc.t) (ts : list Transaction.t) :
  int64_count offset -> int64_count limit ->
  get_transactions limit offset c ty u db = Ok ts ->
  let matching := List.length (filter (list_query u c ty) db) in
  let rest := (matching - Z.to_nat offset)%nat in
  List.length ts
  = if limit =? 0 then rest else Nat.min (Z.to_nat limit) rest.
Proof.
  intros _ [Hlimit _] H. apply get_transactions_Ok_docs in H. destruct H as [_ H].
  apply (f_equal (@List.length _)) in H. rewrite length_map in H.
  rewrite H. unfold listed_docs, Mongo.limit, Mongo.find. cbv zeta.
  assert (Hlen : List.length
                   (skipn (Z.to_nat offset)
                      (Mongo.sort_desc date_ltb (filter (list_query u c ty) db)))
                 = (List.length (filter (list_query u c ty) db) - Z.to_nat offset)%nat).
  { rewrite length_skipn.
    now rewrite (Permutation_length (sort_desc_Permutation date_ltb _)). }
  destruct (limit =? 0).
  - exact Hlen.
  - rewrite length_firstn, Hlen. now rewrite Z.abs_eq by exact Hlimit.
Qed.

(** X3. Every transaction of an answer of the list belongs to the
    requesting user, is not deleted, and has the category and the type asked
    for; an empty category or type asks for nothing. *)
Theorem get_transactions_filtered (limit offset : Z) (c ty : option string)
    (u : User.t) (db : list TransactionDoc.t) (ts : list Transaction.t) :
  get_transactions limit offset c ty u db = Ok ts ->
  Forall (fun t =>
            Transaction.user_id t = User.id u
            /\ Transaction.deleted t = false
            /\ (forall c', c = Some c' -> c' <> "" -> Transaction.category t = c')
            /\ (forall ty', ty = Some ty' -> ty' <> "" -> Transaction.type t = ty'))
         ts.
Proof.
  intros H. apply get_transactions_Ok_docs in H. destruct H as [_ H].
  apply Forall_forall. intros t Ht.
  assert (Hin : In (TransactionDoc.of_model t) (listed_docs limit offset c ty u db)).
  { rewrite <- H. now apply in_map. }
  apply In_listed_docs in Hin. destruct Hin as [_ Hq].
  unfold list_query in Hq. rewrite !andb_true_iff in Hq.
  destruct Hq as [[[Hu Hd] Hc] Hty]. simpl in Hu, Hd, Hc, Hty.
  split; [now apply String.eqb_eq|].
  split; [now apply negb_true_iff|].
  split.
  - intros c' -> Hne. unfold Py.truthy in Hc.
    apply String.eqb_neq in Hne. rewrite Hne in Hc. simpl in Hc.
    now apply String.eqb_eq.
  - intros ty' -> Hne. unfold Py.truthy in Hty.
    apply String.eqb_neq in Hne. rewrite Hne in Hty. simpl in Hty.
    now apply String.eqb_eq.
Qed.

Lemma get_transactions_empty_filters (limit offset : Z) (u : User.t)
    (db : list TransactionDoc.t) :
  get_transactions limit offset (Some "") (Some "") u db
  = get_transactions limit offset None None u db.
Proof.
  reflexivity.
Qed.

(** ** Sorting *)

Section SortedFacts.
Context {D : Type} (key_ltb : D -> D -> bool).
Hypothesis key_ltb_asym : forall a b, key_ltb a b = true -> key_ltb b a = false.

Lemma insert_desc_HdRel (x d : D) (l : list D) :
  not_before key_ltb x d -> HdRel (not_before key_ltb) x l ->
  HdRel (not_before key_ltb) x (Mongo.insert_desc key_ltb d l).
Proof.
  intros Hxd Hl. destruct l as [|y l]; simpl.
  - now constructor.
  - destruct (key_ltb d y); constructor; [|exact Hxd].
    now inversion Hl.
Qed.

Lemma insert_desc_Sorted (d : D) (l : list D) :
  Sorted (not_before key_ltb) l -> Sorted (not_before key_ltb) (Mongo.insert_desc key_ltb d l).
Proof.
  induction 1 as [|x l Hl IH Hx]; simpl.
  - repeat constructor.
  - destruct (key_ltb d x) eqn:E.
    + constructor; [exact IH|].
      apply insert_desc_HdRel; [|exact Hx].
      now apply key_ltb_asym.
    + constructor; [now constructor|]. now constructor.
Qed.

Lemma sort_desc_Sorted (l : list D) :
  Sorted (not_before key_ltb) (Mongo.sort_desc key_ltb l).
Proof.
  induction l as [|x l IH]; simpl; [constructor|].
  now apply insert_desc_Sorted.
Qed.
End SortedFacts.

Lemma Sorted_skipn {A : Type} (R : A -> A -> Prop) (n : nat) (l : list A) :
  Sorted R l -> Sorted R (skipn n l).
Proof.
  revert l. induction n as [|n IH]; intros l H; simpl; [exact H|].
  destruct l as [|x l]; [constructor|]. apply IH. now inversion H.
Qed.

Lemma Sorted_firstn {A : Type} (R : A -> A -> Prop) (n : nat) (l : list A) :
  Sorted R l -> Sorted R (firstn n l).
Proof.
  revert l. induction n as [|n IH]; intros l H; simpl; [constructor|].
  destruct l as [|x l]; [constructor|].
  inversion H as [|? ? Hl Hx]; subst.
  constructor; [now apply IH|].
  destruct n; [constructor|].
  destruct l as [|y l]; simpl; constructor. now inversion Hx.
Qed.

Lemma Sorted_of_map {A B : Type} (f : A -> B) (R : B -> B -> Prop) (l : list A) :
  Sorted R (map f l) -> Sorted (fun a b => R (f a) (f b)) l.
Proof.
  induction l as [|x l IH]; simpl; intros H; [constructor|].
  inversion H as [|? ? Hl Hx]; subst.
  constructor; [now apply IH|].
  destruct l as [|y l]; simpl in *; constructor. now inversion Hx.
Qed.

Lemma string_ltb_asym (a b : string) :
  String.ltb a b = true -> String.ltb b a = false.
Proof.
  unfold String.ltb. rewrite (String.compare_antisym b a).
  destruct (String.compare a b); simpl; congruence.
Qed.

Lemma date_ltb_asym (a b : TransactionDoc.t) :
  date_ltb a b = true -> date_ltb b a = false.
Proof.
  unfold date_ltb, Mongo.value_ltb.
  destruct (date_value a), (date_value b); try congruence.
  apply string_ltb_asym.
Qed.

(** The answers of the list are in descending order of their ISO dates. *)
Lemma get_transactions_sorted_iso (limit offset : Z) (c ty : option string)
    (u : User.t) (db : list TransactionDoc.t) (ts : list Transaction.t) :
  get_transactions limit offset c ty u db = Ok ts ->
  Sorted (fun a b =>
            String.ltb (DateTime.isoformat (Transaction.date a))
                       (DateTime.isoformat (Transaction.date b)) = false) ts.
Proof.
  intros H. apply get_transactions_Ok_docs in H. destruct H as [_ H].
  assert (HS : Sorted (not_before date_ltb) (map TransactionDoc.of_model ts)).
  { rewrite H. unfold listed_docs, Mongo.limit.
    destruct (limit =? 0); [|apply Sorted_firstn];
      apply Sorted_skipn, sort_desc_Sorted, date_ltb_asym. }
  apply Sorted_of_map in HS. exact HS.
Qed.

(** ** ISO strings and the calendar order *)

Lemma string_append_assoc (a b c : string) : ((a ++ b) ++ c = a ++ (b ++ c))%string.
Proof.
  induction a as [|x a IH]; simpl; [reflexivity|]. now rewrite IH.
Qed.

Lemma digit_code (n : Z) :
  N_of_ascii (DateTime.digit n) = Z.to_N (48 + n mod 10).
Proof.
  unfold DateTime.digit, ascii_of_nat.
  assert (H : 0 <= n mod 10 < 10) by (apply Z.mod_pos_bound; lia).
  rewrite N_ascii_embedding; lia.
Qed.

Lemma digit_compare (a b : Z) :
  Ascii.compare (DateTime.digit a) (DateTime.digit b) = (a mod 10 ?= b mod 10).
Proof.
  unfold Ascii.compare. rewrite !digit_code.
  assert (Ha : 0 <= a mod 10 < 10) by (apply Z.mod_pos_bound; lia).
  assert (Hb : 0 <= b mod 10 < 10) by (apply Z.mod_pos_bound; lia).
  rewrite Z2N.inj_compare by lia.
  apply Z.add_compare_mono_l.
Qed.

Lemma ascii_compare_refl (c : ascii) : Ascii.compare c c = Eq.
Proof.
  unfold Ascii.compare. apply N.compare_refl.
Qed.

Lemma compare_same_head (c : ascii) (s t : string) :
  String.compare (String c s) (String c t) = String.compare s t.
Proof.
  simpl. now rewrite ascii_compare_refl.
Qed.

Ltac by_compare_cases :=
  repeat match goal with
         | |- context [?x ?= ?y] => destruct (Z.compare_spec x y)
         end;
  simpl; try reflexivity; exfalso; Z.div_mod_to_equations; lia.

Lemma lex_digits (a b : Z) (c : comparison) :
  0 <= a < 100 -> 0 <= b < 100 ->
  lex ((a / 10) mod 10 ?= (b / 10) mod 10) (lex (a mod 10 ?= b mod 10) c)
  = lex (a ?= b) c.
Proof.
  intros Ha Hb. by_compare_cases.
Qed.

Lemma lex_hundreds (a b : Z) (c : comparison) :
  0 <= a < 10000 -> 0 <= b < 10000 ->
  lex (a / 100 ?= b / 100) (lex (a mod 100 ?= b mod 100) c) = lex (a ?= b) c.
Proof.
  intros Ha Hb. by_compare_cases.
Qed.

Lemma lex_myriads (a b : Z) (c : comparison) :
  0 <= a < 1000000 -> 0 <= b < 1000000 ->
  lex (a / 10000 ?= b / 10000) (lex (a mod 10000 ?= b mod 10000) c)
  = lex (a ?= b) c.
Proof.
  intros Ha Hb. by_compare_cases.
Qed.

Lemma pad2_app (n : Z) (s : string) :
  (DateTime.pad2 n ++ s)%string
  = String (DateTime.digit (n / 10)) (String (DateTime.digit n) s).
Proof.
  reflexivity.
Qed.

Lemma digit_mod (n : Z) : DateTime.digit (n mod 10) = DateTime.digit n.
Proof.
  unfold DateTime.digit. now rewrite Z.mod_mod by lia.
Qed.

Lemma pad2_mod (n : Z) : DateTime.pad2 (n mod 100) = DateTime.pad2 n.
Proof.
  unfold DateTime.pad2.
  rewrite <- (digit_mod (n mod 100 / 10)), <- (digit_mod (n mod 100)).
  rewrite <- (digit_mod (n / 10)), <- (digit_mod n).
  replace ((n mod 100 / 10) mod 10) with ((n / 10) mod 10)
    by (Z.div_mod_to_equations; lia).
  replace ((n mod 100) mod 10) with (n mod 10)
    by (Z.div_mod_to_equations; lia).
  reflexivity.
Qed.

Lemma pad4_mod (n : Z) : DateTime.pad4 (n mod 10000) = DateTime.pad4 n.
Proof.
  unfold DateTime.pad4.
  rewrite <- (pad2_mod (n mod 10000 / 100)), <- (pad2_mod (n mod 10000)).
  rewrite <- (pad2_mod (n / 100)), <- (pad2_mod n).
  replace ((n mod 10000 / 100) mod 100) with ((n / 100) mod 100)
    by (Z.div_mod_to_equations; lia).
  replace ((n mod 10000) mod 100) with (n mod 100)
    by (Z.div_mod_to_equations; lia).
  reflexivity.
Qed.

Lemma compare_pad2 (a b : Z) (s t : string) :
  0 <= a < 100 -> 0 <= b < 100 ->
  String.compare (DateTime.pad2 a ++ s) (DateTime.pad2 b ++ t)
  = lex (a ?= b) (String.compare s t).
Proof.
  intros Ha Hb. rewrite !pad2_app. cbn [String.compare].
  rewrite !digit_compare, <- (lex_digits a b _ Ha Hb).
  destruct ((a / 10) mod 10 ?= (b / 10) mod 10); try reflexivity.
  destruct (a mod 10 ?= b mod 10); reflexivity.
Qed.

Lemma compare_pad4 (a b : Z) (s t : string) :
  0 <= a < 10000 -> 0 <= b < 10000 ->
  String.compare (DateTime.pad4 a ++ s) (DateTime.pad4 b ++ t)
  = lex (a ?= b) (String.compare s t).
Proof.
  intros Ha Hb. unfold DateTime.pad4. rewrite !string_append_assoc.
  rewrite <- (pad2_mod a), <- (pad2_mod b).
  rewrite !compare_pad2 by (Z.div_mod_to_equations; lia).
  now apply lex_hundreds.
Qed.

Lemma compare_pad6 (a b : Z) (s t : string) :
  0 <= a < 1000000 -> 0 <= b < 1000000 ->
  String.compare (DateTime.pad6 a ++ s) (DateTime.pad6 b ++ t)
  = lex (a ?= b) (String.compare s t).
Proof.
  intros Ha Hb. unfold DateTime.pad6. rewrite !string_append_assoc.
  rewrite <- (pad4_mod a), <- (pad4_mod b).
  rewrite compare_pad2 by (Z.div_mod_to_equations; lia).
  rewrite compare_pad4 by (Z.div_mod_to_equations; lia).
  now apply lex_myriads.
Qed.

Lemma isoformat_fields (d : DateTime.t) :
  DateTime.isoformat d
  = (DateTime.pad4 (DateTime.year d) ++ "-" ++ DateTime.pad2 (DateTime.month d)
     ++ "-" ++ DateTime.pad2 (DateTime.day d) ++ "T"
     ++ DateTime.pad2 (DateTime.hour d) ++ ":"
     ++ DateTime.pad2 (DateTime.minute d) ++ ":"
     ++ DateTime.pad2 (DateTime.second d) ++ iso_tail (DateTime.microsecond d))%string.
Proof.
  unfold DateTime.isoformat, DateTime.strftime_ymd, iso_tail.
  now rewrite !string_append_assoc.
Qed.

Lemma compare_iso_tail (a b : Z) :
  0 <= a < 1000000 -> 0 <= b < 1000000 ->
  String.compare (iso_tail a) (iso_tail b) = (a ?= b).
Proof.
  intros Ha Hb. unfold iso_tail.
  destruct (Z.eqb_spec a 0) as [->|Ea], (Z.eqb_spec b 0) as [->|Eb].
  - reflexivity.
  - cbn [append String.compare Ascii.compare]. symmetry.
    apply Z.compare_lt_iff. lia.
  - cbn [append String.compare Ascii.compare]. symmetry.
    apply Z.compare_gt_iff. lia.
  - rewrite !string_append_assoc. cbn [append]. rewrite compare_same_head.
    rewrite compare_pad6 by assumption.
    destruct (a ?= b); reflexivity.
Qed.

Lemma datetime_valid_widths (d : DateTime.t) :
  datetime_valid d ->
  0 <= DateTime.year d < 10000
  /\ 0 <= DateTime.month d < 100
  /\ 0 <= DateTime.day d < 100
  /\ 0 <= DateTime.hour d < 100
  /\ 0 <= DateTime.minute d < 100
  /\ 0 <= DateTime.second d < 100
  /\ 0 <= DateTime.microsecond d < 1000000.
Proof.
  unfold datetime_valid. intros (Hy & Hm & Hd & Hh & Hmi & Hs & Hus).
  assert (DateTime.days_in_month (DateTime.year d) (DateTime.month d) <= 31).
  { unfold DateTime.days_in_month.
    destruct (_ =? 2); [destruct (DateTime.is_leap _); lia|].
    destruct (_ || _)%bool; lia. }
  repeat split; lia.
Qed.

Lemma isoformat_compare (a b : DateTime.t) :
  datetime_valid a -> datetime_valid b ->
  String.compare (DateTime.isoformat a) (DateTime.isoformat b)
  = datetime_compare a b.
Proof.
  intros Ha Hb.
  apply datetime_valid_widths in Ha, Hb.
  destruct Ha as (Ha1 & Ha2 & Ha3 & Ha4 & Ha5 & Ha6 & Ha7).
  destruct Hb as (Hb1 & Hb2 & Hb3 & Hb4 & Hb5 & Hb6 & Hb7).
  rewrite !isoformat_fields. unfold datetime_compare.
  rewrite compare_pad4 by assumption. cbn [append]. rewrite compare_same_head.
  rewrite compare_pad2 by assumption. cbn [append]. rewrite compare_same_head.
  rewrite compare_pad2 by assumption. cbn [append]. rewrite compare_same_head.
  rewrite compare_pad2 by assumption. cbn [append]. rewrite compare_same_head.
  rewrite compare_pad2 by assumption. cbn [append]. rewrite compare_same_head.
  rewrite compare_pad2 by assumption.
  now rewrite compare_iso_tail by assumption.
Qed.






Lemma Sorted_impl_In {A : Type} (R R' : A -> A -> Prop) (l : list A) :
  (forall a b, In a l -> In b l -> R a b -> R' a b) ->
  Sorted R l -> Sorted R' l.
Proof.
  intros H HS. induction HS as [|x l Hl IH Hx]; [constructor|].
  constructor.
  - apply IH. intros a b Ha Hb. apply H; now right.
  - destruct Hx as [|y l Hxy]; constructor.
    apply H; [now left|right; now left|exact Hxy].
Qed.

(** X4. On a store whose dates are all UTC datetimes, the list is ordered
    by date, most recent first: no transaction of an answer is dated before
    the one that follows it. *)
Theorem get_transactions_sorted (limit offset : Z) (c ty : option string)
    (u : User.t) (db : list TransactionDoc.t) (ts : list Transaction.t) :
  utc_dates db ->
  get_transactions limit offset c ty u db = Ok ts ->
  Sorted (fun a b => datetime_compare (Transaction.date a) (Transaction.date b) <> Lt)
         ts.
Proof.
  intros Hdb H.
  pose proof (get_transactions_sorted_iso _ _ _ _ _ _ _ H) as HS.
  apply get_transactions_Ok_docs in H. destruct H as [_ H].
  assert (Hvalid : forall t, In t ts -> datetime_valid (Transaction.date t)).
  { intros t Ht.
    assert (Hin : In (TransactionDoc.of_model t) (listed_docs limit offset c ty u db)).
    { rewrite <- H. now apply in_map. }
    apply In_listed_docs in Hin. destruct Hin as [Hin _].
    unfold utc_dates in Hdb. rewrite Forall_forall in Hdb.
    exact (Hdb _ Hin _ eq_refl). }
  eapply Sorted_impl_In; [|exact HS].
  intros a b Ha Hb Hab. simpl in Hab. unfold String.ltb in Hab.
  rewrite isoformat_compare in Hab by auto.
  destruct (datetime_compare _ _); congruence.
Qed.

(** ** Writing and reading back *)

(** X7. On a store whose documents all carry a date, and for a body whose
    amount is a finite number, a created transaction is stored as it is
    answered: it belongs to the requesting user, is not deleted, is dated by
    the body or else by the clock, and the owner's unpaged list returns
    it. *)
Theorem create_then_list (body : TransactionCreate.t) (u : User.t)
    (uuid : string) (now created : DateTime.t) (db : list TransactionDoc.t) :
  Forall dated db ->
  exists t ts,
    create_transaction body u uuid now created db
    = (Ok t, db ++ [TransactionDoc.of_model t])
    /\ Transaction.user_id t = User.id u
    /\ Transaction.deleted t = false
    /\ Transaction.date t
       = match TransactionCreate.date body with Some d => d | None => now end
    /\ get_transactions 0 0 None None u
         (snd (create_transaction body u uuid now created db)) = Ok ts
    /\ In t ts.
Proof.
  intros Hdated.
  destruct (create_transaction body u uuid now created db) as [r db'] eqn:E.
  unfold create_transaction, Mongo.insert_one in E.
  injection E as <- <-.
  set (t := Transaction.make uuid (User.id u) _ _ _ _ _ _ _ created false).
  assert (Hdated' : Forall dated (db ++ [TransactionDoc.of_model t])).
  { apply Forall_app. split; [exact Hdated|].
    constructor; [|constructor]. unfold dated. simpl. discriminate. }
  destruct (get_transactions_ok 0 0 None None u _ (Z.le_refl 0) Hdated') as (ts & Hts).
  exists t, ts. repeat split; try reflexivity.
  - exact Hts.
  - pose proof Hts as Hdocs. apply get_transactions_Ok_docs in Hdocs.
    destruct Hdocs as [_ Hdocs].
    assert (Hin : In (TransactionDoc.of_model t) (map TransactionDoc.of_model ts)).
    { rewrite Hdocs. unfold listed_docs, Mongo.limit. simpl skipn.
      eapply Permutation_in; [symmetry; apply sort_desc_Permutation|].
      apply filter_In. split.
      - apply in_or_app. right. now left.
      - unfold list_query. simpl. now rewrite String.eqb_refl. }
    apply in_map_iff in Hin. destruct Hin as (t' & Heq & Ht').
    apply of_model_inj in Heq. now subst.
Qed.

Lemma unique_ids_rewrite (l1 l2 : list TransactionDoc.t) (t t' d : TransactionDoc.t) :
  unique_ids (l1 ++ t :: l2) ->
  TransactionDoc.id t' = TransactionDoc.id t ->
  In d (l1 ++ t' :: l2) -> TransactionDoc.id d = TransactionDoc.id t -> d = t'.
Proof.
  intros Hnd Hid Hin Heq.
  destruct (unique_ids_split (l1 ++ t :: l2) t Hnd) as (k1 & k2 & Hsplit & Hids).
  { apply in_or_app. right. now left. }
  unfold unique_ids in Hnd. rewrite map_app in Hnd. simpl in Hnd.
  apply NoDup_remove_2 in Hnd.
  apply in_app_or in Hin. simpl in Hin.
  destruct Hin as [Hin|[Hin|Hin]]; [exfalso|now symmetry|exfalso];
    apply Hnd; rewrite <- Heq; apply in_or_app; [left|right]; now apply in_map.
Qed.

(** X8. After its owner deleted it, a transaction is returned by no list
    request of the owner, whatever the paging and the filters, and is not
    among the recent transactions of the dashboard. *)
Theorem delete_then_read (A : User.t) (db : list TransactionDoc.t)
    (t : TransactionDoc.t) (limit offset : Z) (c ty : option string)
    (period : string) (now : DateTime.t) :
  unique_ids db -> In t db ->
  TransactionDoc.user_id t = User.id A ->
  let db' := snd (delete_transaction (TransactionDoc.id t) A db) in
  (forall ts, get_transactions limit offset c ty A db' = Ok ts ->
              ~ In (TransactionDoc.id t) (map Transaction.id ts))
  /\ (forall d, get_dashboard_data period A now db' = Ok d ->
                ~ In (TransactionDoc.id t) (map Transaction.id (recent_transactions d))).
Proof.
  intros Hnd Hin Hown db'.
  destruct (delete_own A db t Hnd Hin Hown) as (l1 & l2 & Hdb & Hdel).
  assert (Hdb' : db' = l1 ++ TransactionDoc.set_deleted t :: l2).
  { unfold db'. now rewrite Hdel. }
  assert (Hgone : forall x, readable db' x -> Transaction.id x <> TransactionDoc.id t).
  { intros x [Hx Hlive] Heq. rewrite Hdb' in Hx. rewrite Hdb in Hnd.
    apply (unique_ids_rewrite l1 l2 t (TransactionDoc.set_deleted t) _ Hnd eq_refl)
      in Hx; [|exact Heq].
    apply (f_equal TransactionDoc.deleted) in Hx. simpl in Hx. congruence. }
  split.
  - intros ts Hts Hid. apply get_transactions_readable in Hts.
    rewrite Forall_forall in Hts.
    apply in_map_iff in Hid. destruct Hid as (x & Hx & Hxin).
    exact (Hgone x (Hts x Hxin) Hx).
  - intros d Hd Hid. apply dashboard_recent_readable in Hd.
    rewrite Forall_forall in Hd.
    apply in_map_iff in Hid. destruct Hid as (x & Hx & Hxin).
    exact (Hgone x (Hd x Hxin) Hx).
Qed.

(** X9. Deleting a transaction that is already deleted succeeds again and
    changes nothing: the delete does not look at the deleted flag. *)
Theorem delete_twice (A : User.t) (db : list TransactionDoc.t)
    (t : TransactionDoc.t) :
  unique_ids db -> In t db ->
  TransactionDoc.user_id t = User.id A ->
  let db' := snd (delete_transaction (TransactionDoc.id t) A db) in
  delete_transaction (TransactionDoc.id t) A db'
  = (Ok "Transaction deleted successfully", db').
Proof.
  intros Hnd Hin Hown db'.
  destruct (own_transaction_split A db t Hnd Hin) as (l1 & l2 & Hdb & Hids).
  destruct (delete_own A db t Hnd Hin Hown) as (k1 & k2 & _ & Hdel).
  assert (Hdb' : db' = l1 ++ TransactionDoc.set_deleted t :: l2).
  { unfold db'. subst db. unfold delete_transaction.
    rewrite update_one_first_match; [reflexivity| |now apply owner_query_own].
    intros d Hd. now apply owner_query_other_id, Hids. }
  rewrite Hdb'. unfold delete_transaction.
  change (TransactionDoc.id t) with (TransactionDoc.id (TransactionDoc.set_deleted t)).
  rewrite update_one_first_match.
  - reflexivity.
  - intros d Hd. apply owner_query_other_id. simpl. now apply Hids.
  - apply owner_query_own. exact Hown.
Qed.

(** X10. An update of one's own transaction with a body that carries a date
    answers with the transaction as stored: the seven fields of the body
    are taken from it, and id, user_id, created_at and deleted are kept; the
    other documents are untouched. *)
Theorem update_own_fields (A : User.t) (body : TransactionCreate.t)
    (db : list TransactionDoc.t) (t : TransactionDoc.t) (date : DateTime.t) :
  unique_ids db -> In t db ->
  TransactionDoc.user_id t = User.id A ->
  TransactionCreate.date body = Some date ->
  exists l1 l2 updated,
    db = l1 ++ t :: l2
    /\ update_transaction (TransactionDoc.id t) body A db
       = (Ok updated, l1 ++ TransactionDoc.of_model updated :: l2)
    /\ updated
       = Transaction.make (TransactionDoc.id t) (TransactionDoc.user_id t)
           (TransactionCreate.type body) (TransactionCreate.amount body)
           (TransactionCreate.category body) (TransactionCreate.description body)
           (TransactionCreate.payment_type body) (TransactionCreate.tags body)
           date (TransactionDoc.created_at t) (TransactionDoc.deleted t).
Proof.
  intros Hnd Hin Hown Hdate.
  destruct (update_own A body db t Hnd Hin Hown) as (l1 & l2 & Hdb & Hupd).
  exists l1, l2. eexists. split; [exact Hdb|]. split; [|reflexivity].
  rewrite Hupd. unfold TransactionDoc.to_model, TransactionDoc.set_fields, TransactionDoc.of_model.
  simpl. rewrite Hdate. reflexivity.
Qed.

Lemma put_transaction_keeps {B : Type} (f : TransactionDoc.t -> B) (tid : string)
    (body : TransactionCreate.t) (A : User.t) (db : list TransactionDoc.t) :
  (forall d, f (TransactionDoc.set_fields body d) = f d) ->
  map f (snd (put_transaction tid body A db)) = map f db.
Proof.
  intros Hf. unfold put_transaction.
  destruct (TransactionCreate.errors body); [|reflexivity].
  unfold update_transaction.
  pose proof (update_one_keeps f (owner_query tid A)
                (TransactionDoc.set_fields body) db Hf) as K.
  destruct (Mongo.update_one _ _ db) as [n c']. simpl in K.
  destruct (n =? 0); [exact K|].
  destruct (Mongo.find_one _ c'); exact K.
Qed.

(** X11. An update request, accepted or not, keeps the id, the owner, the
    creation time and the deleted flag of every stored document, and the
    number of documents. *)
Theorem put_transaction_frame (tid : string) (body : TransactionCreate.t)
    (A : User.t) (db : list TransactionDoc.t) :
  let db' := snd (put_transaction tid body A db) in
  map TransactionDoc.id db' = map TransactionDoc.id db
  /\ map TransactionDoc.user_id db' = map TransactionDoc.user_id db
  /\ map TransactionDoc.created_at db' = map TransactionDoc.created_at db
  /\ map TransactionDoc.deleted db' = map TransactionDoc.deleted db
  /\ List.length db' = List.length db.
Proof.
  cbv zeta. repeat split; try (apply put_transaction_keeps; reflexivity).
  rewrite <- (length_map TransactionDoc.id), put_transaction_keeps by reflexivity.
  apply length_map.
Qed.

(** X12. No request removes a document from the store: a creation appends
    one document, an update and a delete keep the documents' ids in
    place. *)
Theorem handlers_keep_documents (tid uuid : string) (body : TransactionCreate.t)
    (A : User.t) (now created : DateTime.t) (db : list TransactionDoc.t) :
  (exists new, map TransactionDoc.id
                 (snd (post_transactions body A uuid now created db))
               = map TransactionDoc.id db ++ new
               /\ (List.length new <= 1)%nat)
  /\ map TransactionDoc.id (snd (put_transaction tid body A db))
     = map TransactionDoc.id db
  /\ map TransactionDoc.id (snd (delete_transaction tid A db))
     = map TransactionDoc.id db.
Proof.
  split; [|split].
  - unfold post_transactions.
    destruct (TransactionCreate.errors body).
    + exists [uuid]. simpl. unfold Mongo.insert_one. rewrite map_app.
      split; [reflexivity|simpl; lia].
    + exists []. simpl. rewrite app_nil_r. split; [reflexivity|lia].
  - apply put_transaction_keeps. reflexivity.
  - unfold delete_transaction.
    pose proof (update_one_keeps TransactionDoc.id (owner_query tid A)
                  TransactionDoc.set_deleted db (fun d => eq_refl)) as K.
    destruct (Mongo.update_one _ _ db) as [n c']. simpl in K.
    destruct (n =? 0); exact K.
Qed.

(** ** The aggregates of the dashboard *)

Lemma sum_nil : Py.sum [] = 0%Q.
Proof. reflexivity. Qed.

Lemma dict_add_sum (k : string) (v : Q) (d : list (string * Q)) :
  (Py.sum (map snd (dict_add k v d)) == Py.sum (map snd d) + v)%Q.
Proof.
  induction d as [|[k' v'] d IH]; simpl.
  - rewrite sum_cons, sum_nil. ring.
  - destruct (k' =? k)%string; simpl; rewrite !sum_cons.
    + ring.
    + rewrite IH. ring.
Qed.

Lemma dict_add_keys_In (k x : string) (v : Q) (d : list (string * Q)) :
  In x (map fst (dict_add k v d)) -> x = k \/ In x (map fst d).
Proof.
  induction d as [|[k' v'] d IH]; simpl.
  - intros [H|[]]. now left.
  - destruct (k' =? k)%string; simpl; intros [H|H]; auto.
    destruct (IH H); auto.
Qed.

Lemma dict_add_NoDup (k : string) (v : Q) (d : list (string * Q)) :
  NoDup (map fst d) -> NoDup (map fst (dict_add k v d)).
Proof.
  induction d as [|[k' v'] d IH]; simpl; intros H.
  - repeat constructor. intros [].
  - inversion H as [|? ? Hk' Hd]; subst.
    destruct (k' =? k)%string eqn:E; simpl.
    + now constructor.
    + constructor; [|now apply IH].
      intros Hin. apply dict_add_keys_In in Hin. destruct Hin as [->|Hin].
      * rewrite String.eqb_refl in E. discriminate.
      * contradiction.
Qed.

Lemma sum_amounts_cons (p : Transaction.t -> bool) (t : Transaction.t)
    (ts : list Transaction.t) :
  (sum_amounts p (t :: ts)
   == (if p t then Transaction.amount t else 0) + sum_amounts p ts)%Q.
Proof.
  unfold sum_amounts. simpl. destruct (p t); simpl.
  - apply sum_cons.
  - ring.
Qed.

Lemma breakdown_fold (ts : list Transaction.t) (acc : list (string * Q)) :
  let d := fold_left
             (fun d t =>
                if is_expense t
                then dict_add (Transaction.category t) (Transaction.amount t) d
                else d) ts acc in
  (Py.sum (map snd d) == Py.sum (map snd acc) + sum_amounts is_expense ts)%Q
  /\ (NoDup (map fst acc) -> NoDup (map fst d)).
Proof.
  revert acc. induction ts as [|t ts IH]; intros acc; simpl.
  - split; [unfold sum_amounts; simpl; rewrite sum_nil; ring|trivial].
  - destruct (IH (if is_expense t
                  then dict_add (Transaction.category t) (Transaction.amount t) acc
                  else acc)) as [IHs IHn].
    split.
    + rewrite IHs, sum_amounts_cons.
      destruct (is_expense t); [rewrite dict_add_sum|]; ring.
    + intros Hacc. apply IHn.
      destruct (is_expense t); [now apply dict_add_NoDup|exact Hacc].
Qed.

(** In exact arithmetic the amounts of the categories add up to the total
    of the expenses. *)
Lemma category_breakdown_total (period : string) (u : User.t) (now : DateTime.t)
    (db : list TransactionDoc.t) :
  exists d,
    get_dashboard_data period u now db = Ok d
    /\ NoDup (map fst (category_breakdown d))
    /\ (Py.sum (map snd (category_breakdown d)) == total_expenses d)%Q.
Proof.
  destruct (get_dashboard_data_ok period u now db) as (ts & b & _ & _ & Hd).
  eexists. split; [exact Hd|]. cbn [category_breakdown total_expenses].
  destruct (breakdown_fold ts []) as [Hs Hn].
  split.
  - apply Hn. constructor.
  - unfold category_breakdown_of. rewrite Hs. simpl. rewrite sum_nil. ring.
Qed.

Lemma dict_add_key_In (k : string) (v : Q) (d : list (string * Q)) :
  In k (map fst (dict_add k v d)).
Proof.
  induction d as [|[k' v'] d IH]; simpl; [now left|].
  destruct (k' =? k)%string eqn:E; simpl.
  - left. now apply String.eqb_eq.
  - now right.
Qed.

Lemma dict_add_keys_mono (k x : string) (v : Q) (d : list (string * Q)) :
  In x (map fst d) -> In x (map fst (dict_add k v d)).
Proof.
  induction d as [|[k' v'] d IH]; simpl; [contradiction|].
  destruct (k' =? k)%string; simpl; intros [H|H]; auto.
Qed.

Lemma dict_add_In_other (k k' : string) (v v' : Q) (d : list (string * Q)) :
  k' <> k -> (In (k', v') (dict_add k v d) <-> In (k', v') d).
Proof.
  intros Hne. induction d as [|[k1 v1] d IH]; simpl.
  - split; [|contradiction]. intros [H|[]]. injection H as H _. congruence.
  - destruct (k1 =? k)%string eqn:E; simpl.
    + apply String.eqb_eq in E. subst k1.
      split; intros [H|H]; auto; injection H as H _; congruence.
    + rewrite IH. reflexivity.
Qed.

Lemma dict_add_In_same (k : string) (v v' : Q) (d : list (string * Q)) :
  NoDup (map fst d) -> In (k, v') (dict_add k v d) ->
  (~ In k (map fst d) /\ v' = (0 + v)%Q)
  \/ (exists v0, In (k, v0) d /\ v' = (v0 + v)%Q).
Proof.
  induction d as [|[k1 v1] d IH]; simpl; intros Hnd Hin.
  - destruct Hin as [H|[]]. injection H as <-. left. split; [tauto|reflexivity].
  - inversion Hnd as [|? ? Hk1 Hd]; subst.
    destruct (k1 =? k)%string eqn:E; simpl in Hin.
    + apply String.eqb_eq in E. subst k1. right.
      destruct Hin as [H|H].
      * injection H as <-. exists v1. split; [now left|reflexivity].
      * exfalso. apply Hk1. change k with (fst (k, v')). now apply in_map.
    + apply String.eqb_neq in E.
      destruct Hin as [H|H]; [injection H as H _; congruence|].
      destruct (IH Hd H) as [[Hno Hv]|(v0 & Hv0 & Hv)].
      * left. split; [|exact Hv]. intros [Hk|Hk]; [congruence|contradiction].
      * right. exists v0. split; [now right|exact Hv].
Qed.

Lemma category_amounts_cons (k : string) (t : Transaction.t)
    (ts : list Transaction.t) :
  category_amounts k (t :: ts)
  = if category_expense k t then Transaction.amount t :: category_amounts k ts
    else category_amounts k ts.
Proof.
  unfold category_amounts. simpl. now destruct (category_expense k t).
Qed.

Lemma breakdown_entries (ts : list Transaction.t) (acc : list (string * Q))
    (k : string) (v : Q) :
  NoDup (map fst acc) ->
  In (k, v)
     (fold_left
        (fun d t =>
           if is_expense t
           then dict_add (Transaction.category t) (Transaction.amount t) d
           else d) ts acc) ->
  (exists v0, In (k, v0) acc /\ v = fold_left Qplus (category_amounts k ts) v0)
  \/ (~ In k (map fst acc)
      /\ category_amounts k ts <> []
      /\ v = fold_left Qplus (category_amounts k ts) 0%Q).
Proof.
  revert acc. induction ts as [|t ts IH]; intros acc Hnd Hin; simpl in Hin.
  - left. exists v. split; [exact Hin|reflexivity].
  - rewrite category_amounts_cons.
    destruct (is_expense t) eqn:Et.
    + pose proof (dict_add_NoDup (Transaction.category t) (Transaction.amount t)
                    acc Hnd) as Hnd'.
      destruct (String.eqb_spec (Transaction.category t) k) as [Hk|Hk].
      * subst k.
        assert (Ek : category_expense (Transaction.category t) t = true).
        { unfold category_expense. now rewrite Et, String.eqb_refl. }
        rewrite Ek.
        destruct (IH _ Hnd' Hin) as [(v0 & Hv0 & Hv)|(Hno & _)].
        -- destruct (dict_add_In_same _ _ _ _ Hnd Hv0)
             as [[Hfresh ->]|(v1 & Hv1 & ->)].
           ++ right. split; [exact Hfresh|]. split; [discriminate|exact Hv].
           ++ left. exists v1. split; [exact Hv1|exact Hv].
        -- exfalso. apply Hno, dict_add_key_In.
      * assert (Ek : category_expense k t = false).
        { unfold category_expense. rewrite Et. simpl. now apply String.eqb_neq. }
        rewrite Ek.
        assert (Hk' : k <> Transaction.category t) by congruence.
        destruct (IH _ Hnd' Hin) as [(v0 & Hv0 & Hv)|(Hno & Hne & Hv)].
        -- left. exists v0. split; [|exact Hv].
           apply (dict_add_In_other (Transaction.category t) k
                    (Transaction.amount t) v0 acc Hk'). exact Hv0.
        -- right. split; [|split; assumption].
           intros Hin'. apply Hno. now apply dict_add_keys_mono.
    + assert (Ek : category_expense k t = false).
      { unfold category_expense. now rewrite Et. }
      rewrite Ek.
      destruct (IH _ Hnd Hin) as [H|H]; [left|right]; exact H.
Qed.

Lemma breakdown_keys_mono (ts : list Transaction.t) (acc : list (string * Q))
    (k : string) :
  In k (map fst acc) ->
  In k (map fst
          (fold_left
             (fun d t =>
                if is_expense t
                then dict_add (Transaction.category t) (Transaction.amount t) d
                else d) ts acc)).
Proof.
  revert acc. induction ts as [|t ts IH]; intros acc H; simpl; [exact H|].
  apply IH. destruct (is_expense t); [now apply dict_add_keys_mono|exact H].
Qed.

Lemma breakdown_keys (ts : list Transaction.t) (acc : list (string * Q))
    (k : string) (t : Transaction.t) :
  In t ts -> category_expense k t = true ->
  In k (map fst
          (fold_left
             (fun d t =>
                if is_expense t
                then dict_add (Transaction.category t) (Transaction.amount t) d
                else d) ts acc)).
Proof.
  revert acc. induction ts as [|x ts IH]; intros acc Hin Hk; [contradiction|].
  simpl. destruct Hin as [->|Hin]; [|now apply IH].
  unfold category_expense in Hk. apply andb_true_iff in Hk. destruct Hk as [He Hc].
  apply String.eqb_eq in Hc. rewrite He. apply breakdown_keys_mono.
  rewrite <- Hc. apply dict_add_key_In.
Qed.

(** X13. The category breakdown of the dashboard lists each category of an
    expense of the period once, and no other category; the amount of a
    category is the sum, taken as sum() takes it over the period's
    transactions in the order of the answer, of the amounts of the expenses
    of that category. *)
Theorem category_breakdown_entries (period : string) (u : User.t)
    (now : DateTime.t) (db : list TransactionDoc.t) :
  exists d ts,
    get_dashboard_data period u now db = Ok d
    /\ map TransactionDoc.of_model ts
       = Mongo.sort_desc date_ltb
           (period_transactions u (start_date_of period now) db)
    /\ NoDup (map fst (category_breakdown d))
    /\ (forall k, In k (map fst (category_breakdown d))
                  <-> exists t, In t ts /\ category_expense k t = true)
    /\ (forall k v, In (k, v) (category_breakdown d) ->
                    v = sum_amounts (category_expense k) ts).
Proof.
  destruct (get_dashboard_data_ok period u now db) as (ts & b & Hdocs & _ & Hd).
  eexists. exists ts. split; [exact Hd|]. split; [exact Hdocs|].
  cbn [category_breakdown]. unfold category_breakdown_of.
  assert (Hnil : NoDup (map fst (@nil (string * Q)))) by constructor.
  assert (Hentry : forall k v,
             In (k, v)
                (fold_left
                   (fun d t =>
                      if is_expense t
                      then dict_add (Transaction.category t) (Transaction.amount t) d
                      else d) ts []) ->
             category_amounts k ts <> []
             /\ v = sum_amounts (category_expense k) ts).
  { intros k v Hin.
    destruct (breakdown_entries ts [] k v Hnil Hin) as [(v0 & [] & _)|(_ & Hne & Hv)].
    split; [exact Hne|exact Hv]. }
  split; [|split].
  - apply (proj2 (breakdown_fold ts [])). exact Hnil.
  - intros k. split.
    + intros Hk. apply in_map_iff in Hk. destruct Hk as ([k' v] & Hk' & Hin).
      simpl in Hk'. subst k'.
      destruct (Hentry k v Hin) as [Hne _].
      unfold category_amounts in Hne.
      destruct (filter (category_expense k) ts) as [|t l] eqn:E;
        [now contradiction Hne|].
      assert (Ht : In t (filter (category_expense k) ts)) by (rewrite E; now left).
      apply filter_In in Ht. exists t. exact Ht.
    + intros (t & Ht & Hk). now apply (breakdown_keys ts [] k t).
  - intros k v Hin. exact (proj2 (Hentry k v Hin)).
Qed.

(** The dashboard answers at most ten recent transactions and a trend of
    exactly seven days, from six days ago to today. *)
Lemma dashboard_shape (period : string) (u : User.t) (now : DateTime.t)
    (db : list TransactionDoc.t) :
  exists d,
    get_dashboard_data period u now db = Ok d
    /\ (List.length (recent_transactions d) <= 10)%nat
    /\ map fst (monthly_trend d)
       = map (fun i => DateTime.strftime_ymd (DateTime.minus_days now i))
             [6; 5; 4; 3; 2; 1; 0]%nat.
Proof.
  destruct (get_dashboard_data_ok period u now db) as (ts & b & _ & _ & Hd).
  eexists. split; [exact Hd|]. cbn [recent_transactions monthly_trend].
  split.
  - rewrite length_firstn. apply Nat.le_min_l.
  - reflexivity.
Qed.

Lemma budget_percent_formula (te mb : Q) (b : Q) :
  budget_percent te mb = Ok b ->
  (0 < mb)%Q ->
  ((te <= mb)%Q -> b = (te / mb * 100)%Q)
  /\ ((mb < te)%Q -> b = 100%Q)
  /\ ((0 <= te)%Q -> (0 <= b)%Q).
Proof.
  intros Hb Hmb. unfold budget_percent, Py.gtb in Hb.
  assert (E : Py.ltb 0 mb = true) by now apply ltb_lt.
  rewrite E, div_nonzero in Hb by lra. simpl in Hb.
  injection Hb as <-. unfold Py.min.
  assert (Hscale : (te / mb * 100 <= 100 <-> te <= mb)%Q).
  { split; intros H.
    - apply (Qmult_le_r _ _ (100 / mb)%Q).
      + apply Qlt_shift_div_l; lra.
      + setoid_replace (te * (100 / mb))%Q with (te / mb * 100)%Q by (field; lra).
        setoid_replace (mb * (100 / mb))%Q with 100%Q by (field; lra).
        exact H.
    - apply (Qmult_le_r _ _ (100 / mb)%Q) in H.
      + setoid_replace (te * (100 / mb))%Q with (te / mb * 100)%Q in H by (field; lra).
        setoid_replace (mb * (100 / mb))%Q with 100%Q in H by (field; lra).
        exact H.
      + apply Qlt_shift_div_l; lra. }
  destruct (Py.ltb 100 (te / mb * 100)) eqn:El;
    [apply ltb_lt in El|apply ltb_ge in El].
  - split; [|split]; intros H.
    + exfalso. apply Hscale in H. lra.
    + reflexivity.
    + lra.
  - split; [|split]; intros H.
    + reflexivity.
    + exfalso. apply Hscale in El. lra.
    + apply Qmult_le_0_compat; [|lra].
      apply Qle_shift_div_l; lra.
Qed.

(** X14. With a positive monthly budget, budget_used_percent is the share
    of the budget the expenses take, in percent, as long as they stay within
    the budget, and exactly 100 once they exceed it. *)
Theorem budget_used_percent_formula (period : string) (u : User.t)
    (now : DateTime.t) (db : list TransactionDoc.t) :
  (0 < User.monthly_budget u)%Q ->
  exists d,
    get_dashboard_data period u now db = Ok d
    /\ ((total_expenses d <= User.monthly_budget u)%Q ->
        budget_used_percent d
        = (total_expenses d / User.monthly_budget u * 100)%Q)
    /\ ((User.monthly_budget u < total_expenses d)%Q ->
        budget_used_percent d = 100%Q).
Proof.
  intros Hmb.
  destruct (get_dashboard_data_ok period u now db) as (ts & b & _ & Hb & Hd).
  eexists. split; [exact Hd|]. cbn [total_expenses budget_used_percent].
  destruct (budget_percent_formula _ _ _ Hb Hmb) as (H1 & H2 & _).
  split; assumption.
Qed.

(** X15. A user without transactions in the period gets a dashboard of
    zeros: no income, no expenses, balance and budget use 0, no recent
    transaction, no category, and a trend of seven days without expense. *)
Theorem dashboard_empty (period : string) (u : User.t) (now : DateTime.t)
    (db : list TransactionDoc.t) :
  period_transactions u (start_date_of period now) db = [] ->
  exists d,
    get_dashboard_data period u now db = Ok d
    /\ total_income d = 0%Q
    /\ total_expenses d = 0%Q
    /\ (balance d == 0)%Q
    /\ (budget_used_percent d == 0)%Q
    /\ recent_transactions d = []
    /\ category_breakdown d = []
    /\ map snd (monthly_trend d) = repeat 0%Q 7.
Proof.
  intros Hnone.
  destruct (get_dashboard_data_ok period u now db) as (ts & b & Hdocs & Hb & Hd).
  rewrite Hnone in Hdocs. simpl in Hdocs.
  apply map_eq_nil in Hdocs. subst ts.
  eexists. split; [exact Hd|].
  cbn [total_income total_expenses balance budget_used_percent
       recent_transactions category_breakdown monthly_trend].
  repeat split; try reflexivity.
  unfold budget_percent, Py.gtb in Hb.
  destruct (Py.ltb 0 (User.monthly_budget u)) eqn:E.
  - apply ltb_lt in E. rewrite div_nonzero in Hb by lra. simpl in Hb.
    injection Hb as <-. unfold Py.min.
    change (sum_amounts is_expense []) with 0%Q.
    destruct (Py.ltb 100 _) eqn:El.
    + apply ltb_lt in El. exfalso. revert El.
      setoid_replace (0 / User.monthly_budget u * 100)%Q with 0%Q by (field; lra).
      lra.
    + field. lra.
  - injection Hb as <-. reflexivity.
Qed.

(** ** One user's reads and another user's writes *)

Lemma list_query_owned (u : User.t) (c ty : option string) (d : TransactionDoc.t) :
  list_query u c ty d = true -> owned_by u d = true.
Proof.
  unfold list_query, owned_by. rewrite !andb_true_iff. tauto.
Qed.

Lemma period_query_owned (u : User.t) (start : DateTime.t) (d : TransactionDoc.t) :
  period_query u start d = true -> owned_by u d = true.
Proof.
  unfold period_query, owned_by. rewrite !andb_true_iff. tauto.
Qed.

Lemma reads_of_own (u : User.t) (db db' : list TransactionDoc.t) :
  filter (owned_by u) db' = filter (owned_by u) db ->
  (forall limit offset c ty,
      get_transactions limit offset c ty u db'
      = get_transactions limit offset c ty u db)
  /\ (forall period now,
         get_dashboard_data period u now db' = get_dashboard_data period u now db)
  /\ (forall now, get_insights u now db' = get_insights u now db).
Proof.
  intros H.
  assert (Hfind : forall q : TransactionDoc.t -> bool,
             (forall d, q d = true -> owned_by u d = true) ->
             Mongo.find q db' = Mongo.find q db).
  { intros q Hq. unfold Mongo.find.
    rewrite <- (filter_filter_implied (owned_by u) q db' Hq).
    rewrite <- (filter_filter_implied (owned_by u) q db Hq).
    now rewrite H. }
  split; [|split].
  - intros. unfold get_transactions.
    now rewrite (Hfind _ (list_query_owned u c ty)).
  - intros. unfold get_dashboard_data.
    now rewrite (Hfind _ (period_query_owned u _)).
  - intros. unfold get_insights.
    now rewrite (Hfind _ (period_query_owned u _)).
Qed.

Lemma update_one_filter_other {D : Type} (p q : D -> bool) (set : D -> D)
    (c : list D) :
  (forall d, q d = true -> p d = false) ->
  (forall d, p (set d) = p d) ->
  filter p (snd (Mongo.update_one q set c)) = filter p c.
Proof.
  intros Hq Hset. induction c as [|d c IH]; simpl; [reflexivity|].
  destruct (q d) eqn:E; simpl.
  - now rewrite Hset, (Hq d E).
  - destruct (Mongo.update_one q set c) as [n c']. simpl in *. now rewrite IH.
Qed.

Lemma owner_query_not_owned (tid : string) (u v : User.t) (d : TransactionDoc.t) :
  User.id v <> User.id u ->
  owner_query tid v d = true -> owned_by u d = false.
Proof.
  unfold owner_query, owned_by. rewrite andb_true_iff, !String.eqb_eq.
  intros Hne [_ Hv]. apply String.eqb_neq. congruence.
Qed.

Lemma writes_keep_others (u v : User.t) (tid uuid : string)
    (body : TransactionCreate.t) (now created : DateTime.t)
    (db : list TransactionDoc.t) :
  User.id v <> User.id u ->
  filter (owned_by u) (snd (post_transactions body v uuid now created db))
  = filter (owned_by u) db
  /\ filter (owned_by u) (snd (put_transaction tid body v db))
     = filter (owned_by u) db
  /\ filter (owned_by u) (snd (delete_transaction tid v db))
     = filter (owned_by u) db.
Proof.
  intros Hne. split; [|split].
  - unfold post_transactions.
    destruct (TransactionCreate.errors body); [|reflexivity].
    simpl. unfold Mongo.insert_one. rewrite filter_app. simpl.
    unfold owned_by at 2. simpl.
    apply String.eqb_neq in Hne. rewrite Hne. apply app_nil_r.
  - unfold put_transaction.
    destruct (TransactionCreate.errors body); [|reflexivity].
    unfold update_transaction.
    pose proof (update_one_filter_other (owned_by u) (owner_query tid v)
                  (TransactionDoc.set_fields body) db
                  (fun d => owner_query_not_owned tid u v d Hne)
                  (fun d => eq_refl)) as K.
    destruct (Mongo.update_one _ _ db) as [n c']. simpl in K.
    destruct (n =? 0); [exact K|].
    destruct (Mongo.find_one _ c'); exact K.
  - unfold delete_transaction.
    pose proof (update_one_filter_other (owned_by u) (owner_query tid v)
                  TransactionDoc.set_deleted db
                  (fun d => owner_query_not_owned tid u v d Hne)
                  (fun d => eq_refl)) as K.
    destruct (Mongo.update_one _ _ db) as [n c']. simpl in K.
    destruct (n =? 0); exact K.
Qed.

(** X16. A user reads only their own documents: the list, the dashboard
    and the insights of a user answer as they do on the store reduced to
    that user's documents. *)
Theorem reads_only_own (u : User.t) (limit offset : Z) (c ty : option string)
    (period : string) (now : DateTime.t) (db : list TransactionDoc.t) :
  get_transactions limit offset c ty u db
  = get_transactions limit offset c ty u (filter (owned_by u) db)
  /\ get_dashboard_data period u now db
     = get_dashboard_data period u now (filter (owned_by u) db)
  /\ get_insights u now db = get_insights u now (filter (owned_by u) db).
Proof.
  destruct (reads_of_own u db (filter (owned_by u) db)) as (H1 & H2 & H3).
  { apply filter_filter_implied. trivial. }
  split; [symmetry; apply H1|]. split; [symmetry; apply H2|symmetry; apply H3].
Qed.

(** X17. What another user creates, updates or deletes changes nothing in
    what a user reads: after any such request by user v, the list, the
    dashboard and the insights of a different user u answer as before. *)
Theorem writes_of_others_invisible (u v : User.t) (tid uuid : string)
    (body : TransactionCreate.t) (now created : DateTime.t)
    (limit offset : Z) (c ty : option string) (period : string)
    (db : list TransactionDoc.t) :
  User.id v <> User.id u ->
  forall db',
    db' = snd (post_transactions body v uuid now created db)
    \/ db' = snd (put_transaction tid body v db)
    \/ db' = snd (delete_transaction tid v db) ->
    get_transactions limit offset c ty u db' = get_transactions limit offset c ty u db
    /\ get_dashboard_data period u now db' = get_dashboard_data period u now db
    /\ get_insights u now db' = get_insights u now db.
Proof.
  intros Hne db' Hdb'.
  destruct (writes_keep_others u v tid uuid body now created db Hne)
    as (Hpost & Hput & Hdel).
  assert (Hsame : filter (owned_by u) db' = filter (owned_by u) db).
  { destruct Hdb' as [->|[->| ->]]; assumption. }
  destruct (reads_of_own u db db' Hsame) as (H1 & H2 & H3).
  split; [apply H1|]. split; [apply H2|apply H3].
Qed.

(** ** Documents without date *)

Lemma mapM_to_model_undated (l : list TransactionDoc.t) (d : TransactionDoc.t) :
  In d l -> TransactionDoc.date d = None ->
  mapM TransactionDoc.to_model l
  = Unhandled (ValidationError "date" "none is not an allowed value").
Proof.
  intros Hin Hd. induction l as [|x l IH]; [contradiction|].
  simpl. unfold TransactionDoc.to_model at 1.
  destruct (TransactionDoc.date x) as [dt|] eqn:E; [|reflexivity].
  destruct Hin as [->|Hin]; [congruence|].
  cbn [bind]. now rewrite IH.
Qed.

(** X18. A document whose date is null, as an update without date leaves
    it, makes the owner's unpaged list fail with status 500 as long as it is
    not deleted, while the dashboard and the insights pass over it. *)
Theorem undated_document (u : User.t) (db : list TransactionDoc.t)
    (d : TransactionDoc.t) (period : string) (now : DateTime.t) :
  In d db ->
  TransactionDoc.user_id d = User.id u ->
  TransactionDoc.deleted d = false ->
  TransactionDoc.date d = None ->
  get_transactions 0 0 None None u db
  = Unhandled (ValidationError "date" "none is not an allowed value")
  /\ ~ In d (period_transactions u (start_date_of period now) db)
  /\ ~ In d (insights_window u now db).
Proof.
  intros Hin Hu Hl Hd. split; [|split].
  - unfold get_transactions, Mongo.skip. cbn [Z.ltb Z.compare bind].
    apply mapM_to_model_undated with (d := d); [|exact Hd].
    unfold Mongo.limit. simpl.
    eapply Permutation_in; [symmetry; apply sort_desc_Permutation|].
    apply filter_In. split; [exact Hin|].
    unfold list_query. rewrite Hu, Hl, String.eqb_refl. reflexivity.
  - intros H. apply filter_In in H. destruct H as [_ H].
    apply period_query_dated in H. now apply H.
  - intros H. apply filter_In in H. destruct H as [_ H].
    apply period_query_dated in H. now apply H.
Qed.

(** ** The tips of the insights *)

Lemma small_expenses_tip_length (expenses : list Transaction.t) :
  (List.length (small_expenses_tip expenses) <= 1)%nat.
Proof.
  unfold small_expenses_tip. destruct (_ <? _)%nat; simpl; lia.
Qed.

Lemma budget_tip_length (te mb : Q) : List.length (budget_tip te mb) = 1%nat.
Proof.
  unfold budget_tip. destruct (Py.gtb te mb); reflexivity.
Qed.

Lemma firstn_short {A : Type} (n : nat) (l : list A) :
  (List.length l <= n)%nat -> firstn n l = l.
Proof.
  intros H. apply firstn_all2. exact H.
Qed.

(** X19. Outside December, a user with an expense in the last thirty days
    gets one to three tips, none of which the limit of three cuts off, the
    last one being the comparison with the budget; and the projection is the
    expenses of the thirty days divided by the day of the month and
    multiplied by the days of the month. *)
Theorem insights_month_end (u : User.t) (now : DateTime.t)
    (db : list TransactionDoc.t) (d : TransactionDoc.t) :
  positive_amounts db ->
  1 <= DateTime.month now <= 11 -> 1 <= DateTime.day now ->
  In d (insights_window u now db) -> TransactionDoc.type d = "expense" ->
  let total := doc_sum "expense" (insights_window u now db) in
  exists first_tips message,
    (List.length first_tips <= 2)%nat
    /\ get_insights u now db
       = Ok (mkInsights
               (first_tips ++ budget_tip total (User.monthly_budget u))
               (MonthEnd
                  (total / inject_Z (DateTime.day now)
                   * inject_Z (DateTime.days_in_month (DateTime.year now)
                                 (DateTime.month now)))
                  (User.monthly_budget u
                   - total / inject_Z (DateTime.day now)
                     * inject_Z (DateTime.days_in_month (DateTime.year now)
                                   (DateTime.month now)))
                  message)).
Proof.
  intros Hpos Hm Hday Hin Hty total.
  destruct (insights_models u now db) as (ts & Hts & Hdocs).
  pose proof (window_expense_model u now db ts d Hdocs Hin Hty) as Hne.
  pose proof (expenses_positive u now db ts Hpos Hdocs) as Hamt.
  assert (Htotal : Py.sum (map Transaction.amount (filter is_expense ts)) = total).
  { unfold total, doc_sum. rewrite <- Hdocs. unfold is_expense.
    now rewrite amounts_of_models. }
  unfold get_insights. rewrite Hts. cbn [bind].
  destruct (filter is_expense ts) as [|e es] eqn:E; [now contradiction Hne|].
  assert (Hnz : ~ (Py.sum (map Transaction.amount (e :: es)) == 0)%Q).
  { pose proof (sum_pos _ _ Hamt) as Hp. apply Qlt_not_eq in Hp.
    intros Hz. apply Hp. symmetry. exact Hz. }
  destruct (top_category_tip_ok _ (category_totals_of (e :: es)) Hnz)
    as (tip1 & Htip1 & Hlen1).
  rewrite Htip1. cbn [bind].
  rewrite days_in_current_month_ok by exact Hm. cbn [bind].
  replace (0 <? DateTime.day now) with true by (symmetry; apply Z.ltb_lt; lia).
  rewrite div_nonzero.
  2:{ unfold Qeq. simpl. lia. }
  cbn [bind]. rewrite Htotal.
  pose proof (small_expenses_tip_length (e :: es)) as Hlen2.
  pose proof (budget_tip_length total (User.monthly_budget u)) as Hlen3.
  exists (tip1 ++ small_expenses_tip (e :: es)). eexists.
  split; [rewrite length_app; lia|].
  rewrite firstn_short by (rewrite !length_app; lia).
  now rewrite <- app_assoc.
Qed.

(** ** Sessions *)

Lemma find_one_app_new {D : Type} (q : D -> bool) (l : list D) (d : D) :
  (forall x, In x l -> q x = false) -> q d = true ->
  Mongo.find_one q (l ++ [d]) = Some d.
Proof.
  intros H Hd. now apply find_one_first_match.
Qed.

Section SessionFacts.
Variable get_password_hash : string -> string.
Variable verify_password : string -> string -> option bool.
Variable create_access_token : string -> string.
Variable jwt_decode : string -> option (option string).


(** X21. After a registration with a fresh email, a login with the same
    email and password succeeds, provided the hash verifies the password it
    was made from: it answers the registered user, with a bearer token the
    login issues for that user's id. *)
Theorem register_then_login (issue_at_login : string -> string)
    (user_data : UserCreate.t) (uuid : string) (now : DateTime.t)
    (users : list UserDoc.t) :
  verify_password (UserCreate.password user_data)
    (get_password_hash (UserCreate.password user_data)) = Some true ->
  (forall d, In d users -> UserDoc.email d <> UserCreate.email user_data) ->
  exists token users',
    register get_password_hash create_access_token user_data uuid now users
    = (Ok token, users')
    /\ User.id (token_user token) = uuid
    /\ login verify_password issue_at_login
         (UserLogin.make (UserCreate.email user_data) (UserCreate.password user_data))
         users'
       = Ok (mkTokenResponse (issue_at_login uuid) "bearer" (token_user token)).
Proof.
  intros Hverify Hfresh. unfold register.
  rewrite find_one_email_none by exact Hfresh.
  eexists; eexists. split; [reflexivity|]. split; [reflexivity|].
  unfold login, Mongo.insert_one. cbn [UserLogin.email UserLogin.password].
  rewrite find_one_app_new.
  - cbn [UserDoc.password_hash]. rewrite Hverify. reflexivity.
  - intros x Hx. apply String.eqb_neq. now apply Hfresh.
  - apply String.eqb_refl.
Qed.

(** X22. On a user store as register writes it: get_current_user answers
    401 when the token does not decode, when it has no subject, and when its
    subject is the id of no stored user; and a user it answers is a stored
    user whose id is the subject of the token. *)
Theorem get_current_user_sound (credentials : string) (users : list UserDoc.t) :
  ((jwt_decode credentials = None
    \/ jwt_decode credentials = Some None
    \/ exists user_id,
         jwt_decode credentials = Some (Some user_id)
         /\ forall d, In d users -> User.id (UserDoc.user d) <> user_id) ->
   get_current_user jwt_decode credentials users
   = HTTPException 401 "Could not validate credentials")
  /\ (forall u,
        get_current_user jwt_decode credentials users = Ok u ->
        exists d,
          In d users /\ UserDoc.user d = u
          /\ jwt_decode credentials = Some (Some (User.id u))).
Proof.
  unfold get_current_user, credentials_exception. split.
  - intros [->|[->|(user_id & -> & Hno)]]; try reflexivity.
    destruct (Mongo.find_one _ users) as [d|] eqn:F; [|reflexivity].
    apply find_some in F. destruct F as [Hin He].
    apply String.eqb_eq in He. now apply Hno in Hin.
  - intros u H.
    destruct (jwt_decode credentials) as [[user_id|]|]; try discriminate.
    destruct (Mongo.find_one _ users) as [d|] eqn:F; [|discriminate].
    injection H as <-. apply find_some in F. destruct F as [Hin He].
    apply String.eqb_eq in He. subst user_id. exists d. auto.
Qed.

(** X23. The token a registration answers opens a session for the user it
    registered: when the token decodes to its subject and the new id is not
    the id of a stored user, get_current_user on the new store answers that
    user, and so does GET /user/me. *)
Theorem register_then_authenticate (user_data : UserCreate.t) (uuid : string)
    (now : DateTime.t) (users : list UserDoc.t) :
  jwt_decode (create_access_token uuid) = Some (Some uuid) ->
  (forall d, In d users -> UserDoc.email d <> UserCreate.email user_data) ->
  (forall d, In d users -> User.id (UserDoc.user d) <> uuid) ->
  exists token users',
    register get_password_hash create_access_token user_data uuid now users
    = (Ok token, users')
    /\ User.id (token_user token) = uuid
    /\ get_current_user jwt_decode (access_token token) users'
       = Ok (token_user token)
    /\ get_current_user_info jwt_decode (access_token token) users'
       = Ok (token_user token).
Proof.
  intros Hdecode Hfresh Hid. unfold register.
  rewrite find_one_email_none by exact Hfresh.
  eexists; eexists. split; [reflexivity|]. split; [reflexivity|].
  assert (H : get_current_user jwt_decode
                (create_access_token uuid)
                (Mongo.insert_one
                   (UserDoc.make
                      (User.make uuid (UserCreate.name user_data)
                         (UserCreate.email user_data) "₹" 10000%Q now)
                      (get_password_hash (UserCreate.password user_data))) users)
              = Ok (User.make uuid (UserCreate.name user_data)
                      (UserCreate.email user_data) "₹" 10000%Q now)).
  { unfold get_current_user, Mongo.insert_one. rewrite Hdecode.
    rewrite find_one_app_new; [reflexivity| |apply String.eqb_refl].
    intros x Hx. apply String.eqb_neq. now apply Hid. }
  split; [exact H|].
  unfold get_current_user_info. cbn [access_token token_user User.id].
  now rewrite H.
Qed.

(** X24. Registration keeps emails unique and stores the defaults: no two
    stored users share an email after a registration if none did before,
    and a registered user starts with currency ₹ and a monthly budget of
    10000. *)
Theorem register_keeps_unique_emails (user_data : UserCreate.t) (uuid : string)
    (now : DateTime.t) (users : list UserDoc.t) :
  unique_emails users ->
  unique_emails
    (snd (register get_password_hash create_access_token user_data uuid now users))
  /\ forall token,
       fst (register get_password_hash create_access_token user_data uuid now users)
       = Ok token ->
       User.currency (token_user token) = "₹"
       /\ User.monthly_budget (token_user token) = 10000%Q
       /\ User.email (token_user token) = UserCreate.email user_data.
Proof.
  intros Hnd. unfold register.
  destruct (Mongo.find_one _ users) as [d|] eqn:E; simpl.
  - split; [exact Hnd|]. discriminate.
  - split.
    + unfold unique_emails, Mongo.insert_one in *. rewrite map_app. simpl.
      apply NoDup_rev in Hnd.
      rewrite <- (rev_involutive (map UserDoc.email users ++ _)).
      apply NoDup_rev. rewrite rev_app_distr. simpl.
      constructor; [|exact Hnd]. rewrite <- in_rev.
      intros Hin. apply in_map_iff in Hin. destruct Hin as (x & Hx & Hxin).
      eapply find_none in E; [|exact Hxin]. simpl in E.
      apply String.eqb_neq in E. contradiction.
    + intros token H. injection H as <-. auto.
Qed.

End SessionFacts.

(** ** Budgets *)

(** X25. Budgets are scoped to their owner: a created budget is stored
    with the requesting user's id and comes last in that user's list, the
    list of a user holds that user's budgets only, and the list of any other
    user is unchanged by the creation. *)
Theorem budgets_scoped (budget_data : BudgetCreate.t) (u v : User.t)
    (uuid : string) (now : DateTime.t) (budgets : list Budget.t) :
  User.id v <> User.id u ->
  exists b own,
    create_budget budget_data u uuid now budgets = (Ok b, budgets ++ [b])
    /\ Budget.user_id b = User.id u
    /\ get_budgets u budgets = Ok own
    /\ Forall (fun x => In x budgets /\ Budget.user_id x = User.id u) own
    /\ get_budgets u (budgets ++ [b]) = Ok (own ++ [b])
    /\ get_budgets v (budgets ++ [b]) = get_budgets v budgets.
Proof.
  intros Hne. eexists; eexists.
  split; [reflexivity|]. split; [reflexivity|]. split; [reflexivity|].
  split; [|split].
  - apply Forall_forall. intros x Hx. unfold Mongo.find in Hx.
    apply filter_In in Hx. destruct Hx as [Hin Hq].
    split; [exact Hin|]. now apply String.eqb_eq.
  - unfold get_budgets, Mongo.find. rewrite filter_app. simpl.
    now rewrite String.eqb_refl.
  - unfold get_budgets, Mongo.find. rewrite filter_app. simpl.
    apply not_eq_sym in Hne. apply String.eqb_neq in Hne. rewrite Hne.
    now rewrite app_nil_r.
Qed.

(** ** Documents on their way to the store and back *)

Lemma replace_Z_id (s : string) : no_Z s = true -> replace_Z s = s.
Proof.
  induction s as [|c s IH]; simpl; [reflexivity|].
  destruct (c =? "Z")%char; simpl; [discriminate|].
  intros H. now rewrite IH.
Qed.

Lemma no_Z_app (a b : string) : no_Z (a ++ b) = no_Z a && no_Z b.
Proof.
  induction a as [|c a IH]; simpl; [reflexivity|].
  rewrite IH. now rewrite andb_assoc.
Qed.

Lemma digit_not_Z (n : Z) : (DateTime.digit n =? "Z")%char = false.
Proof.
  apply Ascii.eqb_neq. intros H.
  apply (f_equal N_of_ascii) in H. rewrite digit_code in H.
  assert (Hn : 0 <= n mod 10 < 10) by (apply Z.mod_pos_bound; lia).
  change (N_of_ascii "Z") with 90%N in H. lia.
Qed.

Lemma no_Z_pad2 (n : Z) : no_Z (DateTime.pad2 n) = true.
Proof.
  unfold DateTime.pad2. cbn [no_Z]. now rewrite !digit_not_Z.
Qed.

Lemma no_Z_isoformat (d : DateTime.t) : no_Z (DateTime.isoformat d) = true.
Proof.
  rewrite isoformat_fields. unfold iso_tail, DateTime.pad6, DateTime.pad4.
  destruct (DateTime.microsecond d =? 0);
    repeat (rewrite no_Z_app || rewrite no_Z_pad2); reflexivity.
Qed.

(** X26. prepare_for_mongo leaves no datetime in a dict: the keys and
    their order are kept, every datetime value is replaced by its ISO
    string, and every other value is kept. *)
Theorem prepare_for_mongo_spec (data : dict) :
  map fst (prepare_for_mongo data) = map fst data
  /\ Forall2 (fun before after =>
                match snd before with
                | VDatetime d => snd after = VStr (DateTime.isoformat d)
                | other => snd after = other
                end) data (prepare_for_mongo data)
  /\ Forall (fun kv => forall d, snd kv <> VDatetime d) (prepare_for_mongo data).
Proof.
  unfold prepare_for_mongo. induction data as [|[k v] data (IH1 & IH2 & IH3)]; simpl.
  - repeat constructor.
  - split; [|split].
    + destruct v; simpl; now rewrite IH1.
    + constructor; [destruct v; reflexivity|exact IH2].
    + constructor; [destruct v; simpl; discriminate|exact IH3].
Qed.

Section ParseFacts.
Variable fromisoformat : string -> option DateTime.t.

(** X27. A transaction survives the way to the store and back: when
    fromisoformat reads the ISO strings of its date and creation time back,
    parse_from_mongo applied to prepare_for_mongo of its dict gives the dict
    again. *)
Theorem mongo_round_trip (t : Transaction.t) :
  fromisoformat (DateTime.isoformat (Transaction.date t)) = Some (Transaction.date t) ->
  fromisoformat (DateTime.isoformat (Transaction.created_at t))
  = Some (Transaction.created_at t) ->
  parse_from_mongo fromisoformat (prepare_for_mongo (Transaction_dict t))
  = Transaction_dict t.
Proof.
  intros Hdate Hcreated.
  pose proof (replace_Z_id _ (no_Z_isoformat (Transaction.date t))) as Hd.
  pose proof (replace_Z_id _ (no_Z_isoformat (Transaction.created_at t))) as Hc.
  unfold Transaction_dict, prepare_for_mongo. cbn [map fst snd].
  remember (DateTime.isoformat (Transaction.date t)) as iso_date.
  remember (DateTime.isoformat (Transaction.created_at t)) as iso_created.
  unfold parse_from_mongo. simpl.
  now rewrite Hd, Hc, Hdate, Hcreated.
Qed.

(** X28. parse_from_mongo touches the strings under date and created_at
    only, and only those fromisoformat reads: the keys are kept, a value
    under another key is kept, and a string that does not parse stays as it
    is. *)
Theorem parse_from_mongo_keeps (item : dict) :
  map fst (parse_from_mongo fromisoformat item) = map fst item
  /\ Forall2 (fun before after =>
                (fst before <> "date" -> fst before <> "created_at" ->
                 after = before)
                /\ (forall s, snd before = VStr s ->
                              fromisoformat (replace_Z s) = None ->
                              after = before)
                /\ ((forall s, snd before <> VStr s) -> after = before))
       item (parse_from_mongo fromisoformat item).
Proof.
  unfold parse_from_mongo. induction item as [|[k v] item [IH1 IH2]]; simpl.
  - split; constructor.
  - split.
    + rewrite IH1.
      destruct ((k =? "date") || (k =? "created_at"))%string; [|reflexivity].
      destruct v; try reflexivity.
      destruct (fromisoformat (replace_Z s)); reflexivity.
    + constructor; [|exact IH2]. simpl.
      destruct (k =? "date")%string eqn:E1; simpl.
      * apply String.eqb_eq in E1. subst k.
        split; [intros H; now contradiction H|].
        split.
        -- intros s -> Hnone. now rewrite Hnone.
        -- intros Hns. destruct v; try reflexivity. now contradiction (Hns s).
      * destruct (k =? "created_at")%string eqn:E2; simpl.
        -- apply String.eqb_eq in E2. subst k.
           split; [intros _ H; now contradiction H|].
           split.
           ++ intros s -> Hnone. now rewrite Hnone.
           ++ intros Hns. destruct v; try reflexivity. now contradiction (Hns s).
        -- repeat split.
Qed.

End ParseFacts.

(** ** Invariants of the store under requests *)

(** X29. As long as the amounts sent are numbers (NaN, which no comparison
    refuses, is not among the amounts followed here), stored amounts stay
    positive: if every stored amount is positive, it is so after any create,
    update or delete request, since a body with an amount that is zero or
    negative is refused before it is written. *)
Theorem stored_amounts_positive (tid uuid : string) (body : TransactionCreate.t)
    (u : User.t) (now created : DateTime.t) (db : list TransactionDoc.t) :
  positive_amounts db ->
  positive_amounts (snd (post_transactions body u uuid now created db))
  /\ positive_amounts (snd (put_transaction tid body u db))
  /\ positive_amounts (snd (delete_transaction tid u db)).
Proof.
  intros H. split; [|split].
  - now apply post_transactions_positive.
  - now apply put_transaction_positive.
  - now apply delete_transaction_positive.
Qed.

(** X30. Stored identifiers stay unique: a creation with an identifier no
    stored document has, an update and a delete keep the identifiers of the
    store pairwise different. *)
Theorem stored_ids_unique (tid uuid : string) (body : TransactionCreate.t)
    (u : User.t) (now created : DateTime.t) (db : list TransactionDoc.t) :
  unique_ids db ->
  (~ In uuid (map TransactionDoc.id db) ->
   unique_ids (snd (post_transactions body u uuid now created db)))
  /\ unique_ids (snd (put_transaction tid body u db))
  /\ unique_ids (snd (delete_transaction tid u db)).
Proof.
  intros H. split; [|split].
  - intros Hfresh. unfold post_transactions.
    destruct (TransactionCreate.errors body); [|exact H].
    now apply create_transaction_unique.
  - unfold unique_ids. now rewrite put_transaction_keeps by reflexivity.
  - now apply delete_transaction_unique.
Qed.

(** X5. The ISO strings of two datetimes compare, byte by byte, as the
    datetimes do in time: the comparison of dates the store makes on strings
    is the comparison of the dates. *)
Theorem isoformat_order (a b : DateTime.t) :
  datetime_valid a -> datetime_valid b ->
  String.compare (DateTime.isoformat a) (DateTime.isoformat b)
  = datetime_compare a b
  /\ (String.leb (DateTime.isoformat a) (DateTime.isoformat b) = true
      <-> datetime_compare a b <> Gt).
Proof.
  intros Ha Hb. split; [now apply isoformat_compare|].
  unfold String.leb. rewrite isoformat_compare by assumption.
  destruct (datetime_compare a b); split; congruence.
Qed.

(** ** The further properties on the sample store *)

Lemma sample_store_dated : Forall dated Sample.store.
Proof.
  repeat constructor; unfold dated; simpl; discriminate.
Qed.

Lemma sample_day_valid (d : Z) :
  1 <= d <= 30 -> datetime_valid (Sample.at_day 2026 12 d).
Proof.
  intros H. unfold datetime_valid, Sample.at_day. simpl.
  change (DateTime.days_in_month 2026 12) with 31. lia.
Qed.

Lemma sample_now_valid : datetime_valid Sample.mid_december.
Proof.
  unfold datetime_valid, Sample.mid_december. simpl.
  change (DateTime.days_in_month 2026 12) with 31. lia.
Qed.

Lemma sample_store_utc_dates : utc_dates Sample.store.
Proof.
  unfold utc_dates. apply Forall_forall. intros d Hd dt H.
  destruct Hd as [<-|[<-|[<-|[<-|[]]]]];
    injection H as <-; apply sample_day_valid; lia.
Qed.

Lemma sample_store_positive : positive_amounts Sample.store.
Proof.
  unfold positive_amounts. repeat constructor.
Qed.

Lemma sample_users_differ : User.id Sample.bob <> User.id Sample.ann.
Proof.
  simpl. discriminate.
Qed.

Lemma sample_list_all :
  get_transactions 0 0 None None Sample.ann Sample.store
  = Ok [Fixture.salary_model; Fixture.lunch_model].
Proof.
  vm_compute. reflexivity.
Qed.

Lemma sample_list_salary :
  get_transactions 1 0 (Some "Salary") (Some "") Sample.ann Sample.store
  = Ok [Fixture.salary_model].
Proof.
  vm_compute. reflexivity.
Qed.

Lemma sample_november_window :
  In Sample.lunch (insights_window Sample.ann Fixture.mid_november Sample.store).
Proof.
  vm_compute. auto.
Qed.

Lemma sample_empty_period :
  period_transactions Sample.ann (start_date_of "weekly" Sample.mid_december)
    [Sample.rent] = [].
Proof.
  vm_compute. reflexivity.
Qed.

Lemma sample_read_back :
  Iso.read (DateTime.isoformat (Sample.at_day 2026 12 10))
  = Some (Sample.at_day 2026 12 10).
Proof.
  vm_compute. reflexivity.
Qed.

Lemma int64_count_small (n : Z) : 0 <= n <= 1000 -> int64_count n.
Proof.
  intros H. unfold int64_count. change (2 ^ 63) with 9223372036854775808. lia.
Qed.

Lemma sample_busy_page :
  get_transactions 1 1 None None Sample.ann Fixture.busy_store
  = Ok [Fixture.salary_model].
Proof.
  vm_compute. reflexivity.
Qed.

Lemma get_transactions_offset_witness :
  -1 < 0
  /\ get_transactions 10 (-1) None None Sample.ann Sample.store
     = Unhandled (ValueError "skip must be >= 0")
  /\ int64_count 0
  /\ int64_count 10
  /\ Forall dated Sample.store
  /\ exists ts, get_transactions 10 0 None None Sample.ann Sample.store = Ok ts.
Proof.
  assert (H1 : -1 < 0) by lia.
  assert (H2 : int64_count 0) by (apply int64_count_small; lia).
  assert (H3 : int64_count 10) by (apply int64_count_small; lia).
  split; [exact H1|]. split.
  { exact (proj1 (get_transactions_offset 10 (-1) None None Sample.ann Sample.store) H1). }
  split; [exact H2|]. split; [exact H3|]. split; [exact sample_store_dated|].
  exact (proj2 (get_transactions_offset 10 0 None None Sample.ann Sample.store)
           H2 H3 sample_store_dated).
Defined.

Lemma get_transactions_page_witness :
  int64_count 1
  /\ get_transactions 1 1 None None Sample.ann Fixture.busy_store
     = Ok [Fixture.salary_model]
  /\ List.length [Fixture.salary_model]
     = if 1 =? 0
       then (List.length (filter (list_query Sample.ann None None) Fixture.busy_store)
             - Z.to_nat 1)%nat
       else Nat.min (Z.to_nat 1)
              (List.length (filter (list_query Sample.ann None None) Fixture.busy_store)
               - Z.to_nat 1)%nat.
Proof.
  assert (H1 : int64_count 1) by (apply int64_count_small; lia).
  split; [exact H1|]. split; [exact sample_busy_page|].
  exact (get_transactions_page 1 1 None None Sample.ann Fixture.busy_store
           [Fixture.salary_model] H1 H1 sample_busy_page).
Defined.

Lemma get_transactions_filtered_witness :
  get_transactions 1 0 (Some "Salary") (Some "") Sample.ann Sample.store
  = Ok [Fixture.salary_model]
  /\ Transaction.category Fixture.salary_model = "Salary".
Proof.
  split; [exact sample_list_salary|].
  pose proof (get_transactions_filtered 1 0 (Some "Salary") (Some "") Sample.ann
                Sample.store [Fixture.salary_model] sample_list_salary) as H.
  inversion H as [|? ? (_ & _ & Hc & _) _]; subst.
  apply (Hc "Salary" eq_refl). discriminate.
Defined.

Lemma isoformat_order_witness :
  datetime_valid (Sample.at_day 2026 12 10)
  /\ datetime_valid Sample.mid_december
  /\ String.compare (DateTime.isoformat (Sample.at_day 2026 12 10))
       (DateTime.isoformat Sample.mid_december)
     = datetime_compare (Sample.at_day 2026 12 10) Sample.mid_december.
Proof.
  assert (H : 1 <= 10 <= 30) by lia.
  split; [exact (sample_day_valid 10 H)|]. split; [exact sample_now_valid|].
  exact (proj1 (isoformat_order _ _ (sample_day_valid 10 H) sample_now_valid)).
Defined.


Lemma get_transactions_sorted_witness :
  utc_dates Sample.store
  /\ get_transactions 0 0 None None Sample.ann Sample.store
     = Ok [Fixture.salary_model; Fixture.lunch_model]
  /\ Sorted (fun a b =>
               datetime_compare (Transaction.date a) (Transaction.date b) <> Lt)
       [Fixture.salary_model; Fixture.lunch_model].
Proof.
  split; [exact sample_store_utc_dates|]. split; [exact sample_list_all|].
  exact (get_transactions_sorted 0 0 None None Sample.ann Sample.store _
           sample_store_utc_dates sample_list_all).
Defined.

Lemma create_then_list_witness :
  Forall dated Sample.store
  /\ exists t ts,
       Transaction.user_id t = User.id Sample.ann
       /\ get_transactions 0 0 None None Sample.ann
            (snd (create_transaction Fixture.dated_body Sample.ann "t5"
                    Sample.mid_december Sample.mid_december Sample.store)) = Ok ts
       /\ In t ts.
Proof.
  split; [exact sample_store_dated|].
  destruct (create_then_list Fixture.dated_body Sample.ann "t5" Sample.mid_december
              Sample.mid_december Sample.store sample_store_dated)
    as (t & ts & _ & Hu & _ & _ & Hts & Hin).
  exists t, ts. auto.
Defined.

Lemma sample_lunch_stored : In Sample.lunch Sample.store.
Proof.
  simpl. auto.
Qed.

Lemma delete_then_read_witness :
  unique_ids Sample.store
  /\ In Sample.lunch Sample.store
  /\ TransactionDoc.user_id Sample.lunch = User.id Sample.ann
  /\ forall ts,
       get_transactions 0 0 None None Sample.ann
         (snd (delete_transaction (TransactionDoc.id Sample.lunch) Sample.ann
                 Sample.store)) = Ok ts ->
       ~ In (TransactionDoc.id Sample.lunch) (map Transaction.id ts).
Proof.
  split; [exact sample_store_unique|]. split; [exact sample_lunch_stored|].
  split; [reflexivity|].
  exact (proj1 (delete_then_read Sample.ann Sample.store Sample.lunch 0 0 None None
                  "monthly" Sample.mid_december sample_store_unique
                  sample_lunch_stored eq_refl)).
Defined.

Lemma delete_twice_witness :
  unique_ids Sample.store
  /\ In Sample.lunch Sample.store
  /\ TransactionDoc.user_id Sample.lunch = User.id Sample.ann
  /\ delete_transaction (TransactionDoc.id Sample.lunch) Sample.ann
       (snd (delete_transaction (TransactionDoc.id Sample.lunch) Sample.ann
               Sample.store))
     = (Ok "Transaction deleted successfully",
        snd (delete_transaction (TransactionDoc.id Sample.lunch) Sample.ann
               Sample.store)).
Proof.
  split; [exact sample_store_unique|]. split; [exact sample_lunch_stored|].
  split; [reflexivity|].
  exact (delete_twice Sample.ann Sample.store Sample.lunch sample_store_unique
           sample_lunch_stored eq_refl).
Defined.

Lemma update_own_fields_witness :
  unique_ids Sample.store
  /\ In Sample.lunch Sample.store
  /\ TransactionDoc.user_id Sample.lunch = User.id Sample.ann
  /\ TransactionCreate.date Fixture.dated_body = Some (Sample.at_day 2026 12 13)
  /\ exists l1 l2 updated,
       Sample.store = l1 ++ Sample.lunch :: l2
       /\ update_transaction (TransactionDoc.id Sample.lunch) Fixture.dated_body
            Sample.ann Sample.store
          = (Ok updated, l1 ++ TransactionDoc.of_model updated :: l2)
       /\ Transaction.amount updated = TransactionCreate.amount Fixture.dated_body.
Proof.
  split; [exact sample_store_unique|]. split; [exact sample_lunch_stored|].
  split; [reflexivity|]. split; [reflexivity|].
  destruct (update_own_fields Sample.ann Fixture.dated_body Sample.store Sample.lunch
              (Sample.at_day 2026 12 13) sample_store_unique sample_lunch_stored
              eq_refl eq_refl) as (l1 & l2 & updated & H1 & H2 & H3).
  exists l1, l2, updated. split; [exact H1|]. split; [exact H2|].
  rewrite H3. reflexivity.
Defined.

Lemma sample_budget_positive : (0 < User.monthly_budget Sample.ann)%Q.
Proof.
  reflexivity.
Qed.

Lemma budget_used_percent_formula_witness :
  (0 < User.monthly_budget Sample.ann)%Q
  /\ exists d,
       get_dashboard_data "monthly" Sample.ann Sample.mid_december Sample.store = Ok d
       /\ ((total_expenses d <= User.monthly_budget Sample.ann)%Q ->
           budget_used_percent d
           = (total_expenses d / User.monthly_budget Sample.ann * 100)%Q).
Proof.
  split; [exact sample_budget_positive|].
  destruct (budget_used_percent_formula "monthly" Sample.ann Sample.mid_december
              Sample.store sample_budget_positive) as (d & H1 & H2 & _).
  exists d. split; assumption.
Defined.

Lemma dashboard_empty_witness :
  period_transactions Sample.ann (start_date_of "weekly" Sample.mid_december)
    [Sample.rent] = []
  /\ exists d,
       get_dashboard_data "weekly" Sample.ann Sample.mid_december [Sample.rent] = Ok d
       /\ total_income d = 0%Q
       /\ total_expenses d = 0%Q
       /\ recent_transactions d = [].
Proof.
  split; [exact sample_empty_period|].
  destruct (dashboard_empty "weekly" Sample.ann Sample.mid_december [Sample.rent]
              sample_empty_period) as (d & H1 & H2 & H3 & _ & _ & H4 & _).
  exists d. auto.
Defined.

Lemma writes_of_others_invisible_witness :
  User.id Sample.bob <> User.id Sample.ann
  /\ get_transactions 0 0 None None Sample.ann
       (snd (delete_transaction "t4" Sample.bob Sample.store))
     = get_transactions 0 0 None None Sample.ann Sample.store.
Proof.
  split; [exact sample_users_differ|].
  exact (proj1 (writes_of_others_invisible Sample.ann Sample.bob "t4" "t5"
                  Fixture.dated_body Sample.mid_december Sample.mid_december
                  0 0 None None "monthly" Sample.store sample_users_differ
                  _ (or_intror (or_intror eq_refl)))).
Defined.

Lemma sample_undated_stored : In Fixture.undated_doc Fixture.undated_store.
Proof.
  simpl. auto.
Qed.

Lemma undated_document_witness :
  In Fixture.undated_doc Fixture.undated_store
  /\ TransactionDoc.user_id Fixture.undated_doc = User.id Sample.ann
  /\ TransactionDoc.deleted Fixture.undated_doc = false
  /\ TransactionDoc.date Fixture.undated_doc = None
  /\ get_transactions 0 0 None None Sample.ann Fixture.undated_store
     = Unhandled (ValidationError "date" "none is not an allowed value").
Proof.
  split; [exact sample_undated_stored|]. repeat (split; [reflexivity|]).
  exact (proj1 (undated_document Sample.ann Fixture.undated_store Fixture.undated_doc
                  "monthly" Sample.mid_december sample_undated_stored
                  eq_refl eq_refl eq_refl)).
Defined.

Lemma sample_november_month : 1 <= DateTime.month Fixture.mid_november <= 11.
Proof.
  simpl. lia.
Qed.

Lemma sample_november_day : 1 <= DateTime.day Fixture.mid_november.
Proof.
  simpl. lia.
Qed.

Lemma insights_month_end_witness :
  positive_amounts Sample.store
  /\ 1 <= DateTime.month Fixture.mid_november <= 11
  /\ 1 <= DateTime.day Fixture.mid_november
  /\ In Sample.lunch (insights_window Sample.ann Fixture.mid_november Sample.store)
  /\ TransactionDoc.type Sample.lunch = "expense"
  /\ exists first_tips spend balance message,
       get_insights Sample.ann Fixture.mid_november Sample.store
       = Ok (mkInsights
               (first_tips
                  ++ budget_tip
                       (doc_sum "expense"
                          (insights_window Sample.ann Fixture.mid_november Sample.store))
                       (User.monthly_budget Sample.ann))
               (MonthEnd spend balance message)).
Proof.
  split; [exact sample_store_positive|]. split; [exact sample_november_month|].
  split; [exact sample_november_day|]. split; [exact sample_november_window|].
  split; [reflexivity|].
  destruct (insights_month_end Sample.ann Fixture.mid_november Sample.store
              Sample.lunch sample_store_positive sample_november_month
              sample_november_day sample_november_window eq_refl)
    as (first_tips & message & _ & H).
  exists first_tips. eexists. eexists. exists message. exact H.
Defined.

Lemma sample_verify :
  Fixture.verify (UserCreate.password Sample.ann_signup)
    (Fixture.hash (UserCreate.password Sample.ann_signup)) = Some true.
Proof.
  reflexivity.
Qed.

Lemma sample_no_users (e : string) :
  forall d : UserDoc.t, In d [] -> UserDoc.email d <> e.
Proof.
  intros d [].
Qed.

Lemma sample_no_user_ids (i : string) :
  forall d : UserDoc.t, In d [] -> User.id (UserDoc.user d) <> i.
Proof.
  intros d [].
Qed.

Lemma register_then_login_witness :
  Fixture.verify (UserCreate.password Sample.ann_signup)
    (Fixture.hash (UserCreate.password Sample.ann_signup)) = Some true
  /\ (forall d : UserDoc.t,
         In d [] -> UserDoc.email d <> UserCreate.email Sample.ann_signup)
  /\ exists token users',
       register Fixture.hash Fixture.encode Sample.ann_signup "u-1"
         Sample.mid_december [] = (Ok token, users')
       /\ login Fixture.verify (fun i => ("later:" ++ i)%string)
            (UserLogin.make (UserCreate.email Sample.ann_signup)
               (UserCreate.password Sample.ann_signup)) users'
          = Ok (mkTokenResponse "later:u-1" "bearer" (token_user token)).
Proof.
  split; [exact sample_verify|]. split; [exact (sample_no_users _)|].
  destruct (register_then_login Fixture.hash Fixture.verify Fixture.encode
              (fun i => ("later:" ++ i)%string)
              Sample.ann_signup "u-1" Sample.mid_december [] sample_verify
              (sample_no_users _)) as (token & users' & H1 & _ & H2).
  exists token, users'. split; [exact H1|exact H2].
Defined.

Lemma sample_decode : Fixture.decode (Fixture.encode "u-1") = Some (Some "u-1").
Proof.
  reflexivity.
Qed.

Lemma register_then_authenticate_witness :
  Fixture.decode (Fixture.encode "u-1") = Some (Some "u-1")
  /\ (forall d : UserDoc.t,
         In d [] -> UserDoc.email d <> UserCreate.email Sample.ann_signup)
  /\ (forall d : UserDoc.t, In d [] -> User.id (UserDoc.user d) <> "u-1")
  /\ exists token users',
       register Fixture.hash Fixture.encode Sample.ann_signup "u-1"
         Sample.mid_december [] = (Ok token, users')
       /\ get_current_user Fixture.decode (access_token token) users'
          = Ok (token_user token).
Proof.
  split; [exact sample_decode|]. split; [exact (sample_no_users _)|].
  split; [exact (sample_no_user_ids _)|].
  destruct (register_then_authenticate Fixture.hash Fixture.encode Fixture.decode
              Sample.ann_signup "u-1" Sample.mid_december [] sample_decode
              (sample_no_users _) (sample_no_user_ids _))
    as (token & users' & H1 & _ & H2 & _).
  exists token, users'. split; assumption.
Defined.

Lemma sample_bad_token : Fixture.decode "garbage" = None.
Proof.
  reflexivity.
Qed.

Lemma sample_good_token :
  get_current_user Fixture.decode "token:u-ann" [Sample.ann_doc] = Ok Sample.ann.
Proof.
  reflexivity.
Qed.

Lemma get_current_user_sound_witness :
  Fixture.decode "garbage" = None
  /\ get_current_user Fixture.decode "garbage" [Sample.ann_doc]
     = HTTPException 401 "Could not validate credentials"
  /\ get_current_user Fixture.decode "token:u-ann" [Sample.ann_doc] = Ok Sample.ann
  /\ exists d,
       In d [Sample.ann_doc] /\ UserDoc.user d = Sample.ann
       /\ Fixture.decode "token:u-ann" = Some (Some (User.id Sample.ann)).
Proof.
  split; [exact sample_bad_token|]. split.
  { exact (proj1 (get_current_user_sound Fixture.decode "garbage" [Sample.ann_doc])
             (or_introl sample_bad_token)). }
  split; [exact sample_good_token|].
  exact (proj2 (get_current_user_sound Fixture.decode "token:u-ann" [Sample.ann_doc])
           Sample.ann sample_good_token).
Defined.

Lemma sample_login_unreadable_hash :
  login Fixture.verify Fixture.encode
    (UserLogin.make "ann@example.com" "TestPass123!") [Sample.ann_doc]
  = Unhandled (ValueError "hash could not be identified").
Proof.
  reflexivity.
Qed.

Lemma sample_users_unique : unique_emails [Sample.ann_doc].
Proof.
  unfold unique_emails. simpl. repeat constructor. intros [].
Qed.

Lemma register_keeps_unique_emails_witness :
  unique_emails [Sample.ann_doc]
  /\ unique_emails
       (snd (register Fixture.hash Fixture.encode Sample.ann_signup "u-2"
               Sample.mid_december [Sample.ann_doc])).
Proof.
  split; [exact sample_users_unique|].
  exact (proj1 (register_keeps_unique_emails Fixture.hash Fixture.encode
                  Sample.ann_signup "u-2" Sample.mid_december [Sample.ann_doc]
                  sample_users_unique)).
Defined.

Lemma budgets_scoped_witness :
  User.id Sample.bob <> User.id Sample.ann
  /\ exists b own,
       create_budget Fixture.food_budget Sample.ann "b2" Sample.mid_december
         [Fixture.rent_budget] = (Ok b, [Fixture.rent_budget] ++ [b])
       /\ get_budgets Sample.ann ([Fixture.rent_budget] ++ [b]) = Ok (own ++ [b])
       /\ get_budgets Sample.bob ([Fixture.rent_budget] ++ [b])
          = get_budgets Sample.bob [Fixture.rent_budget].
Proof.
  split; [exact sample_users_differ|].
  destruct (budgets_scoped Fixture.food_budget Sample.ann Sample.bob "b2"
              Sample.mid_december [Fixture.rent_budget] sample_users_differ)
    as (b & own & H1 & _ & _ & _ & H2 & H3).
  exists b, own. auto.
Defined.

Lemma prepare_for_mongo_spec_witness :
  map fst (prepare_for_mongo (Transaction_dict Fixture.lunch_model))
  = map fst (Transaction_dict Fixture.lunch_model)
  /\ Forall (fun kv => forall d, snd kv <> VDatetime d)
       (prepare_for_mongo (Transaction_dict Fixture.lunch_model)).
Proof.
  destruct (prepare_for_mongo_spec (Transaction_dict Fixture.lunch_model))
    as (H1 & _ & H3).
  split; assumption.
Defined.

Lemma mongo_round_trip_witness :
  Iso.read (DateTime.isoformat (Transaction.date Fixture.lunch_model))
  = Some (Transaction.date Fixture.lunch_model)
  /\ Iso.read (DateTime.isoformat (Transaction.created_at Fixture.lunch_model))
     = Some (Transaction.created_at Fixture.lunch_model)
  /\ parse_from_mongo Iso.read (prepare_for_mongo (Transaction_dict Fixture.lunch_model))
     = Transaction_dict Fixture.lunch_model.
Proof.
  split; [exact sample_read_back|]. split; [exact sample_read_back|].
  exact (mongo_round_trip Iso.read Fixture.lunch_model sample_read_back
           sample_read_back).
Defined.

Lemma parse_from_mongo_keeps_witness :
  map fst (parse_from_mongo Iso.read [("date", VStr "yesterday"); ("note", VStr "x")])
  = map fst [("date", VStr "yesterday"); ("note", VStr "x")].
Proof.
  exact (proj1 (parse_from_mongo_keeps Iso.read
                  [("date", VStr "yesterday"); ("note", VStr "x")])).
Defined.

Lemma stored_amounts_positive_witness :
  positive_amounts Sample.store
  /\ positive_amounts
       (snd (put_transaction "t1" Fixture.dated_body Sample.ann Sample.store)).
Proof.
  split; [exact sample_store_positive|].
  exact (proj1 (proj2 (stored_amounts_positive "t1" "t5" Fixture.dated_body
                         Sample.ann Sample.mid_december Sample.mid_december
                         Sample.store sample_store_positive))).
Defined.

Lemma sample_fresh_id : ~ In "t5" (map TransactionDoc.id Sample.store).
Proof.
  simpl. intuition discriminate.
Qed.

Lemma stored_ids_unique_witness :
  unique_ids Sample.store
  /\ ~ In "t5" (map TransactionDoc.id Sample.store)
  /\ unique_ids
       (snd (post_transactions Fixture.dated_body Sample.ann "t5"
               Sample.mid_december Sample.mid_december Sample.store)).
Proof.
  split; [exact sample_store_unique|]. split; [exact sample_fresh_id|].
  exact (proj1 (stored_ids_unique "t1" "t5" Fixture.dated_body Sample.ann
                  Sample.mid_december Sample.mid_december Sample.store
                  sample_store_unique) sample_fresh_id).
Defined.

Lemma category_breakdown_entries_witness :
  exists d,
    get_dashboard_data "monthly" Sample.ann Sample.mid_december Sample.store = Ok d
    /\ NoDup (map fst (category_breakdown d))
    /\ forall k v, In (k, v) (category_breakdown d) ->
                   exists ts, v = sum_amounts (category_expense k) ts.
Proof.
  destruct (category_breakdown_entries "monthly" Sample.ann Sample.mid_december
              Sample.store) as (d & ts & Hd & _ & Hnd & _ & Hsum).
  exists d. split; [exact Hd|]. split; [exact Hnd|].
  intros k v Hin. exists ts. exact (Hsum k v Hin).
Defined.


